(** * IPv4 receive path of Ip4Dxe: a shallow embedding of Ip4Input.c

    The development follows MdeModulePkg/Universal/Network/Ip4Dxe/Ip4Input.c
    function by function.  Intrusive circular lists (LIST_ENTRY with a
    sentinel head) are modelled as Rocq lists together with a cursor: a list
    of [n] nodes has the positions [0 .. n-1] for its nodes and the position
    [n] for the sentinel.  INTN values are modelled in [Z]: the offsets and
    lengths of a datagram stay far below the range of an INTN; the one
    explicit narrowing cast, [(UINT32) Len], is written out.  ASSERT is
    modelled as in a release build (MDEPKG_NDEBUG):
    it has no effect; the asserted conditions are given as boolean
    definitions of their own. *)

From Stdlib Require Import ZArith List Bool Lia Arith.
Import ListNotations.
Local Open Scope Z_scope.

(* ================================================================== *)
(** * Data model *)
(* ================================================================== *)

(** IP4_HEAD, the IPv4 header in host byte order. *)
Record IP4_HEAD : Type := mkHead {
  Ver      : Z;
  HeadLen  : Z;   (* in 4-byte units *)
  Tos      : Z;
  TotalLen : Z;
  Id       : Z;
  Fragment : Z;   (* flags and offset word *)
  Ttl      : Z;
  Protocol : Z;
  Checksum : Z;
  Src      : Z;
  Dst      : Z
}.

(** Modelled from the spec: the cast types of Ip4Common.h (the header is
    not part of the sources); the value 0 of the C code is [IP4_CAST_NONE]. *)
Inductive IP4_CAST : Type :=
| IP4_CAST_NONE
| IP4_PROMISCUOUS
| IP4_LOCAL_HOST
| IP4_MULTICAST
| IP4_LOCAL_BROADCAST
| IP4_SUBNET_BROADCAST.

Definition IP4_CAST_eqb (a b : IP4_CAST) : bool :=
  match a, b with
  | IP4_CAST_NONE, IP4_CAST_NONE
  | IP4_PROMISCUOUS, IP4_PROMISCUOUS
  | IP4_LOCAL_HOST, IP4_LOCAL_HOST
  | IP4_MULTICAST, IP4_MULTICAST
  | IP4_LOCAL_BROADCAST, IP4_LOCAL_BROADCAST
  | IP4_SUBNET_BROADCAST, IP4_SUBNET_BROADCAST => true
  | _, _ => false
  end.

(** Modelled from the spec: IP4_IS_BROADCAST of Ip4Common.h, "cast is any
    broadcast flavor". *)
Definition IP4_IS_BROADCAST (c : IP4_CAST) : bool :=
  match c with
  | IP4_LOCAL_BROADCAST | IP4_SUBNET_BROADCAST => true
  | _ => false
  end.

Inductive EFI_STATUS : Type :=
| EFI_SUCCESS
| EFI_NOT_FOUND
| EFI_NOT_STARTED
| EFI_INVALID_PARAMETER
| EFI_OUT_OF_RESOURCES.

(** IP4_CLIP_INFO, the per-packet side band ([End] is spelled [End_]). *)
Record IP4_CLIP_INFO : Type := mkInfo {
  LinkFlag : Z;
  CastType : IP4_CAST;
  Start    : Z;
  End_     : Z;
  Length   : Z;
  Life     : Z;
  Status   : EFI_STATUS
}.

(** Which end of a buffer NetbufTrim works on. *)
Inductive NET_BUF_END : Type := NET_BUF_HEAD | NET_BUF_TAIL.

(** NET_BUF as far as this file touches it.  [Ip] is the header
    [Packet->Ip] points to (on a frame that Ip4AccpetFrame has not yet
    parsed: the header at the front of its data).  [Vector] names the data
    block the buffer refers to (clones share it); [Trims] records, oldest
    first, the NetbufTrim requests made on the buffer as (length, end) with
    the length as the UINT32 the callee receives. *)
Record NET_BUF : Type := mkBuf {
  Ip        : IP4_HEAD;
  ProtoData : IP4_CLIP_INFO;      (* IP4_GET_CLIP_INFO (Packet) *)
  TotalSize : Z;
  Vector    : nat;
  Trims     : list (Z * NET_BUF_END)
}.

Definition IP4_GET_CLIP_INFO (Packet : NET_BUF) : IP4_CLIP_INFO :=
  ProtoData Packet.

Definition set_Info (Packet : NET_BUF) (Info : IP4_CLIP_INFO) : NET_BUF :=
  mkBuf (Ip Packet) Info (TotalSize Packet) (Vector Packet) (Trims Packet).

Definition set_Start (Info : IP4_CLIP_INFO) (v : Z) : IP4_CLIP_INFO :=
  mkInfo (LinkFlag Info) (CastType Info) v (End_ Info) (Length Info)
         (Life Info) (Status Info).

Definition set_End (Info : IP4_CLIP_INFO) (v : Z) : IP4_CLIP_INFO :=
  mkInfo (LinkFlag Info) (CastType Info) (Start Info) v (Length Info)
         (Life Info) (Status Info).

Definition set_Length (Info : IP4_CLIP_INFO) (v : Z) : IP4_CLIP_INFO :=
  mkInfo (LinkFlag Info) (CastType Info) (Start Info) (End_ Info) v
         (Life Info) (Status Info).

Definition set_Life (Info : IP4_CLIP_INFO) (v : Z) : IP4_CLIP_INFO :=
  mkInfo (LinkFlag Info) (CastType Info) (Start Info) (End_ Info)
         (Length Info) v (Status Info).

Definition set_CastType (Info : IP4_CLIP_INFO) (c : IP4_CAST) : IP4_CLIP_INFO :=
  mkInfo (LinkFlag Info) c (Start Info) (End_ Info) (Length Info)
         (Life Info) (Status Info).

Definition set_Status (Info : IP4_CLIP_INFO) (s : EFI_STATUS) : IP4_CLIP_INFO :=
  mkInfo (LinkFlag Info) (CastType Info) (Start Info) (End_ Info)
         (Length Info) (Life Info) s.

(** [(UINT32) Len] for an INTN [Len]. *)
Definition UINT32_of (Len : Z) : Z := Len mod 2 ^ 32.

(** Modelled from the spec: NetbufTrim of NetLib, the head/tail trim of the
    packet buffer abstraction: [Len] bytes leave the named end (all of the
    buffer when [Len] is beyond its size), and the request is recorded. *)
Definition NetbufTrim (Packet : NET_BUF) (Len : Z) (e : NET_BUF_END) : NET_BUF :=
  mkBuf (Ip Packet) (ProtoData Packet)
        (TotalSize Packet - Z.min Len (TotalSize Packet))
        (Vector Packet) (Trims Packet ++ [(Len, e)]).

(* ================================================================== *)
(** * Ip4TrimPacket *)
(* ================================================================== *)

(** The two ASSERTs at the entry of Ip4TrimPacket. *)
Definition Ip4TrimPacket_assert1 (Info : IP4_CLIP_INFO) : bool :=
  Start Info + Length Info =? End_ Info.

Definition Ip4TrimPacket_assert2 (Info : IP4_CLIP_INFO) (Start0 End0 : Z) : bool :=
  (Start Info <? End0) && (Start0 <? End_ Info).

(** The head part: [if (Info->Start < Start) { ... }]. *)
Definition Ip4TrimPacket_head (Packet : NET_BUF) (Start0 : Z) : NET_BUF :=
  let Info := IP4_GET_CLIP_INFO Packet in
  if Start Info <? Start0 then
    let Len := Start0 - Start Info in
    let Packet1 := NetbufTrim Packet (UINT32_of Len) NET_BUF_HEAD in
    let Info1 := set_Start Info Start0 in
    let Info2 := set_Length Info1 (Length Info1 - Len) in
    set_Info Packet1 Info2
  else Packet.

(** The tail part: [if (End < Info->End) { ... }], with
    [Len = End - Info->End]. *)
Definition Ip4TrimPacket_tail (Packet : NET_BUF) (End0 : Z) : NET_BUF :=
  let Info := IP4_GET_CLIP_INFO Packet in
  if End0 <? End_ Info then
    let Len := End0 - End_ Info in
    let Packet1 := NetbufTrim Packet (UINT32_of Len) NET_BUF_TAIL in
    let Info1 := set_End Info End0 in
    let Info2 := set_Length Info1 (Length Info1 - Len) in
    set_Info Packet1 Info2
  else Packet.

Definition Ip4TrimPacket (Packet : NET_BUF) (Start0 End0 : Z) : NET_BUF :=
  Ip4TrimPacket_tail (Ip4TrimPacket_head Packet Start0) End0.

(* ================================================================== *)
(** * Consumer-side records, the heap and the event trace *)
(* ================================================================== *)

(** EFI_IP4_RECEIVE_DATA as Ip4WrapRxData fills it (time stamp, recycle
    event and fragment table left out). *)
Record EFI_IP4_RECEIVE_DATA : Type := mkRxData {
  HeaderLength  : Z;
  Header        : IP4_HEAD;
  OptionsLength : Z;
  Options       : bool;          (* [true]: points behind the header *)
  DataLength    : Z
}.

(** IP4_RXDATA_WRAP. *)
Record IP4_RXDATA_WRAP : Type := mkWrap {
  WrapPacket : NET_BUF;
  RxData     : EFI_IP4_RECEIVE_DATA
}.

(** EFI_IP4_COMPLETION_TOKEN. *)
Record EFI_IP4_COMPLETION_TOKEN : Type := mkToken {
  Event       : nat;
  TokenStatus : EFI_STATUS;
  TokenRxData : option EFI_IP4_RECEIVE_DATA
}.

(** IP4_ASSEMBLE_ENTRY; the fields that share a name with IP4_HEAD or
    IP4_CLIP_INFO carry the prefix [Asm].  [Head] and [Info] are assigned
    together only (both NULL in Ip4CreateAssembleEntry, both set in lines
    387-388), so the two pointers are one optional pair. *)
Record IP4_ASSEMBLE_ENTRY : Type := mkAsm {
  AsmDst      : Z;
  AsmSrc      : Z;
  AsmId       : Z;
  AsmProtocol : Z;
  AsmTotalLen : Z;
  CurLen      : Z;
  AsmHeadInfo : option (IP4_HEAD * IP4_CLIP_INFO);
  AsmLife     : Z;
  Fragments   : list NET_BUF
}.

(** What the receive path does to the outside, in order. *)
Inductive EVENT : Type :=
| EvClone  (Packet : NET_BUF)                  (* NetbufClone succeeded *)
| EvFree   (Packet : NET_BUF)                  (* NetbufFree *)
| EvSignal (Token : EFI_IP4_COMPLETION_TOKEN)  (* gBS->SignalEvent *)
| EvReceiveFrame                               (* Ip4ReceiveFrame re-armed *)
| EvDispatchDpc.                               (* NetLibDispatchDpc *)

(** The memory the path allocates from.  [Pool] lists the outcomes of the
    coming fallible allocations (none listed: the allocation succeeds);
    [RefCnt] is the reference count of each data block.  [FreeHook] holds
    the free hooks of the data blocks that have one: the only hook the
    path registers is Ip4OnFreeFragments, so a hook is given by its
    argument, the assemble entry.  [Events] is the trace of what the
    functions of the path do themselves; what a free hook releases when
    NetLib calls it back is kept apart, in [HookFrees]. *)
Record HEAP : Type := mkHeap {
  Pool       : list bool;
  RefCnt     : nat -> nat;
  NextVector : nat;
  Events     : list EVENT;
  FreeHook   : list (nat * IP4_ASSEMBLE_ENTRY);
  HookFrees  : list NET_BUF
}.

(** One fallible allocation (AllocatePool, CreateEvent, NetbufClone, ...). *)
Definition Allocate (h : HEAP) : bool * HEAP :=
  match Pool h with
  | [] => (true, h)
  | ok :: rest =>
      (ok, mkHeap rest (RefCnt h) (NextVector h) (Events h) (FreeHook h)
                  (HookFrees h))
  end.

Definition emit (e : EVENT) (h : HEAP) : HEAP :=
  mkHeap (Pool h) (RefCnt h) (NextVector h) (Events h ++ [e]) (FreeHook h)
         (HookFrees h).

Definition set_RefCnt (h : HEAP) (v : nat) (c : nat) : HEAP :=
  mkHeap (Pool h) (fun v' => if Nat.eqb v' v then c else RefCnt h v')
         (NextVector h) (Events h) (FreeHook h) (HookFrees h).

Definition set_FreeHook (h : HEAP) (l : list (nat * IP4_ASSEMBLE_ENTRY)) : HEAP :=
  mkHeap (Pool h) (RefCnt h) (NextVector h) (Events h) l (HookFrees h).

(** A fragment released by a free hook. *)
Definition hook_frees (Fragment : NET_BUF) (h : HEAP) : HEAP :=
  mkHeap (Pool h) (RefCnt h) (NextVector h) (Events h) (FreeHook h)
         (HookFrees h ++ [Fragment]).

(** The hook of the data block [v], if it has one, and the table without
    it. *)
Definition Ip4HookOf (v : nat) (l : list (nat * IP4_ASSEMBLE_ENTRY))
    : option IP4_ASSEMBLE_ENTRY :=
  option_map snd (find (fun e => Nat.eqb (fst e) v) l).

Definition Ip4Unhook (v : nat) (l : list (nat * IP4_ASSEMBLE_ENTRY))
    : list (nat * IP4_ASSEMBLE_ENTRY) :=
  filter (fun e => negb (Nat.eqb (fst e) v)) l.

(** Modelled from the spec: the release of one reference to the data block
    [v].  With the last reference the block goes, and if it has a free
    hook ("whose destructor releases the entire assembly entry") the hook
    runs once: Ip4OnFreeFragments calls Ip4FreeAssembleEntry, which
    releases the fragments of the entry, first to last, each of which may
    be the last reference of a block with a hook of its own.  [n] bounds
    the depth of hooks within hooks; every hook that runs leaves the
    table, so the length of the table is enough. *)
Fixpoint NetbufFreeVector (n : nat) (v : nat) (h : HEAP) : HEAP :=
  let h1 := set_RefCnt h v (Nat.pred (RefCnt h v)) in
  if Nat.eqb (RefCnt h1 v) 0 then
    match Ip4HookOf v (FreeHook h1), n with
    | Some Arg, S n' =>
        fold_left
          (fun h' Fragment =>
             NetbufFreeVector n' (Vector Fragment) (hook_frees Fragment h'))
          (Fragments Arg)
          (set_FreeHook h1 (Ip4Unhook v (FreeHook h1)))
    | _, _ => h1
    end
  else h1.

(** Modelled from the spec: NetbufFree of NetLib, the release of one
    reference to a packet buffer. *)
Definition NetbufFree (Packet : NET_BUF) (h : HEAP) : HEAP :=
  emit (EvFree Packet)
       (NetbufFreeVector (length (FreeHook h)) (Vector Packet) h).

(** Ip4OnFreeFragments, the free hook of an assembled packet, as NetLib
    calls it back from within NetbufFree: Ip4FreeAssembleEntry on its
    argument, that is the release of every fragment, first to last, here
    recorded in [HookFrees] (see [Ip4OnFreeFragments_same]). *)
Definition Ip4OnFreeFragments (Arg : IP4_ASSEMBLE_ENTRY) (h : HEAP) : HEAP :=
  fold_left
    (fun h' Fragment =>
       NetbufFreeVector (length (FreeHook h)) (Vector Fragment)
                        (hook_frees Fragment h'))
    (Fragments Arg) h.

(** What a release leaves alone, whatever hooks run: the pool, the block
    counter and the trace; and it adds no hook. *)
Definition Ip4HeapKept (h h' : HEAP) : Prop :=
  Pool h' = Pool h /\ NextVector h' = NextVector h /\ Events h' = Events h /\
  (length (FreeHook h') <= length (FreeHook h))%nat.

(** Two heaps that differ in what is recorded only: the same pool, the
    same reference counts, the same hooks. *)
Definition Ip4SameMemory (h1 h2 : HEAP) : Prop :=
  Pool h1 = Pool h2 /\ (forall v, RefCnt h1 v = RefCnt h2 v) /\
  NextVector h1 = NextVector h2 /\ FreeHook h1 = FreeHook h2.

(** Modelled from the spec: NET_BUF_SHARED of NetLib, "a packet whose
    underlying buffer has more than one outstanding reference". *)
Definition NET_BUF_SHARED (h : HEAP) (Packet : NET_BUF) : bool :=
  Nat.ltb 1 (RefCnt h (Vector Packet)).

(* ================================================================== *)
(** * The assemble table *)
(* ================================================================== *)

(** "The default life for the packet is 120 seconds." *)
Definition IP4_FRAGMENT_LIFE : Z := 120.

(** Modelled from the spec: the MF and DF bits and the offset mask of the
    fragment word ("as defined in the relevant standard"); the macros are
    in Ip4Common.h. *)
Definition IP4_HEAD_DF_MASK : Z := 0x4000.
Definition IP4_HEAD_MF_MASK : Z := 0x2000.
Definition IP4_HEAD_OFFSET_MASK : Z := 0x1fff.

Definition IP4_LAST_FRAGMENT (FragmentField : Z) : bool :=
  Z.land FragmentField IP4_HEAD_MF_MASK =? 0.

Definition AsmHead (a : IP4_ASSEMBLE_ENTRY) : option IP4_HEAD :=
  option_map fst (AsmHeadInfo a).

Definition AsmInfo (a : IP4_ASSEMBLE_ENTRY) : option IP4_CLIP_INFO :=
  option_map snd (AsmHeadInfo a).

(** IP4_ASSEMBLE_TABLE: [Bucket[Index]]. *)
Definition IP4_ASSEMBLE_TABLE : Type := nat -> list IP4_ASSEMBLE_ENTRY.

Definition set_Bucket (Table : IP4_ASSEMBLE_TABLE) (Index : nat)
    (b : list IP4_ASSEMBLE_ENTRY) : IP4_ASSEMBLE_TABLE :=
  fun i => if Nat.eqb i Index then b else Table i.

Definition Ip4InitAssembleTable : IP4_ASSEMBLE_TABLE := fun _ => [].

Definition Ip4CreateAssembleEntry (Dst0 Src0 Id0 Protocol0 : Z) (h : HEAP)
    : option IP4_ASSEMBLE_ENTRY * HEAP :=
  let '(ok, h1) := Allocate h in
  if ok then
    (Some (mkAsm Dst0 Src0 Id0 Protocol0 0 0 None IP4_FRAGMENT_LIFE []), h1)
  else (None, h1).

(** Ip4FreeAssembleEntry: every fragment is unlinked and freed, first to
    last. *)
Definition Ip4FreeAssembleEntry (Assemble : IP4_ASSEMBLE_ENTRY) (h : HEAP) : HEAP :=
  fold_left (fun h' Fragment => NetbufFree Fragment h') (Fragments Assemble) h.

Definition set_Fragments (a : IP4_ASSEMBLE_ENTRY) (l : list NET_BUF) (c : Z)
    : IP4_ASSEMBLE_ENTRY :=
  mkAsm (AsmDst a) (AsmSrc a) (AsmId a) (AsmProtocol a) (AsmTotalLen a) c
        (AsmHeadInfo a) (AsmLife a) l.

Definition set_HeadInfo (a : IP4_ASSEMBLE_ENTRY) (hd : IP4_HEAD)
    (i : IP4_CLIP_INFO) : IP4_ASSEMBLE_ENTRY :=
  mkAsm (AsmDst a) (AsmSrc a) (AsmId a) (AsmProtocol a) (AsmTotalLen a)
        (CurLen a) (Some (hd, i)) (AsmLife a) (Fragments a).

Definition set_TotalLen (a : IP4_ASSEMBLE_ENTRY) (t : Z) : IP4_ASSEMBLE_ENTRY :=
  mkAsm (AsmDst a) (AsmSrc a) (AsmId a) (AsmProtocol a) t (CurLen a)
        (AsmHeadInfo a) (AsmLife a) (Fragments a).

Definition set_AsmLife (a : IP4_ASSEMBLE_ENTRY) (l : Z) : IP4_ASSEMBLE_ENTRY :=
  mkAsm (AsmDst a) (AsmSrc a) (AsmId a) (AsmProtocol a) (AsmTotalLen a)
        (CurLen a) (AsmHeadInfo a) l (Fragments a).

(** The key test of the lookup loop. *)
Definition Ip4AssembleMatch (Assemble : IP4_ASSEMBLE_ENTRY) (IpHead : IP4_HEAD) : bool :=
  (AsmDst Assemble =? Dst IpHead) && (AsmSrc Assemble =? Src IpHead) &&
  (AsmId Assemble =? Id IpHead) && (AsmProtocol Assemble =? Protocol IpHead).

(** The lookup loop over one bucket: the first matching entry and its
    position, if any. *)
Fixpoint Ip4FindAssemble (IpHead : IP4_HEAD) (b : list IP4_ASSEMBLE_ENTRY)
    : option (nat * IP4_ASSEMBLE_ENTRY) :=
  match b with
  | [] => None
  | Assemble :: b' =>
      if Ip4AssembleMatch Assemble IpHead then Some (0%nat, Assemble)
      else
        match Ip4FindAssemble IpHead b' with
        | Some (pos, A) => Some (S pos, A)
        | None => None
        end
  end.

(** Replacing and unlinking the node at a position of a list. *)
Fixpoint list_set {A} (l : list A) (i : nat) (x : A) : list A :=
  match l, i with
  | [], _ => []
  | _ :: l', O => x :: l'
  | y :: l', S i' => y :: list_set l' i' x
  end.

Fixpoint list_remove {A} (l : list A) (i : nat) : list A :=
  match l, i with
  | [], _ => []
  | _ :: l', O => l'
  | y :: l', S i' => y :: list_remove l' i'
  end.

(* ================================================================== *)
(** * Cursors over a fragment list *)
(* ================================================================== *)

(** In a list of [n] nodes the sentinel [Head] is the position [n]. *)
Definition ForwardLink (n Cur : nat) : nat :=
  if Nat.eqb Cur n then 0%nat else S Cur.

Definition BackLink (n Cur : nat) : nat :=
  match Cur with
  | O => n
  | S c => c
  end.

(** The insertion-point loop: the first fragment with
    [This->Start < Fragment->Start], or the sentinel. *)
Fixpoint Ip4FindInsertPoint (This : IP4_CLIP_INFO) (l : list NET_BUF) : nat :=
  match l with
  | [] => 0%nat
  | Fragment :: l' =>
      if Start This <? Start (IP4_GET_CLIP_INFO Fragment) then 0%nat
      else S (Ip4FindInsertPoint This l')
  end.

(** The check against [Prev = Cur->ForwardLink]: [None] when the packet is
    to be freed, otherwise the packet, trimmed where the code trims it. *)
Definition Ip4CheckPrev (l : list NET_BUF) (Cur : nat) (Packet : NET_BUF)
    : option NET_BUF :=
  let Head := length l in
  let Prev := ForwardLink Head Cur in
  if Nat.eqb Prev Head then Some Packet
  else
    match nth_error l Prev with
    | None => Some Packet
    | Some Fragment =>
        let Node := IP4_GET_CLIP_INFO Fragment in
        let This := IP4_GET_CLIP_INFO Packet in
        if Start This <? End_ Node then
          if End_ This <=? End_ Node then None
          else Some (Ip4TrimPacket Packet (End_ Node) (End_ This))
        else Some Packet
    end.

(** The loop over the nodes behind the inserted packet.  [rest] is the list
    from [Cur] on; the result gives the packet ([None]: removed again, to be
    dropped), what is left of [rest], and the entry's CurLen. *)
Fixpoint Ip4RemoveCovered (Packet : NET_BUF) (rest : list NET_BUF) (Len : Z)
    (h : HEAP) : option NET_BUF * list NET_BUF * Z * HEAP :=
  match rest with
  | [] => (Some Packet, [], Len, h)
  | Fragment :: rest' =>
      let Node := IP4_GET_CLIP_INFO Fragment in
      let This := IP4_GET_CLIP_INFO Packet in
      if End_ Node <=? End_ This then
        Ip4RemoveCovered Packet rest' (Len - Length Node) (NetbufFree Fragment h)
      else if Start Node <? End_ This then
        if Start This =? Start Node then (None, rest, Len, h)
        else (Some (Ip4TrimPacket Packet (Start This) (Start Node)), rest, Len, h)
      else (Some Packet, rest, Len, h)
  end.

(* ================================================================== *)
(** * Ip4Reassemble *)
(* ================================================================== *)

(** What Ip4Reassemble hands back: NULL, the assembled packet together with
    the entry its free hook owns, or a fault where the final CopyMem reads
    through a NULL [Assemble->Info]. *)
Inductive REASM_RETURN : Type :=
| RetNull
| RetPacket (NewPacket : NET_BUF) (Assemble : IP4_ASSEMBLE_ENTRY)
| RetFault.

(** Lines 295-396 on one entry: insertion point, check against [Prev],
    insertion, removal of covered nodes, accounting.  The boolean tells
    whether the packet stayed on the list; when it did not, it was freed and
    Ip4Reassemble returns NULL at once. *)
Definition Ip4InsertFragment (Assemble : IP4_ASSEMBLE_ENTRY) (IpHead : IP4_HEAD)
    (Packet : NET_BUF) (h : HEAP) : bool * IP4_ASSEMBLE_ENTRY * HEAP :=
  let l := Fragments Assemble in
  let Cur := Ip4FindInsertPoint (IP4_GET_CLIP_INFO Packet) l in
  match Ip4CheckPrev l Cur Packet with
  | None => (false, Assemble, NetbufFree Packet h)
  | Some Packet1 =>
      match Ip4RemoveCovered Packet1 (skipn Cur l) (CurLen Assemble) h with
      | (None, rest, Len, h1) =>
          (false, set_Fragments Assemble (firstn Cur l ++ rest) Len,
           NetbufFree Packet1 h1)
      | (Some Packet2, rest, Len, h1) =>
          let This := IP4_GET_CLIP_INFO Packet2 in
          let A1 := set_Fragments Assemble (firstn Cur l ++ Packet2 :: rest)
                                  (Len + Length This) in
          let A2 := if Start This =? 0
                    then set_HeadInfo A1 IpHead This
                    else A1 in
          let A3 := if IP4_LAST_FRAGMENT (Fragment IpHead) && (AsmTotalLen A2 =? 0)
                    then set_TotalLen A2 (End_ This)
                    else A2 in
          (true, A3, h1)
      end
  end.

(** The ASSERT of line 385, [Assemble->Head == NULL], on the entry as it
    is when the call begins (nothing before line 387 writes [Head]). *)
Definition Ip4Reassemble_assert_Head (Assemble : IP4_ASSEMBLE_ENTRY) : bool :=
  match AsmHead Assemble with
  | None => true
  | Some _ => false
  end.

(** The test of line 405. *)
Definition Ip4AssembleDone (Assemble : IP4_ASSEMBLE_ENTRY) : bool :=
  negb (AsmTotalLen Assemble =? 0) && (AsmTotalLen Assemble <=? CurLen Assemble).

(** Modelled from the spec: NetbufFromBufList of NetLib, "a logically
    contiguous datagram buffer that references the fragment list as its
    backing storage, and whose destructor releases the entire assembly
    entry"; its size is the sum of the fragments' sizes, its data block is
    a new one with the free hook Ip4OnFreeFragments on [Arg], and its side
    band is still to be filled in.  [hd] is the header the caller
    publishes on the new buffer. *)
Definition NetbufFromBufList (l : list NET_BUF) (hd : IP4_HEAD)
    (Arg : IP4_ASSEMBLE_ENTRY) (h : HEAP) : option NET_BUF * HEAP :=
  let '(ok, h1) := Allocate h in
  if ok then
    let v := NextVector h1 in
    (Some (mkBuf hd (mkInfo 0 IP4_CAST_NONE 0 0 0 0 EFI_SUCCESS)
                 (fold_right (fun f s => TotalSize f + s) 0 l) v []),
     mkHeap (Pool h1)
            (fun v' => if Nat.eqb v' v then 1%nat else RefCnt h1 v')
            (S v) (Events h1)
            ((v, Arg) :: Ip4Unhook v (FreeHook h1)) (HookFrees h1))
  else (None, h1).

Definition set_Ip (Packet : NET_BUF) (hd : IP4_HEAD) : NET_BUF :=
  mkBuf hd (ProtoData Packet) (TotalSize Packet) (Vector Packet) (Trims Packet).

(** Lines 405-440, once the entry is unlinked from its bucket.  The last
    fragment is [Head->BackLink].  With [Head] and [Info] still NULL the
    buffer is allocated all the same and the CopyMem from [Info] faults. *)
Definition Ip4WrapAssemble (Assemble : IP4_ASSEMBLE_ENTRY) (h : HEAP)
    : REASM_RETURN * HEAP :=
  let Head := length (Fragments Assemble) in
  match nth_error (Fragments Assemble) (BackLink Head Head) with
  | None => (RetFault, h)
  | Some Fragment =>
      if negb (End_ (IP4_GET_CLIP_INFO Fragment) =? AsmTotalLen Assemble) then
        (RetNull, Ip4FreeAssembleEntry Assemble h)
      else
        match AsmHeadInfo Assemble with
        | None =>
            let '(ok, h1) := Allocate h in
            if ok then (RetFault, h1)
            else (RetNull, Ip4FreeAssembleEntry Assemble h1)
        | Some (IpHead, Info) =>
            match NetbufFromBufList (Fragments Assemble) IpHead Assemble h with
            | (None, h1) => (RetNull, Ip4FreeAssembleEntry Assemble h1)
            | (Some NewPacket, h1) =>
                (RetPacket (set_Info NewPacket Info) Assemble, h1)
            end
        end
  end.

Section Reassemble.

(** IP4_ASSEMBLE_HASH of Ip4Input.h gives the bucket of a key; the macro is
    not part of the sources and "the specific mixing is unconstrained". *)
Variable IP4_ASSEMBLE_HASH : Z -> Z -> Z -> Z -> nat.

Definition Ip4Reassemble (Table : IP4_ASSEMBLE_TABLE) (Packet : NET_BUF) (h : HEAP)
    : REASM_RETURN * IP4_ASSEMBLE_TABLE * HEAP :=
  let IpHead := Ip Packet in
      let Index := IP4_ASSEMBLE_HASH (Dst IpHead) (Src IpHead) (Id IpHead)
                                     (Protocol IpHead) in
      let b := Table Index in
      (* find the related entry, or create one at the bucket's head *)
      let found :=
        match Ip4FindAssemble IpHead b with
        | Some (pos, Assemble) => (Some (pos, Assemble, b), h)
        | None =>
            match Ip4CreateAssembleEntry (Dst IpHead) (Src IpHead) (Id IpHead)
                                         (Protocol IpHead) h with
            | (Some Assemble, h1) => (Some (0%nat, Assemble, Assemble :: b), h1)
            | (None, h1) => (None, h1)
            end
        end in
      match found with
      | (None, h1) => (RetNull, Table, NetbufFree Packet h1)
      | (Some (pos, Assemble, b1), h1) =>
          match Ip4InsertFragment Assemble IpHead Packet h1 with
          | (false, A, h2) =>
              (RetNull, set_Bucket Table Index (list_set b1 pos A), h2)
          | (true, A, h2) =>
              if Ip4AssembleDone A then
                let '(r, h3) := Ip4WrapAssemble A h2 in
                (r, set_Bucket Table Index (list_remove b1 pos), h3)
              else
                (RetNull, set_Bucket Table Index (list_set b1 pos A), h2)
          end
      end.

End Reassemble.

(* ================================================================== *)
(** * Service, interfaces and children *)
(* ================================================================== *)

Inductive IP4_SERVICE_STATE : Type :=
| IP4_SERVICE_UNSTARTED
| IP4_SERVICE_STARTED
| IP4_SERVICE_CONFIGED
| IP4_SERVICE_DESTORY.

Inductive IP4_STATE : Type :=
| IP4_STATE_UNCONFIGED
| IP4_STATE_CONFIGED
| IP4_STATE_DESTORY.

(** EFI_IP4_CONFIG_DATA, the fields the receive path reads. *)
Record EFI_IP4_CONFIG_DATA : Type := mkConfig {
  DefaultProtocol   : Z;
  AcceptAnyProtocol : bool;
  AcceptIcmpErrors  : bool;
  AcceptBroadcast   : bool;
  AcceptPromiscuous : bool;
  UseDefaultAddress : bool;
  ReceiveTimeout    : Z        (* UINT32 *)
}.

(** IP4_PROTOCOL, a child.  [InterfaceIp] is [IpInstance->Interface->Ip];
    [Groups] holds [GroupCount] addresses; the TxTokens map belongs to the
    transmit side and is left out. *)
Record IP4_PROTOCOL : Type := mkChild {
  State       : IP4_STATE;
  ConfigData  : EFI_IP4_CONFIG_DATA;
  InterfaceIp : Z;
  Groups      : list Z;
  Received    : list NET_BUF;
  RxTokens    : list EFI_IP4_COMPLETION_TOKEN;
  Delivered   : list IP4_RXDATA_WRAP
}.

Definition GroupCount (IpInstance : IP4_PROTOCOL) : nat :=
  length (Groups IpInstance).

Definition set_Queues (c : IP4_PROTOCOL) (r : list NET_BUF)
    (t : list EFI_IP4_COMPLETION_TOKEN) (d : list IP4_RXDATA_WRAP) : IP4_PROTOCOL :=
  mkChild (State c) (ConfigData c) (InterfaceIp c) (Groups c) r t d.

(** IP4_INTERFACE.  The children on [IpInstances] are named by their
    position in the service's [Children]: the two lists link the same
    objects. *)
Record IP4_INTERFACE : Type := mkIf {
  Configured  : bool;
  IfIp        : Z;
  PromiscRecv : bool;
  IpInstances : list nat
}.

(** IP4_SERVICE. *)
Record IP4_SERVICE : Type := mkSb {
  SbState    : IP4_SERVICE_STATE;
  Assemble   : IP4_ASSEMBLE_TABLE;
  Children   : list IP4_PROTOCOL;
  Interfaces : list IP4_INTERFACE
}.

Definition set_Assemble (IpSb : IP4_SERVICE) (t : IP4_ASSEMBLE_TABLE) : IP4_SERVICE :=
  mkSb (SbState IpSb) t (Children IpSb) (Interfaces IpSb).

Definition set_Children (IpSb : IP4_SERVICE) (c : list IP4_PROTOCOL) : IP4_SERVICE :=
  mkSb (SbState IpSb) (Assemble IpSb) c (Interfaces IpSb).

Inductive ICMP_CLASS : Type :=
| ICMP_INVALID_MESSAGE
| ICMP_ERROR_MESSAGE
| ICMP_QUERY_MESSAGE.

(** What the receive path takes from the rest of the driver and from
    NetLib: macros, tables and functions that are not part of Ip4Input.c. *)
Class Ip4Lib : Type := {
  IP4_ASSEMLE_HASH_SIZE : nat;
  IP4_ASSEMBLE_HASH : Z -> Z -> Z -> Z -> nat;
  (* NetblockChecksum over the header of a frame, given its length *)
  NetblockChecksum : NET_BUF -> Z -> Z;
  Ip4GetHostCast : IP4_SERVICE -> Z -> Z -> IP4_CAST;
  Ip4GetNetCast : Z -> IP4_INTERFACE -> IP4_CAST;
  (* Ip4OptionIsValid on the options of a frame, given their length *)
  Ip4OptionIsValid : NET_BUF -> Z -> bool;
  Ip4NtohHead : IP4_HEAD -> IP4_HEAD;
  NTOHS : Z -> Z;
  HTONL : Z -> Z;
  IP4_US_TO_SEC : Z -> Z;
  mIcmpClass : Z -> ICMP_CLASS;
  (* what NetbufCopy reads at the front of a packet: [Icmp.Head.Type] and
     [Icmp.IpHead.Protocol] *)
  IcmpHeadType : NET_BUF -> Z;
  IcmpIpHeadProtocol : NET_BUF -> Z;
  Ip4IcmpHandle : IP4_SERVICE -> IP4_HEAD -> NET_BUF -> HEAP -> IP4_SERVICE * HEAP;
  Ip4IgmpHandle : IP4_SERVICE -> IP4_HEAD -> NET_BUF -> HEAP -> IP4_SERVICE * HEAP
}.

(** Modelled from the spec: the header bounds and protocol numbers of
    Ip4Common.h ("20-byte minimum header, options up to 40 bytes",
    "[end <= 65535]", ICMP and IGMP by their standard numbers). *)
Definition IP4_MIN_HEADLEN : Z := 20.
Definition IP4_MAX_HEADLEN : Z := 60.
Definition IP4_MAX_PACKET_SIZE : Z := 65535.
Definition IP4_PROTO_ICMP : Z := 1.
Definition IP4_PROTO_IGMP : Z := 2.
Definition IP4_ALLZERO_ADDRESS : Z := 0.

Definition EFI_ERROR (s : EFI_STATUS) : bool :=
  match s with
  | EFI_SUCCESS => false
  | _ => true
  end.

Definition IP4_SERVICE_STATE_eqb (a b : IP4_SERVICE_STATE) : bool :=
  match a, b with
  | IP4_SERVICE_UNSTARTED, IP4_SERVICE_UNSTARTED
  | IP4_SERVICE_STARTED, IP4_SERVICE_STARTED
  | IP4_SERVICE_CONFIGED, IP4_SERVICE_CONFIGED
  | IP4_SERVICE_DESTORY, IP4_SERVICE_DESTORY => true
  | _, _ => false
  end.

Definition IP4_STATE_eqb (a b : IP4_STATE) : bool :=
  match a, b with
  | IP4_STATE_UNCONFIGED, IP4_STATE_UNCONFIGED
  | IP4_STATE_CONFIGED, IP4_STATE_CONFIGED
  | IP4_STATE_DESTORY, IP4_STATE_DESTORY => true
  | _, _ => false
  end.

Definition ICMP_CLASS_eqb (a b : ICMP_CLASS) : bool :=
  match a, b with
  | ICMP_INVALID_MESSAGE, ICMP_INVALID_MESSAGE
  | ICMP_ERROR_MESSAGE, ICMP_ERROR_MESSAGE
  | ICMP_QUERY_MESSAGE, ICMP_QUERY_MESSAGE => true
  | _, _ => false
  end.

(** Modelled from the spec: NetbufClone of NetLib, "clone the packet as a
    shared reference (payload shared, list node per child)": the clone has
    the packet's header pointer and side band and one more reference to its
    data block. *)
Definition NetbufClone (Packet : NET_BUF) (h : HEAP) : option NET_BUF * HEAP :=
  let '(ok, h1) := Allocate h in
  if ok then
    (Some Packet,
     emit (EvClone Packet)
          (set_RefCnt h1 (Vector Packet) (S (RefCnt h1 (Vector Packet)))))
  else (None, h1).

(** Modelled from the spec: NetbufDuplicate of NetLib, the deep copy "into
    a private, contiguous buffer": same size and side band, a data block of
    its own. *)
Definition NetbufDuplicate (Packet : NET_BUF) (h : HEAP) : option NET_BUF * HEAP :=
  let '(ok, h1) := Allocate h in
  if ok then
    let v := NextVector h1 in
    (Some (mkBuf (Ip Packet) (ProtoData Packet) (TotalSize Packet) v []),
     mkHeap (Pool h1)
            (fun v' => if Nat.eqb v' v then 1%nat else RefCnt h1 v')
            (S v) (Events h1) (Ip4Unhook v (FreeHook h1)) (HookFrees h1))
  else (None, h1).

(** Modelled from the spec: NetbufAllocSpace of NetLib, which makes room
    for [Len] bytes at an end of the buffer ("the head reserved area"). *)
Definition NetbufAllocSpace (Packet : NET_BUF) (Len : Z) : NET_BUF :=
  mkBuf (Ip Packet) (ProtoData Packet) (TotalSize Packet + Len)
        (Vector Packet) (Trims Packet).

Section Receive.

Context `{Lib : Ip4Lib}.

(* ================================================================== *)
(** * Ip4InstanceFrameAcceptable *)
(* ================================================================== *)

(** Lines 674-687: the protocol to filter on; [None] when an ICMP error
    meets a child that does not accept ICMP errors. *)
Definition Ip4FilterProtocol (Config : EFI_IP4_CONFIG_DATA) (Head : IP4_HEAD)
    (Packet : NET_BUF) : option Z :=
  let Proto := Protocol Head in
  if Proto =? IP4_PROTO_ICMP then
    if ICMP_CLASS_eqb (mIcmpClass (IcmpHeadType Packet)) ICMP_ERROR_MESSAGE then
      if negb (AcceptIcmpErrors Config) then None
      else Some (IcmpIpHeadProtocol Packet)
    else Some Proto
  else Some Proto.

(** The loop of lines 717-721: the value of [Index] when it ends. *)
Fixpoint Ip4FindGroup (Groups0 : list Z) (Address : Z) : nat :=
  match Groups0 with
  | [] => 0%nat
  | g :: rest => if g =? Address then 0%nat else S (Ip4FindGroup rest Address)
  end.

Definition Ip4InstanceFrameAcceptable (IpInstance : IP4_PROTOCOL) (Head : IP4_HEAD)
    (Packet : NET_BUF) : bool :=
  let Config := ConfigData IpInstance in
  if ReceiveTimeout Config =? UINT32_of (-1) then false
  else if AcceptPromiscuous Config then true
  else
    match Ip4FilterProtocol Config Head Packet with
    | None => false
    | Some Proto =>
        if negb (AcceptAnyProtocol Config) && negb (Proto =? DefaultProtocol Config)
        then false
        else
          let Info := IP4_GET_CLIP_INFO Packet in
          if IP4_IS_BROADCAST (CastType Info) then AcceptBroadcast Config
          else if IP4_CAST_eqb (CastType Info) IP4_MULTICAST then
            if negb (UseDefaultAddress (ConfigData IpInstance)) &&
               (InterfaceIp IpInstance =? 0)
            then true
            else Nat.ltb (Ip4FindGroup (Groups IpInstance) (HTONL (Dst Head)))
                         (GroupCount IpInstance)
          else true
    end.

(* ================================================================== *)
(** * Ip4InstanceEnquePacket and Ip4InterfaceEnquePacket *)
(* ================================================================== *)

Definition Ip4InstanceEnquePacket (IpInstance : IP4_PROTOCOL) (Head : IP4_HEAD)
    (Packet : NET_BUF) (h : HEAP) : EFI_STATUS * IP4_PROTOCOL * HEAP :=
  if negb (IP4_STATE_eqb (State IpInstance) IP4_STATE_CONFIGED) then
    (EFI_NOT_STARTED, IpInstance, h)
  else if negb (Ip4InstanceFrameAcceptable IpInstance Head Packet) then
    (EFI_INVALID_PARAMETER, IpInstance, h)
  else
    match NetbufClone Packet h with
    | (None, h1) => (EFI_OUT_OF_RESOURCES, IpInstance, h1)
    | (Some Clone, h1) =>
        let Info := set_Life (IP4_GET_CLIP_INFO Clone)
                             (IP4_US_TO_SEC (ReceiveTimeout (ConfigData IpInstance))) in
        (EFI_SUCCESS,
         set_Queues IpInstance (Received IpInstance ++ [set_Info Clone Info])
                    (RxTokens IpInstance) (Delivered IpInstance),
         h1)
    end.

(** The loop of lines 1076-1083 over the children of one interface. *)
Fixpoint Ip4EnqueInstances (l : list nat) (Head : IP4_HEAD) (Packet : NET_BUF)
    (Ch : list IP4_PROTOCOL) (h : HEAP) (Enqueued : Z)
    : Z * list IP4_PROTOCOL * HEAP :=
  match l with
  | [] => (Enqueued, Ch, h)
  | i :: l' =>
      match nth_error Ch i with
      | None => Ip4EnqueInstances l' Head Packet Ch h Enqueued
      | Some IpInstance =>
          match Ip4InstanceEnquePacket IpInstance Head Packet h with
          | (EFI_SUCCESS, c, h1) =>
              Ip4EnqueInstances l' Head Packet (list_set Ch i c) h1 (Enqueued + 1)
          | (_, c, h1) =>
              Ip4EnqueInstances l' Head Packet (list_set Ch i c) h1 Enqueued
          end
      end
  end.

(** Lines 1031-1059: the cast type of the packet as this interface sees it. *)
Definition Ip4LocalCast (Head : IP4_HEAD) (Packet : NET_BUF) (IpIf : IP4_INTERFACE)
    : IP4_CAST :=
  let Info := IP4_GET_CLIP_INFO Packet in
  if IP4_CAST_eqb (CastType Info) IP4_MULTICAST ||
     IP4_CAST_eqb (CastType Info) IP4_LOCAL_BROADCAST
  then CastType Info
  else if IfIp IpIf =? IP4_ALLZERO_ADDRESS then IP4_LOCAL_HOST
  else
    let LocalType := Ip4GetNetCast (Dst Head) IpIf in
    if IP4_CAST_eqb LocalType IP4_CAST_NONE && PromiscRecv IpIf
    then IP4_PROMISCUOUS
    else LocalType.

(** The children see the packet with the local cast type; the caller's
    packet keeps the saved one. *)
Definition Ip4InterfaceEnquePacket (Ch : list IP4_PROTOCOL) (Head : IP4_HEAD)
    (Packet : NET_BUF) (IpIf : IP4_INTERFACE) (h : HEAP)
    : Z * list IP4_PROTOCOL * HEAP :=
  let LocalType := Ip4LocalCast Head Packet IpIf in
  if IP4_CAST_eqb LocalType IP4_CAST_NONE then (0, Ch, h)
  else
    let Packet1 := set_Info Packet (set_CastType (IP4_GET_CLIP_INFO Packet) LocalType) in
    Ip4EnqueInstances (IpInstances IpIf) Head Packet1 Ch h 0.

(* ================================================================== *)
(** * Ip4WrapRxData and Ip4InstanceDeliverPacket *)
(* ================================================================== *)

(** Ip4WrapRxData: the wrapper and then its recycle event are allocated;
    either may fail.  On success the packet's header is back in network
    byte order.  [OptionsLength] is a UINT32: the subtraction wraps for a
    header shorter than IP4_MIN_HEADLEN. *)
Definition Ip4WrapRxData (Packet : NET_BUF) (h : HEAP)
    : option IP4_RXDATA_WRAP * HEAP :=
  let '(ok1, h1) := Allocate h in
  if negb ok1 then (None, h1)
  else
    let '(ok2, h2) := Allocate h1 in
    if negb ok2 then (None, h2)
    else
      let HeaderLength0 := Z.shiftl (HeadLen (Ip Packet)) 2 in
      let Packet1 := set_Ip Packet (Ip4NtohHead (Ip Packet)) in
      let OptionsLength0 := UINT32_of (HeaderLength0 - IP4_MIN_HEADLEN) in
      (Some (mkWrap Packet1
                    (mkRxData HeaderLength0 (Ip Packet1) OptionsLength0
                              (negb (OptionsLength0 =? 0)) (TotalSize Packet))),
       h2).

(** One turn of the loop of Ip4InstanceDeliverPacket, for the head packet
    and the head token: [None] is the return of EFI_OUT_OF_RESOURCES,
    otherwise the wrapper and the token as it is signalled. *)
Definition Ip4DeliverOne (Packet : NET_BUF) (Token : EFI_IP4_COMPLETION_TOKEN)
    (h : HEAP) : option (IP4_RXDATA_WRAP * EFI_IP4_COMPLETION_TOKEN) * HEAP :=
  if negb (NET_BUF_SHARED h Packet) then
    match Ip4WrapRxData Packet h with
    | (None, h1) => (None, h1)
    | (Some Wrap, h1) =>
        (Some (Wrap, mkToken (Event Token) (Status (IP4_GET_CLIP_INFO Packet))
                             (Some (RxData Wrap))), h1)
    end
  else
    match NetbufDuplicate Packet h with
    | (None, h1) => (None, h1)
    | (Some Dup, h1) =>
        let Dup1 := NetbufTrim (NetbufAllocSpace Dup IP4_MAX_HEADLEN)
                               IP4_MAX_HEADLEN NET_BUF_HEAD in
        match Ip4WrapRxData Dup1 h1 with
        | (None, h2) => (None, NetbufFree Dup1 h2)
        | (Some Wrap, h2) =>
            (Some (Wrap, mkToken (Event Token) (Status (IP4_GET_CLIP_INFO Dup1))
                                 (Some (RxData Wrap))),
             NetbufFree Packet h2)
        end
    end.

(** The loop of Ip4InstanceDeliverPacket on the three queues of a child. *)
Fixpoint Ip4DeliverLoop (Received0 : list NET_BUF)
    (RxTokens0 : list EFI_IP4_COMPLETION_TOKEN)
    (Delivered0 : list IP4_RXDATA_WRAP) (h : HEAP)
    : EFI_STATUS * (list NET_BUF * list EFI_IP4_COMPLETION_TOKEN *
                    list IP4_RXDATA_WRAP) * HEAP :=
  match Received0, RxTokens0 with
  | Packet :: Received1, Token :: RxTokens1 =>
      match Ip4DeliverOne Packet Token h with
      | (None, h1) =>
          (EFI_OUT_OF_RESOURCES, (Received0, RxTokens0, Delivered0), h1)
      | (Some (Wrap, Token1), h1) =>
          Ip4DeliverLoop Received1 RxTokens1 (Wrap :: Delivered0)
                         (emit (EvSignal Token1) h1)
      end
  | _, _ => (EFI_SUCCESS, (Received0, RxTokens0, Delivered0), h)
  end.

Definition Ip4InstanceDeliverPacket (IpInstance : IP4_PROTOCOL) (h : HEAP)
    : EFI_STATUS * IP4_PROTOCOL * HEAP :=
  match Ip4DeliverLoop (Received IpInstance) (RxTokens IpInstance)
                       (Delivered IpInstance) h with
  | (st, (r, t, d), h1) => (st, set_Queues IpInstance r t d, h1)
  end.

(** Ip4InterfaceDeliverPacket: every child of the interface in turn, the
    status of each delivery ignored. *)
Fixpoint Ip4DeliverInstances (l : list nat) (Ch : list IP4_PROTOCOL) (h : HEAP)
    : list IP4_PROTOCOL * HEAP :=
  match l with
  | [] => (Ch, h)
  | i :: l' =>
      match nth_error Ch i with
      | None => Ip4DeliverInstances l' Ch h
      | Some Ip4Instance =>
          match Ip4InstanceDeliverPacket Ip4Instance h with
          | (_, c, h1) => Ip4DeliverInstances l' (list_set Ch i c) h1
          end
      end
  end.

Definition Ip4InterfaceDeliverPacket (Ch : list IP4_PROTOCOL) (IpIf : IP4_INTERFACE)
    (h : HEAP) : list IP4_PROTOCOL * HEAP :=
  Ip4DeliverInstances (IpInstances IpIf) Ch h.

(* ================================================================== *)
(** * Ip4Demultiplex *)
(* ================================================================== *)

(** First pass, lines 1150-1158. *)
Fixpoint Ip4DemuxEnque (ifs : list IP4_INTERFACE) (Head : IP4_HEAD)
    (Packet : NET_BUF) (Ch : list IP4_PROTOCOL) (h : HEAP) (Enqueued : Z)
    : Z * list IP4_PROTOCOL * HEAP :=
  match ifs with
  | [] => (Enqueued, Ch, h)
  | IpIf :: ifs' =>
      if Configured IpIf then
        match Ip4InterfaceEnquePacket Ch Head Packet IpIf h with
        | (n, Ch1, h1) => Ip4DemuxEnque ifs' Head Packet Ch1 h1 (Enqueued + n)
        end
      else Ip4DemuxEnque ifs' Head Packet Ch h Enqueued
  end.

(** Second pass, lines 1171-1177. *)
Fixpoint Ip4DemuxDeliver (ifs : list IP4_INTERFACE) (Ch : list IP4_PROTOCOL)
    (h : HEAP) : list IP4_PROTOCOL * HEAP :=
  match ifs with
  | [] => (Ch, h)
  | IpIf :: ifs' =>
      if Configured IpIf then
        match Ip4InterfaceDeliverPacket Ch IpIf h with
        | (Ch1, h1) => Ip4DemuxDeliver ifs' Ch1 h1
        end
      else Ip4DemuxDeliver ifs' Ch h
  end.

Definition Ip4Demultiplex (IpSb : IP4_SERVICE) (Head : IP4_HEAD) (Packet : NET_BUF)
    (h : HEAP) : EFI_STATUS * IP4_SERVICE * HEAP :=
  match Ip4DemuxEnque (Interfaces IpSb) Head Packet (Children IpSb) h 0 with
  | (Enqueued, Ch1, h1) =>
      let h2 := NetbufFree Packet h1 in
      if Enqueued =? 0 then (EFI_NOT_FOUND, set_Children IpSb Ch1, h2)
      else
        match Ip4DemuxDeliver (Interfaces IpSb) Ch1 h2 with
        | (Ch2, h3) => (EFI_SUCCESS, set_Children IpSb Ch2, h3)
        end
  end.

(* ================================================================== *)
(** * Ip4AccpetFrame *)
(* ================================================================== *)

(** Where the checks of lines 484-575 send a frame. *)
Inductive VERDICT : Type :=
| VDrop       (Packet : NET_BUF)   (* goto DROP from line 485 *)
| VRestart    (Packet : NET_BUF)   (* goto RESTART, the packet still owned *)
| VReassemble (Packet : NET_BUF)   (* line 577: handed to Ip4Reassemble *)
| VDispatch   (Packet : NET_BUF).  (* not a fragment: on to line 592 *)

(** Lines 484-575.  [Ip Packet] is the header as received; from line 523
    on the packet carries it in host byte order. *)
Definition Ip4ValidateFrame (IpSb : IP4_SERVICE) (Packet : NET_BUF)
    (IoStatus : EFI_STATUS) (Flag : Z) : VERDICT :=
  if EFI_ERROR IoStatus || IP4_SERVICE_STATE_eqb (SbState IpSb) IP4_SERVICE_DESTORY
  then VDrop Packet
  else if TotalSize Packet <? IP4_MIN_HEADLEN then VRestart Packet
  else
    let Head := Ip Packet in
    let HeadLen0 := Z.shiftl (HeadLen Head) 2 in
    let TotalLen0 := NTOHS (TotalLen Head) in
    let Packet1 :=
      if TotalLen0 <? TotalSize Packet
      then NetbufTrim Packet (TotalSize Packet - TotalLen0) NET_BUF_TAIL
      else Packet in
    if negb (Ver Head =? 4) || (HeadLen0 <? IP4_MIN_HEADLEN) ||
       (TotalLen0 <? HeadLen0) || negb (TotalLen0 =? TotalSize Packet1)
    then VRestart Packet1
    else
      let Checksum0 := Z.lnot (NetblockChecksum Packet1 HeadLen0) mod 2 ^ 16 in
      if negb (Checksum Head =? 0) && negb (Checksum0 =? 0) then VRestart Packet1
      else
        let Head1 := Ip4NtohHead Head in
        let Packet2 := set_Ip Packet1 Head1 in
        let Start0 := Z.shiftl (Z.land (Fragment Head1) IP4_HEAD_OFFSET_MASK) 3 in
        let Length0 := TotalLen Head1 - HeadLen0 in
        let Info := mkInfo Flag (Ip4GetHostCast IpSb (Dst Head1) (Src Head1))
                           Start0 (Start0 + Length0) Length0
                           (Life (IP4_GET_CLIP_INFO Packet2)) EFI_SUCCESS in
        let Packet3 := set_Info Packet2 Info in
        if IP4_CAST_eqb (CastType Info) IP4_CAST_NONE ||
           (IP4_MAX_PACKET_SIZE <? End_ Info)
        then VRestart Packet3
        else
          let OptionLen := HeadLen0 - IP4_MIN_HEADLEN in
          if (0 <? OptionLen) && negb (Ip4OptionIsValid Packet3 OptionLen)
          then VRestart Packet3
          else
            let Packet4 := NetbufTrim Packet3 HeadLen0 NET_BUF_HEAD in
            if negb (Z.land (Fragment Head1) IP4_HEAD_MF_MASK =? 0) ||
               negb (Start Info =? 0)
            then
              if negb (Z.land (Fragment Head1) IP4_HEAD_DF_MASK =? 0)
              then VRestart Packet4
              else if negb (Z.land (Fragment Head1) IP4_HEAD_MF_MASK =? 0) &&
                      negb (Z.rem (Length Info) 8 =? 0)
              then VRestart Packet4
              else VReassemble Packet4
            else VDispatch Packet4.

(** Lines 592-617: dispatch by protocol, run the queued DPCs, re-arm. *)
Definition Ip4Dispatch (IpSb : IP4_SERVICE) (Packet : NET_BUF) (h : HEAP)
    : IP4_SERVICE * HEAP :=
  let Head := Ip Packet in
  let Packet1 := set_Info Packet (set_Status (IP4_GET_CLIP_INFO Packet) EFI_SUCCESS) in
  let '(IpSb1, h1) :=
    if Protocol Head =? IP4_PROTO_ICMP then Ip4IcmpHandle IpSb Head Packet1 h
    else if Protocol Head =? IP4_PROTO_IGMP then Ip4IgmpHandle IpSb Head Packet1 h
    else
      match Ip4Demultiplex IpSb Head Packet1 h with
      | (_, IpSb2, h2) => (IpSb2, h2)
      end in
  (IpSb1, emit EvReceiveFrame (emit EvDispatchDpc h1)).

(** Ip4AccpetFrame; [None] is the fault of Ip4Reassemble. *)
Definition Ip4AccpetFrame (Packet : NET_BUF) (IoStatus : EFI_STATUS) (Flag : Z)
    (IpSb : IP4_SERVICE) (h : HEAP) : option (IP4_SERVICE * HEAP) :=
  match Ip4ValidateFrame IpSb Packet IoStatus Flag with
  | VDrop p => Some (IpSb, NetbufFree p h)
  | VRestart p => Some (IpSb, NetbufFree p (emit EvReceiveFrame h))
  | VDispatch p => Some (Ip4Dispatch IpSb p h)
  | VReassemble p =>
      match Ip4Reassemble IP4_ASSEMBLE_HASH (Assemble IpSb) p h with
      | (RetFault, _, _) => None
      | (RetNull, Table, h1) =>
          Some (set_Assemble IpSb Table, emit EvReceiveFrame h1)
      | (RetPacket NewPacket _, Table, h1) =>
          Some (Ip4Dispatch (set_Assemble IpSb Table) NewPacket h1)
      end
  end.

(* ================================================================== *)
(** * Ip4PacketTimerTicking *)
(* ================================================================== *)

(** The inner loop of lines 1210-1217 over one bucket. *)
Fixpoint Ip4TickBucket (b : list IP4_ASSEMBLE_ENTRY) (h : HEAP)
    : list IP4_ASSEMBLE_ENTRY * HEAP :=
  match b with
  | [] => ([], h)
  | Assemble0 :: b' =>
      if 0 <? AsmLife Assemble0 then
        let A1 := set_AsmLife Assemble0 (AsmLife Assemble0 - 1) in
        if AsmLife A1 =? 0 then Ip4TickBucket b' (Ip4FreeAssembleEntry A1 h)
        else
          match Ip4TickBucket b' h with
          | (r, h1) => (A1 :: r, h1)
          end
      else
        match Ip4TickBucket b' h with
        | (r, h1) => (Assemble0 :: r, h1)
        end
  end.

(** The outer loop of line 1209 over the buckets [0 .. n-1]. *)
Fixpoint Ip4TickTable (n : nat) (Table : IP4_ASSEMBLE_TABLE) (h : HEAP)
    : IP4_ASSEMBLE_TABLE * HEAP :=
  match n with
  | O => (Table, h)
  | S n' =>
      match Ip4TickTable n' Table h with
      | (T1, h1) =>
          match Ip4TickBucket (T1 n') h1 with
          | (b, h2) => (set_Bucket T1 n' b, h2)
          end
      end
  end.

(** The loop of lines 1226-1234 over the received queue of one child. *)
Fixpoint Ip4TickReceived (r : list NET_BUF) (h : HEAP) : list NET_BUF * HEAP :=
  match r with
  | [] => ([], h)
  | Packet :: r' =>
      let Info := IP4_GET_CLIP_INFO Packet in
      if 0 <? Life Info then
        let P1 := set_Info Packet (set_Life Info (Life Info - 1)) in
        if Life (IP4_GET_CLIP_INFO P1) =? 0 then Ip4TickReceived r' (NetbufFree P1 h)
        else
          match Ip4TickReceived r' h with
          | (q, h1) => (P1 :: q, h1)
          end
      else
        match Ip4TickReceived r' h with
        | (q, h1) => (Packet :: q, h1)
        end
  end.

(** The loop of line 1220 over the children (its third step, the walk over
    TxTokens with Ip4SentPacketTicking, belongs to the transmit side). *)
Fixpoint Ip4TickChildren (Ch : list IP4_PROTOCOL) (h : HEAP)
    : list IP4_PROTOCOL * HEAP :=
  match Ch with
  | [] => ([], h)
  | IpInstance :: Ch' =>
      match Ip4TickReceived (Received IpInstance) h with
      | (q, h1) =>
          match Ip4TickChildren Ch' h1 with
          | (Ch1, h2) =>
              (set_Queues IpInstance q (RxTokens IpInstance) (Delivered IpInstance)
               :: Ch1, h2)
          end
      end
  end.

Definition Ip4PacketTimerTicking (IpSb : IP4_SERVICE) (h : HEAP)
    : IP4_SERVICE * HEAP :=
  match Ip4TickTable IP4_ASSEMLE_HASH_SIZE (Assemble IpSb) h with
  | (Table, h1) =>
      match Ip4TickChildren (Children IpSb) h1 with
      | (Ch, h2) => (mkSb (SbState IpSb) Table Ch (Interfaces IpSb), h2)
      end
  end.

End Receive.

(* ================================================================== *)
(** * Properties of fragment lists, and sample data *)
(* ================================================================== *)

(** The byte range of each fragment of a list. *)
Definition Ip4Ranges (l : list NET_BUF) : list (Z * Z) :=
  map (fun f => (Start (IP4_GET_CLIP_INFO f), End_ (IP4_GET_CLIP_INFO f))) l.

(** Ascending starts and no overlap: for adjacent [P], [Q],
    [P.start < Q.start] and [P.end <= Q.start]. *)
Fixpoint Ip4FragmentsOrdered (l : list NET_BUF) : bool :=
  match l with
  | P :: (Q :: _) as l' =>
      (Start (IP4_GET_CLIP_INFO P) <? Start (IP4_GET_CLIP_INFO Q)) &&
      (End_ (IP4_GET_CLIP_INFO P) <=? Start (IP4_GET_CLIP_INFO Q)) &&
      Ip4FragmentsOrdered l'
  | _ => true
  end.

(** The sum of the [Length] fields of a list. *)
Definition Ip4LengthSum (l : list NET_BUF) : Z :=
  fold_right (fun f s => Length (IP4_GET_CLIP_INFO f) + s) 0 l.

(** Whether some fragment of the list covers the byte at [pos]. *)
Definition Ip4Covers (l : list NET_BUF) (pos : Z) : bool :=
  existsb (fun f => (Start (IP4_GET_CLIP_INFO f) <=? pos) &&
                    (pos <? End_ (IP4_GET_CLIP_INFO f))) l.

(** Every entry of every bucket has [CurLen] equal to the sum of the
    [Length] fields on its list. *)
Definition Ip4TableLengths (Table : IP4_ASSEMBLE_TABLE) : Prop :=
  forall Index a, In a (Table Index) -> CurLen a = Ip4LengthSum (Fragments a).

(** A fragment of the datagram (dst 2, src 1, id 7, UDP) at byte offset
    [off] with [len] bytes of payload; [mf] is the MF bit, [v] its data
    block, [ttl] tells the headers of such fragments apart. *)
Definition SampleFragment (off : Z) (mf : bool) (len : Z) (v : nat) (ttl : Z) : NET_BUF :=
  mkBuf (mkHead 4 5 0 (20 + len) 7 ((if mf then IP4_HEAD_MF_MASK else 0) + off / 8)
                ttl 17 0 1 2)
        (mkInfo 0 IP4_LOCAL_HOST off (off + len) len 0 EFI_SUCCESS) len v [].

Definition SampleHash (Dst0 Src0 Id0 Protocol0 : Z) : nat :=
  Z.to_nat ((Dst0 + Src0 + Id0 * 65536 + Protocol0) mod 31).

(** A heap where every allocation succeeds and every data block has one
    reference. *)
Definition SampleHeap : HEAP := mkHeap [] (fun _ => 1%nat) 100 [] [] [].

(** Ip4Reassemble on one fragment after the other, from a given state. *)
Definition Ip4ReassembleAll (l : list NET_BUF)
    (st : REASM_RETURN * IP4_ASSEMBLE_TABLE * HEAP)
    : REASM_RETURN * IP4_ASSEMBLE_TABLE * HEAP :=
  fold_left (fun s Packet => Ip4Reassemble SampleHash (snd (fst s)) Packet (snd s)) l st.

Definition SampleStart : REASM_RETURN * IP4_ASSEMBLE_TABLE * HEAP :=
  (RetNull, Ip4InitAssembleTable, SampleHeap).

(** The bucket of the sample datagram. *)
Definition SampleBucket (st : REASM_RETURN * IP4_ASSEMBLE_TABLE * HEAP)
    : list IP4_ASSEMBLE_ENTRY :=
  snd (fst st) (SampleHash 2 1 7 17).

(** The byte swaps of a little-endian host, for the sample library. *)
Definition SampleSwap16 (x : Z) : Z :=
  Z.lor (Z.shiftl (Z.land x 0xff) 8) (Z.land (Z.shiftr x 8) 0xff).

Definition SampleSwap32 (x : Z) : Z :=
  Z.lor (Z.lor (Z.shiftl (Z.land x 0xff) 24) (Z.shiftl (Z.land x 0xff00) 8))
        (Z.lor (Z.land (Z.shiftr x 8) 0xff00) (Z.land (Z.shiftr x 24) 0xff)).

(** A library to run the receive path with: a little-endian host that takes
    every datagram as sent to it, finds every checksum and option valid,
    knows no ICMP error, and whose ICMP and IGMP handlers only free the
    packet. *)
Definition SampleLib : Ip4Lib := {|
  IP4_ASSEMLE_HASH_SIZE := 31;
  IP4_ASSEMBLE_HASH := SampleHash;
  NetblockChecksum := fun _ _ => 0xffff;
  Ip4GetHostCast := fun _ _ _ => IP4_LOCAL_HOST;
  Ip4GetNetCast := fun _ _ => IP4_LOCAL_HOST;
  Ip4OptionIsValid := fun _ _ => true;
  Ip4NtohHead := fun hd =>
    mkHead (Ver hd) (HeadLen hd) (Tos hd) (SampleSwap16 (TotalLen hd))
           (SampleSwap16 (Id hd)) (SampleSwap16 (Fragment hd)) (Ttl hd)
           (Protocol hd) (Checksum hd) (SampleSwap32 (Src hd)) (SampleSwap32 (Dst hd));
  NTOHS := SampleSwap16;
  HTONL := SampleSwap32;
  IP4_US_TO_SEC := fun us => (us + 999999) / 1000000;
  mIcmpClass := fun _ => ICMP_QUERY_MESSAGE;
  IcmpHeadType := fun _ => 8;
  IcmpIpHeadProtocol := fun _ => 0;
  Ip4IcmpHandle := fun IpSb _ Packet h => (IpSb, NetbufFree Packet h);
  Ip4IgmpHandle := fun IpSb _ Packet h => (IpSb, NetbufFree Packet h)
|}.

(** A frame as it comes from the wire, fields in network byte order: a UDP
    datagram of total length 20 + [len] whose fragment word is [frag]. *)
Definition SampleFrame (frag : Z) (len : Z) : NET_BUF :=
  mkBuf (mkHead 4 5 0 (SampleSwap16 (20 + len)) (SampleSwap16 7) (SampleSwap16 frag)
                64 17 0 (SampleSwap32 1) (SampleSwap32 2))
        (mkInfo 0 IP4_CAST_NONE 0 0 0 0 EFI_SUCCESS) (20 + len) 1 [].

Definition SampleConfig : EFI_IP4_CONFIG_DATA :=
  mkConfig 17 false false false false false 0.

(** A configured child on an interface without address, member of no
    group, with [tokens] pending receive requests. *)
Definition SampleChild (r : list NET_BUF) (tokens : list EFI_IP4_COMPLETION_TOKEN)
    : IP4_PROTOCOL :=
  mkChild IP4_STATE_CONFIGED SampleConfig 0 [] r tokens [].

Definition SampleService : IP4_SERVICE :=
  mkSb IP4_SERVICE_CONFIGED Ip4InitAssembleTable
       [SampleChild [] []] [mkIf true 0 false [0%nat]].

(** What a tick is to do to a life counter, as a function of its own
    (compared with the code below): a counter at 1 reaches 0 and its owner
    is freed ([None]); a larger one loses 1; one that is not positive stays
    as it is. *)
Definition Ip4LifeAfterTick (life : Z) : option Z :=
  if life =? 1 then None
  else if 1 <? life then Some (life - 1)
  else Some life.

(** An assemble entry after a tick: gone, or there with its new life. *)
Definition Ip4EntryAfterTick (a : IP4_ASSEMBLE_ENTRY) : list IP4_ASSEMBLE_ENTRY :=
  match Ip4LifeAfterTick (AsmLife a) with
  | None => []
  | Some l => [set_AsmLife a l]
  end.

(** A queued packet after a tick. *)
Definition Ip4PacketAfterTick (Packet : NET_BUF) : list NET_BUF :=
  match Ip4LifeAfterTick (Life (IP4_GET_CLIP_INFO Packet)) with
  | None => []
  | Some l => [set_Info Packet (set_Life (IP4_GET_CLIP_INFO Packet) l)]
  end.

(** The frees a tick owes for an entry and for a queued packet. *)
Definition Ip4EntryFrees (a : IP4_ASSEMBLE_ENTRY) : list EVENT :=
  match Ip4LifeAfterTick (AsmLife a) with
  | None => map EvFree (Fragments a)
  | Some _ => []
  end.

Definition Ip4PacketFrees (Packet : NET_BUF) : list EVENT :=
  match Ip4LifeAfterTick (Life (IP4_GET_CLIP_INFO Packet)) with
  | None => [EvFree (set_Info Packet (set_Life (IP4_GET_CLIP_INFO Packet) 0))]
  | Some _ => []
  end.

(** A heap for a delivery that fails in its second turn: the data block 1
    has one reference, the block 2 has two; the first three allocations
    succeed, the fourth fails. *)
Definition SampleDeliverHeap : HEAP :=
  mkHeap [true; true; true; false]
         (fun v => if Nat.eqb v 2 then 2%nat else 1%nat) 100 [] [] [].

(** A child with an unshared and then a shared packet queued, and three
    receive requests pending. *)
Definition SampleDeliverChild : IP4_PROTOCOL :=
  SampleChild [SampleFragment 0 false 8 1 64; SampleFragment 0 false 16 2 64]
              [mkToken 11 EFI_SUCCESS None; mkToken 12 EFI_SUCCESS None;
               mkToken 13 EFI_SUCCESS None].

Definition Ip4IsClone (e : EVENT) : bool :=
  match e with
  | EvClone _ => true
  | _ => false
  end.

(** The number of packets on the received queues of all children. *)
Definition Ip4ReceivedCount (Ch : list IP4_PROTOCOL) : Z :=
  fold_right (fun c n => Z.of_nat (length (Received c)) + n) 0 Ch.

(** What a stretch of the first pass of Ip4Demultiplex does, from the
    children [Ch0], the heap [h0] and the count [E0] to the result [res]:
    it makes the clones [clones] of the packet with data block [v], one per
    enqueue counted, each on a received queue and each a reference to [v]. *)
Definition Ip4EnqueuedBy (v : nat) (Ch0 : list IP4_PROTOCOL) (h0 : HEAP) (E0 : Z)
    (res : Z * list IP4_PROTOCOL * HEAP) (clones : list NET_BUF) : Prop :=
  Events (snd res) = Events h0 ++ map EvClone clones /\
  fst (fst res) = E0 + Z.of_nat (length clones) /\
  Ip4ReceivedCount (snd (fst res)) = Ip4ReceivedCount Ch0 + Z.of_nat (length clones) /\
  RefCnt (snd res) v = (RefCnt h0 v + length clones)%nat /\
  NextVector (snd res) = NextVector h0 /\
  Forall (fun p => Vector p = v) clones.

(* ================================================================== *)
(** * Further functions of Ip4Input.c *)
(* ================================================================== *)

(** Ip4OnRecyclePacket.  The wrapper the event was created for is named by
    its position on the child's Delivered list: it is unlinked and its
    packet freed ([None]: no such wrapper on the list). *)
Definition Ip4OnRecyclePacket (IpInstance : IP4_PROTOCOL) (i : nat) (h : HEAP)
    : option (IP4_PROTOCOL * HEAP) :=
  match nth_error (Delivered IpInstance) i with
  | None => None
  | Some Wrap =>
      Some (set_Queues IpInstance (Received IpInstance) (RxTokens IpInstance)
                       (list_remove (Delivered IpInstance) i),
            NetbufFree (WrapPacket Wrap) h)
  end.

(** The ASSERT of Ip4OnRecyclePacket, [!NET_BUF_SHARED (Wrap->Packet)]. *)
Definition Ip4OnRecyclePacket_assert (h : HEAP) (Wrap : IP4_RXDATA_WRAP) : bool :=
  negb (NET_BUF_SHARED h (WrapPacket Wrap)).

(** The inner loop of Ip4CleanAssembleTable over one bucket: every entry is
    unlinked and freed, first to last. *)
Fixpoint Ip4CleanBucket (b : list IP4_ASSEMBLE_ENTRY) (h : HEAP) : HEAP :=
  match b with
  | [] => h
  | Assemble0 :: b' => Ip4CleanBucket b' (Ip4FreeAssembleEntry Assemble0 h)
  end.

(** Its outer loop over the buckets [0 .. n-1]. *)
Fixpoint Ip4CleanTable (n : nat) (Table : IP4_ASSEMBLE_TABLE) (h : HEAP)
    : IP4_ASSEMBLE_TABLE * HEAP :=
  match n with
  | O => (Table, h)
  | S n' =>
      match Ip4CleanTable n' Table h with
      | (T1, h1) => (set_Bucket T1 n' [], Ip4CleanBucket (T1 n') h1)
      end
  end.

Section Lifecycle.

Context `{Lib : Ip4Lib}.

Definition Ip4CleanAssembleTable (Table : IP4_ASSEMBLE_TABLE) (h : HEAP)
    : IP4_ASSEMBLE_TABLE * HEAP :=
  Ip4CleanTable IP4_ASSEMLE_HASH_SIZE Table h.

(** Ip4PacketTimerTicking called [n] times in a row. *)
Fixpoint Ip4TimerTicks (n : nat) (IpSb : IP4_SERVICE) (h : HEAP)
    : IP4_SERVICE * HEAP :=
  match n with
  | O => (IpSb, h)
  | S n' =>
      match Ip4TimerTicks n' IpSb h with
      | (IpSb1, h1) => Ip4PacketTimerTicking IpSb1 h1
      end
  end.

(** What the first pass of Ip4Demultiplex may do to a child: the clones
    [q] of [Packet] go to the tail of its received queue, each with a
    local cast type under which the child accepts the frame, and with the
    life of the child's receive timeout; a child that is not configured,
    or whose receive timeout is -1, takes none. *)
Definition Ip4ChildTook (Head : IP4_HEAD) (Packet : NET_BUF)
    (c c' : IP4_PROTOCOL) : Prop :=
  exists q,
    c' = set_Queues c (Received c ++ q) (RxTokens c) (Delivered c) /\
    Forall (fun p => exists Cast,
              Cast <> IP4_CAST_NONE /\
              Ip4InstanceFrameAcceptable c Head
                (set_Info Packet (set_CastType (IP4_GET_CLIP_INFO Packet) Cast)) = true /\
              p = set_Info Packet
                    (set_Life (set_CastType (IP4_GET_CLIP_INFO Packet) Cast)
                              (IP4_US_TO_SEC (ReceiveTimeout (ConfigData c))))) q /\
    (State c <> IP4_STATE_CONFIGED \/
     ReceiveTimeout (ConfigData c) = UINT32_of (-1) -> q = []).


(** What Ip4AccpetFrame has established of a frame [Packet] when it hands
    the packet [p] on (lines 484-575): the header is in host byte order,
    the IP header is trimmed, and the clip info describes the payload. *)
Definition Ip4FrameChecked (IpSb : IP4_SERVICE) (Packet : NET_BUF) (Flag : Z)
    (p : NET_BUF) : Prop :=
  let Info := IP4_GET_CLIP_INFO p in
  let HeadLen0 := Z.shiftl (HeadLen (Ip Packet)) 2 in
  Ip p = Ip4NtohHead (Ip Packet) /\ Vector p = Vector Packet /\
  Ver (Ip Packet) = 4 /\
  IP4_MIN_HEADLEN <= HeadLen0 <= TotalLen (Ip p) /\
  TotalLen (Ip p) <= TotalSize Packet /\
  TotalSize p = TotalLen (Ip p) - HeadLen0 /\
  LinkFlag Info = Flag /\ Status Info = EFI_SUCCESS /\
  CastType Info = Ip4GetHostCast IpSb (Dst (Ip p)) (Src (Ip p)) /\
  CastType Info <> IP4_CAST_NONE /\
  Start Info = Z.shiftl (Z.land (Fragment (Ip p)) IP4_HEAD_OFFSET_MASK) 3 /\
  Length Info = TotalSize p /\
  End_ Info = Start Info + Length Info /\
  End_ Info <= IP4_MAX_PACKET_SIZE.

End Lifecycle.


(** The entries of a bucket that belong to other datagrams than the one
    with header [IpHead]. *)
Definition Ip4OtherEntries (IpHead : IP4_HEAD) (b : list IP4_ASSEMBLE_ENTRY)
    : list IP4_ASSEMBLE_ENTRY :=
  filter (fun a => negb (Ip4AssembleMatch a IpHead)) b.

(** A life counter after [n] ticks: expired once [n] reaches it, unless it
    was not positive to begin with. *)
Definition Ip4LifeAfterTicks (n : nat) (life : Z) : option Z :=
  if life <=? 0 then Some life
  else if life <=? Z.of_nat n then None
  else Some (life - Z.of_nat n).

Definition Ip4EntryAfterTicks (n : nat) (a : IP4_ASSEMBLE_ENTRY)
    : list IP4_ASSEMBLE_ENTRY :=
  match Ip4LifeAfterTicks n (AsmLife a) with
  | None => []
  | Some l => [set_AsmLife a l]
  end.

Definition Ip4PacketAfterTicks (n : nat) (Packet : NET_BUF) : list NET_BUF :=
  match Ip4LifeAfterTicks n (Life (IP4_GET_CLIP_INFO Packet)) with
  | None => []
  | Some l => [set_Info Packet (set_Life (IP4_GET_CLIP_INFO Packet) l)]
  end.

(** Fragments that arrive in order: each begins where the one before it
    ended ([from] for the first), is not empty, has [Start + Length = End],
    carries the key of [Key], and has MF set. *)
Fixpoint Ip4InOrder (Key : IP4_HEAD) (from : Z) (l : list NET_BUF) : Prop :=
  match l with
  | [] => True
  | P :: l' =>
      Start (IP4_GET_CLIP_INFO P) = from /\
      0 < Length (IP4_GET_CLIP_INFO P) /\
      Start (IP4_GET_CLIP_INFO P) + Length (IP4_GET_CLIP_INFO P)
        = End_ (IP4_GET_CLIP_INFO P) /\
      Dst (Ip P) = Dst Key /\ Src (Ip P) = Src Key /\ Id (Ip P) = Id Key /\
      Protocol (Ip P) = Protocol Key /\
      IP4_LAST_FRAGMENT (Fragment (Ip P)) = false /\
      Ip4InOrder Key (End_ (IP4_GET_CLIP_INFO P)) l'
  end.

(** Where a list of fragments in order ends. *)
Definition Ip4EndOf (from : Z) (l : list NET_BUF) : Z :=
  fold_left (fun _ P => End_ (IP4_GET_CLIP_INFO P)) l from.

(** Ip4Reassemble on one fragment after the other, for any hash. *)
Definition Ip4ReassembleList (Hash : Z -> Z -> Z -> Z -> nat) (l : list NET_BUF)
    (st : REASM_RETURN * IP4_ASSEMBLE_TABLE * HEAP)
    : REASM_RETURN * IP4_ASSEMBLE_TABLE * HEAP :=
  fold_left (fun s Packet => Ip4Reassemble Hash (snd (fst s)) Packet (snd s)) l st.

(** A heap whose first allocation fails. *)
Definition SampleFullHeap : HEAP :=
  mkHeap [false] (fun _ => 1%nat) 100 [] [] [].

(** The part of Ip4Reassemble that follows the lookup (lines 295-442), for
    the entry [Assemble0] at position [pos] of the bucket [b1]. *)
Definition Ip4ReassembleAt (Table : IP4_ASSEMBLE_TABLE) (Index : nat)
    (Packet : NET_BUF) (pos : nat) (Assemble0 : IP4_ASSEMBLE_ENTRY)
    (b1 : list IP4_ASSEMBLE_ENTRY) (h1 : HEAP)
    : REASM_RETURN * IP4_ASSEMBLE_TABLE * HEAP :=
  match Ip4InsertFragment Assemble0 (Ip Packet) Packet h1 with
  | (false, A, h2) =>
      (RetNull, set_Bucket Table Index (list_set b1 pos A), h2)
  | (true, A, h2) =>
      if Ip4AssembleDone A then
        let '(r, h3) := Ip4WrapAssemble A h2 in
        (r, set_Bucket Table Index (list_remove b1 pos), h3)
      else
        (RetNull, set_Bucket Table Index (list_set b1 pos A), h2)
  end.

(** The entry Ip4CreateAssembleEntry makes for the datagram of [IpHead]. *)
Definition Ip4NewEntry (IpHead : IP4_HEAD) : IP4_ASSEMBLE_ENTRY :=
  mkAsm (Dst IpHead) (Src IpHead) (Id IpHead) (Protocol IpHead) 0 0 None
        IP4_FRAGMENT_LIFE [].

(** The entry of a datagram whose fragments [l1] have arrived in order,
    the first of them [First], none of them the last one. *)
Definition Ip4PartialEntry (Key : IP4_HEAD) (First : NET_BUF) (l1 : list NET_BUF)
    : IP4_ASSEMBLE_ENTRY :=
  mkAsm (Dst Key) (Src Key) (Id Key) (Protocol Key) 0 (Ip4EndOf 0 l1)
        (Some (Ip First, IP4_GET_CLIP_INFO First)) IP4_FRAGMENT_LIFE l1.

(** The bookkeeping of lines 377-396 for a packet queued as it came. *)
Definition Ip4Account (Assemble0 : IP4_ASSEMBLE_ENTRY) (IpHead : IP4_HEAD)
    (Packet : NET_BUF) (l : list NET_BUF) : IP4_ASSEMBLE_ENTRY :=
  let This := IP4_GET_CLIP_INFO Packet in
  let A1 := set_Fragments Assemble0 l (CurLen Assemble0 + Length This) in
  let A2 := if Start This =? 0 then set_HeadInfo A1 IpHead This else A1 in
  if IP4_LAST_FRAGMENT (Fragment IpHead) && (AsmTotalLen A2 =? 0)
  then set_TotalLen A2 (End_ This)
  else A2.

(** The tokens signalled in a stretch of the trace, in order. *)
Fixpoint Ip4Signalled (es : list EVENT) : list EFI_IP4_COMPLETION_TOKEN :=
  match es with
  | [] => []
  | EvSignal Token :: es' => Token :: Ip4Signalled es'
  | _ :: es' => Ip4Signalled es'
  end.

(** The consumer recycles the [k] wrappers delivered last, newest first:
    Ip4OnRecyclePacket for the wrapper at the head of Delivered, [k] times. *)
Fixpoint Ip4RecycleNewest (k : nat) (IpInstance : IP4_PROTOCOL) (h : HEAP)
    : option (IP4_PROTOCOL * HEAP) :=
  match k with
  | O => Some (IpInstance, h)
  | S k' =>
      match Ip4OnRecyclePacket IpInstance 0 h with
      | None => None
      | Some (c, h1) => Ip4RecycleNewest k' c h1
      end
  end.

(* ================================================================== *)
(** * Ip4TrimPacket: theorems *)
(* ================================================================== *)

Lemma Ip4TrimPacket_head_info (Packet : NET_BUF) (Start0 : Z) :
  let Info := IP4_GET_CLIP_INFO Packet in
  let Info' := IP4_GET_CLIP_INFO (Ip4TrimPacket_head Packet Start0) in
  Start Info' = Z.max (Start Info) Start0 /\
  End_ Info' = End_ Info /\
  Length Info' = Length Info - (Start Info' - Start Info).
Proof.
  unfold Ip4TrimPacket_head, IP4_GET_CLIP_INFO; cbn zeta.
  destruct (Start (ProtoData Packet) <? Start0) eqn:E; cbn.
  - apply Z.ltb_lt in E. repeat split; lia.
  - apply Z.ltb_ge in E. repeat split; lia.
Qed.

Lemma Ip4TrimPacket_tail_info (Packet : NET_BUF) (End0 : Z) :
  let Info := IP4_GET_CLIP_INFO Packet in
  let Info' := IP4_GET_CLIP_INFO (Ip4TrimPacket_tail Packet End0) in
  Start Info' = Start Info /\
  End_ Info' = Z.min (End_ Info) End0 /\
  Length Info' = Length Info + (End_ Info - End_ Info').
Proof.
  unfold Ip4TrimPacket_tail, IP4_GET_CLIP_INFO; cbn zeta.
  destruct (End0 <? End_ (ProtoData Packet)) eqn:E; cbn.
  - apply Z.ltb_lt in E. repeat split; lia.
  - apply Z.ltb_ge in E. repeat split; lia.
Qed.

(** What Ip4TrimPacket does to the clip-info, for every packet and window:
    the range becomes the intersection with [[Start0, End0)]; the length
    loses what the head gave up and GAINS what the tail gave up. *)
Lemma Ip4TrimPacket_info (Packet : NET_BUF) (Start0 End0 : Z) :
  let Info := IP4_GET_CLIP_INFO Packet in
  let Info' := IP4_GET_CLIP_INFO (Ip4TrimPacket Packet Start0 End0) in
  Start Info' = Z.max (Start Info) Start0 /\
  End_ Info' = Z.min (End_ Info) End0 /\
  Length Info' = Length Info - (Start Info' - Start Info) + (End_ Info - End_ Info').
Proof.
  cbn zeta. unfold Ip4TrimPacket.
  pose proof (Ip4TrimPacket_head_info Packet Start0) as Hh.
  pose proof (Ip4TrimPacket_tail_info (Ip4TrimPacket_head Packet Start0) End0) as Ht.
  cbn zeta in Hh, Ht. lia.
Qed.

(** A trim that only cuts the head keeps [Start + Length = End]. *)
Lemma Ip4TrimPacket_head_only (Packet : NET_BUF) (Start0 End0 : Z) :
  Ip4TrimPacket_assert1 (IP4_GET_CLIP_INFO Packet) = true ->
  End_ (IP4_GET_CLIP_INFO Packet) <= End0 ->
  Ip4TrimPacket_assert1 (IP4_GET_CLIP_INFO (Ip4TrimPacket Packet Start0 End0)) = true.
Proof.
  unfold Ip4TrimPacket_assert1. intros H1 H2. apply Z.eqb_eq in H1. apply Z.eqb_eq.
  pose proof (Ip4TrimPacket_info Packet Start0 End0) as H. cbn zeta in H. lia.
Qed.

(** A trim that cuts the tail breaks [Start + Length = End]: the sum
    overshoots the new end by twice the cut. *)
Lemma Ip4TrimPacket_tail_cut (Packet : NET_BUF) (Start0 End0 : Z) :
  Ip4TrimPacket_assert1 (IP4_GET_CLIP_INFO Packet) = true ->
  End0 < End_ (IP4_GET_CLIP_INFO Packet) ->
  let Info' := IP4_GET_CLIP_INFO (Ip4TrimPacket Packet Start0 End0) in
  Start Info' + Length Info' = End_ Info' + 2 * (End_ (IP4_GET_CLIP_INFO Packet) - End0) /\
  Ip4TrimPacket_assert1 Info' = false.
Proof.
  unfold Ip4TrimPacket_assert1. intros H1 H2. apply Z.eqb_eq in H1.
  pose proof (Ip4TrimPacket_info Packet Start0 End0) as H. cbn zeta in *.
  split; [lia | apply Z.eqb_neq; lia].
Qed.

(** C3.  Ip4TrimPacket on a packet covering [0, 24) with length 24 (so that
    start + length = end, and the range meets the window), asked to fit
    [0, 16): the new end is 16, but the new length is 24 + 8 = 32 and not
    24 - 8 = 16, so start + length = end no longer holds on exit; the
    length NetbufTrim receives is the wrapped 2^32 - 8. *)
Theorem Ip4TrimPacket_tail_grows_length :
  let Packet := SampleFragment 0 true 24 1 64 in
  let Info' := IP4_GET_CLIP_INFO (Ip4TrimPacket Packet 0 16) in
  Ip4TrimPacket_assert1 (IP4_GET_CLIP_INFO Packet) = true /\
  Ip4TrimPacket_assert2 (IP4_GET_CLIP_INFO Packet) 0 16 = true /\
  Start Info' = 0 /\ End_ Info' = 16 /\ Length Info' = 32 /\
  Length Info' <> Length (IP4_GET_CLIP_INFO Packet) - (24 - 16) /\
  Ip4TrimPacket_assert1 Info' = false /\
  Trims (Ip4TrimPacket Packet 0 16) = [(2 ^ 32 - 8, NET_BUF_TAIL)].
Proof.
  vm_compute. repeat split; congruence.
Qed.

(* ================================================================== *)
(** * Ip4Reassemble: theorems *)
(* ================================================================== *)

Lemma Ip4LengthSum_app (l1 l2 : list NET_BUF) :
  Ip4LengthSum (l1 ++ l2) = Ip4LengthSum l1 + Ip4LengthSum l2.
Proof.
  unfold Ip4LengthSum. induction l1 as [|f l1 IH]; cbn; [reflexivity | lia].
Qed.

Lemma Ip4LengthSum_split (n : nat) (l : list NET_BUF) :
  Ip4LengthSum l = Ip4LengthSum (firstn n l) + Ip4LengthSum (skipn n l).
Proof.
  rewrite <- Ip4LengthSum_app, firstn_skipn. reflexivity.
Qed.

(** The loop that removes covered nodes takes from CurLen what it takes
    from the list. *)
Lemma Ip4RemoveCovered_lengths (Packet : NET_BUF) (rest : list NET_BUF) :
  forall Len h op rest' Len' h',
    Ip4RemoveCovered Packet rest Len h = (op, rest', Len', h') ->
    Len' - Ip4LengthSum rest' = Len - Ip4LengthSum rest.
Proof.
  induction rest as [|f rest IH]; intros Len h op rest' Len' h' E; cbn in E.
  - inversion E; subst. reflexivity.
  - destruct (End_ (IP4_GET_CLIP_INFO f) <=? End_ (IP4_GET_CLIP_INFO Packet)).
    + apply IH in E. unfold Ip4LengthSum in *. cbn. lia.
    + destruct (Start (IP4_GET_CLIP_INFO f) <? End_ (IP4_GET_CLIP_INFO Packet));
        [destruct (Start (IP4_GET_CLIP_INFO Packet) =? Start (IP4_GET_CLIP_INFO f))|];
        inversion E; subst; reflexivity.
Qed.

(** The packet the loop hands back is the packet it was given, possibly
    with its tail trimmed. *)
Lemma Ip4RemoveCovered_packet (Packet : NET_BUF) (rest : list NET_BUF) :
  forall Len h Packet' rest' Len' h',
    Ip4RemoveCovered Packet rest Len h = (Some Packet', rest', Len', h') ->
    Packet' = Packet \/
    exists Node, Packet' = Ip4TrimPacket Packet (Start (IP4_GET_CLIP_INFO Packet)) Node.
Proof.
  induction rest as [|f rest IH]; intros Len h P' rest' Len' h' E; cbn in E.
  - inversion E; subst. now left.
  - destruct (End_ (IP4_GET_CLIP_INFO f) <=? End_ (IP4_GET_CLIP_INFO Packet)).
    + eapply IH; eassumption.
    + destruct (Start (IP4_GET_CLIP_INFO f) <? End_ (IP4_GET_CLIP_INFO Packet));
        [destruct (Start (IP4_GET_CLIP_INFO Packet) =? Start (IP4_GET_CLIP_INFO f))|];
        inversion E; subst; [right; eexists; reflexivity | now left].
Qed.

(** One call keeps [CurLen] equal to the sum of the [Length] fields of the
    entry's list, whether the packet is queued or dropped. *)
Lemma Ip4InsertFragment_lengths (Assemble0 : IP4_ASSEMBLE_ENTRY) (IpHead : IP4_HEAD)
    (Packet : NET_BUF) (h : HEAP) :
  CurLen Assemble0 = Ip4LengthSum (Fragments Assemble0) ->
  forall q A h', Ip4InsertFragment Assemble0 IpHead Packet h = (q, A, h') ->
  CurLen A = Ip4LengthSum (Fragments A).
Proof.
  intros Hinv q A h' E. unfold Ip4InsertFragment in E.
  set (Cur := Ip4FindInsertPoint (IP4_GET_CLIP_INFO Packet) (Fragments Assemble0)) in *.
  destruct (Ip4CheckPrev (Fragments Assemble0) Cur Packet) as [Packet1|].
  2:{ inversion E; subst. exact Hinv. }
  destruct (Ip4RemoveCovered Packet1 (skipn Cur (Fragments Assemble0))
                             (CurLen Assemble0) h) as [[[op rest] Len] h1] eqn:ER.
  apply Ip4RemoveCovered_lengths in ER.
  pose proof (Ip4LengthSum_split Cur (Fragments Assemble0)) as Hs.
  destruct op as [Packet2|]; inversion E; subst; clear E.
  - assert (HA : forall X : IP4_ASSEMBLE_ENTRY,
               CurLen X = Ip4LengthSum (Fragments X) ->
               CurLen (if IP4_LAST_FRAGMENT (Fragment IpHead) && (AsmTotalLen X =? 0)
                       then set_TotalLen X (End_ (IP4_GET_CLIP_INFO Packet2)) else X) =
               Ip4LengthSum (Fragments
                      (if IP4_LAST_FRAGMENT (Fragment IpHead) && (AsmTotalLen X =? 0)
                       then set_TotalLen X (End_ (IP4_GET_CLIP_INFO Packet2)) else X))).
    { intros X HX. destruct (_ && _); exact HX. }
    apply HA.
    destruct (Start (IP4_GET_CLIP_INFO Packet2) =? 0); cbn;
      rewrite Ip4LengthSum_app; unfold Ip4LengthSum in *; cbn; lia.
  - cbn. rewrite Ip4LengthSum_app. lia.
Qed.

Lemma In_list_set {A} (l : list A) (i : nat) (x y : A) :
  In y (list_set l i x) -> y = x \/ In y l.
Proof.
  revert i; induction l as [|z l IH]; intros [|i] H; cbn in *; try tauto.
  - destruct H as [H|H]; [now left | right; now right].
  - destruct H as [H|H]; [right; now left |].
    destruct (IH _ H); [now left | right; now right].
Qed.

Lemma In_list_remove {A} (l : list A) (i : nat) (y : A) :
  In y (list_remove l i) -> In y l.
Proof.
  revert i; induction l as [|z l IH]; intros [|i] H; cbn in *; try tauto.
  destruct H as [H|H]; [now left | right; eauto].
Qed.

Lemma Ip4FindAssemble_In (IpHead : IP4_HEAD) (b : list IP4_ASSEMBLE_ENTRY) :
  forall pos a, Ip4FindAssemble IpHead b = Some (pos, a) ->
  nth_error b pos = Some a /\ Ip4AssembleMatch a IpHead = true.
Proof.
  induction b as [|x b IH]; intros pos a E; cbn in E; [discriminate|].
  destruct (Ip4AssembleMatch x IpHead) eqn:M.
  - inversion E; subst. now split.
  - destruct (Ip4FindAssemble IpHead b) as [[p a']|]; [|discriminate].
    inversion E; subst. cbn. now apply IH.
Qed.

(** X21.  For every hash, table, packet and heap: Ip4Reassemble keeps
    [CurLen] equal to the sum of the [Length] fields in every entry of the
    table. *)
Lemma Ip4Reassemble_lengths (Hash : Z -> Z -> Z -> Z -> nat)
    (Table : IP4_ASSEMBLE_TABLE) (Packet : NET_BUF) (h : HEAP) :
  Ip4TableLengths Table ->
  Ip4TableLengths (snd (fst (Ip4Reassemble Hash Table Packet h))).
Proof.
  intros Hinv. unfold Ip4Reassemble.
  set (IpHead := Ip Packet).
  set (Index := Hash (Dst IpHead) (Src IpHead) (Id IpHead) (Protocol IpHead)).
  assert (Hset : forall b, (forall a, In a b ->
                      CurLen a = Ip4LengthSum (Fragments a)) ->
                 Ip4TableLengths (set_Bucket Table Index b)).
  { intros b Hb i a. unfold set_Bucket. destruct (Nat.eqb i Index); [apply Hb | apply Hinv]. }
  assert (Hstep : forall pos Assemble0 b1 h1,
             (forall a, In a b1 -> CurLen a = Ip4LengthSum (Fragments a)) ->
             nth_error b1 pos = Some Assemble0 ->
             Ip4TableLengths (snd (fst
               match Ip4InsertFragment Assemble0 IpHead Packet h1 with
               | (false, A, h2) => (RetNull, set_Bucket Table Index (list_set b1 pos A), h2)
               | (true, A, h2) =>
                   if Ip4AssembleDone A
                   then let '(r, h3) := Ip4WrapAssemble A h2 in
                        (r, set_Bucket Table Index (list_remove b1 pos), h3)
                   else (RetNull, set_Bucket Table Index (list_set b1 pos A), h2)
               end))).
  { intros pos A0 b1 h1 Hb Hn.
    destruct (Ip4InsertFragment A0 IpHead Packet h1) as [[q A] h2] eqn:EI.
    apply Ip4InsertFragment_lengths in EI; [|apply Hb; eapply nth_error_In; eassumption].
    assert (Hls : forall a, In a (list_set b1 pos A) ->
                      CurLen a = Ip4LengthSum (Fragments a)).
    { intros a Ha. apply In_list_set in Ha. destruct Ha as [->|Ha]; [exact EI | now apply Hb]. }
    destruct q; [destruct (Ip4AssembleDone A);
                 [destruct (Ip4WrapAssemble A h2) as [r h3]|]|]; cbn; apply Hset; trivial.
    intros a Ha. apply In_list_remove in Ha. now apply Hb. }
  destruct (Ip4FindAssemble IpHead (Table Index)) as [[pos A0]|] eqn:EF.
  - apply Ip4FindAssemble_In in EF. destruct EF as [EF _].
    apply Hstep; [apply Hinv | exact EF].
  - unfold Ip4CreateAssembleEntry. destruct (Allocate h) as [[|] h1]; cbn match.
    + apply Hstep; [|reflexivity].
      intros a [<-|Ha]; [reflexivity | now apply (Hinv Index)].
    + cbn. exact Hinv.
Qed.

(** Ip4WrapAssemble hands a packet back only for an entry whose last
    fragment ends at [TotalLen]; the packet carries the captured header
    and side band. *)
Lemma Ip4WrapAssemble_packet (Assemble0 : IP4_ASSEMBLE_ENTRY) (h : HEAP)
    (NewPacket : NET_BUF) (A : IP4_ASSEMBLE_ENTRY) (h' : HEAP) :
  Ip4WrapAssemble Assemble0 h = (RetPacket NewPacket A, h') ->
  A = Assemble0 /\
  (exists Last, nth_error (Fragments A) (Nat.pred (length (Fragments A))) = Some Last /\
                End_ (IP4_GET_CLIP_INFO Last) = AsmTotalLen A) /\
  AsmHeadInfo A = Some (Ip NewPacket, ProtoData NewPacket).
Proof.
  unfold Ip4WrapAssemble. intros E.
  assert (HB : BackLink (length (Fragments Assemble0)) (length (Fragments Assemble0))
               = Nat.pred (length (Fragments Assemble0)))
    by (destruct (length (Fragments Assemble0)); reflexivity).
  rewrite HB in E.
  destruct (nth_error (Fragments Assemble0) _) as [Last|] eqn:EL; [|discriminate].
  destruct (End_ (IP4_GET_CLIP_INFO Last) =? AsmTotalLen Assemble0) eqn:EE;
    cbn in E; [|discriminate].
  apply Z.eqb_eq in EE.
  destruct (AsmHeadInfo Assemble0) as [[IpHead Info]|] eqn:EH.
  - unfold NetbufFromBufList in E. destruct (Allocate h) as [[|] h1]; [|discriminate].
    inversion E; subst. repeat split; eauto.
  - destruct (Allocate h) as [[|] h1]; discriminate.
Qed.

(** X22.  Ip4Reassemble returns a packet only for an entry with
    [TotalLen <> 0], [CurLen >= TotalLen] and a last fragment ending at
    [TotalLen]; the packet carries the header and side band saved as the
    entry's [Head] and [Info]. *)
Lemma Ip4Reassemble_packet_complete (Hash : Z -> Z -> Z -> Z -> nat)
    (Table : IP4_ASSEMBLE_TABLE) (Packet : NET_BUF) (h : HEAP)
    (NewPacket : NET_BUF) (A : IP4_ASSEMBLE_ENTRY) (T' : IP4_ASSEMBLE_TABLE) (h' : HEAP) :
  Ip4Reassemble Hash Table Packet h = (RetPacket NewPacket A, T', h') ->
  AsmTotalLen A <> 0 /\ AsmTotalLen A <= CurLen A /\
  (exists Last, nth_error (Fragments A) (Nat.pred (length (Fragments A))) = Some Last /\
                End_ (IP4_GET_CLIP_INFO Last) = AsmTotalLen A) /\
  AsmHeadInfo A = Some (Ip NewPacket, ProtoData NewPacket).
Proof.
  unfold Ip4Reassemble.
  set (IpHead := Ip Packet).
  set (Index := Hash (Dst IpHead) (Src IpHead) (Id IpHead) (Protocol IpHead)).
  assert (Hstep : forall pos Assemble0 b1 h1,
             match Ip4InsertFragment Assemble0 IpHead Packet h1 with
             | (false, A, h2) => (RetNull, set_Bucket Table Index (list_set b1 pos A), h2)
             | (true, A, h2) =>
                 if Ip4AssembleDone A
                 then let '(r, h3) := Ip4WrapAssemble A h2 in
                      (r, set_Bucket Table Index (list_remove b1 pos), h3)
                 else (RetNull, set_Bucket Table Index (list_set b1 pos A), h2)
             end = (RetPacket NewPacket A, T', h') ->
             AsmTotalLen A <> 0 /\ AsmTotalLen A <= CurLen A /\
             (exists Last, nth_error (Fragments A) (Nat.pred (length (Fragments A)))
                           = Some Last /\
                           End_ (IP4_GET_CLIP_INFO Last) = AsmTotalLen A) /\
             AsmHeadInfo A = Some (Ip NewPacket, ProtoData NewPacket)).
  { intros pos A0 b1 h1 E.
    destruct (Ip4InsertFragment A0 IpHead Packet h1) as [[[|] A1] h2]; [|discriminate].
    destruct (Ip4AssembleDone A1) eqn:ED; [|discriminate].
    destruct (Ip4WrapAssemble A1 h2) as [r h3] eqn:EW.
    inversion E; subst. apply Ip4WrapAssemble_packet in EW.
    destruct EW as [-> [HL HH]].
    unfold Ip4AssembleDone in ED. apply andb_prop in ED. destruct ED as [D1 D2].
    apply negb_true_iff, Z.eqb_neq in D1. apply Z.leb_le in D2. tauto. }
  destruct (Ip4FindAssemble IpHead (Table Index)) as [[pos A0]|].
  - apply Hstep.
  - destruct (Ip4CreateAssembleEntry _ _ _ _ h) as [[A0|] h1]; [apply Hstep | discriminate].
Qed.

(** The other branch of the completion test: an entry that passes the test
    of line 405 while its last fragment does not end at [TotalLen] is
    freed with all its fragments, and NULL is returned. *)
Lemma Ip4WrapAssemble_malformed (A : IP4_ASSEMBLE_ENTRY) (h : HEAP) (Last : NET_BUF) :
  nth_error (Fragments A) (Nat.pred (length (Fragments A))) = Some Last ->
  End_ (IP4_GET_CLIP_INFO Last) <> AsmTotalLen A ->
  Ip4WrapAssemble A h = (RetNull, Ip4FreeAssembleEntry A h).
Proof.
  intros HL HE. unfold Ip4WrapAssemble.
  replace (BackLink (length (Fragments A)) (length (Fragments A)))
    with (Nat.pred (length (Fragments A)))
    by (destruct (length (Fragments A)); reflexivity).
  rewrite HL. apply Z.eqb_neq in HE. rewrite HE. reflexivity.
Qed.

Lemma Ip4FindInsertPoint_le (This : IP4_CLIP_INFO) (l : list NET_BUF) :
  (Ip4FindInsertPoint This l <= length l)%nat.
Proof.
  induction l as [|f l IH]; cbn [Ip4FindInsertPoint length]; [lia|].
  destruct (Start This <? Start (IP4_GET_CLIP_INFO f)); lia.
Qed.

(** A trim works on the packet it is given: same header, same data block,
    same flags of the side band. *)
Lemma Ip4TrimPacket_same (Packet : NET_BUF) (Start0 End0 : Z) :
  let Packet' := Ip4TrimPacket Packet Start0 End0 in
  Ip Packet' = Ip Packet /\ Vector Packet' = Vector Packet /\
  Start (IP4_GET_CLIP_INFO Packet) <= Start (IP4_GET_CLIP_INFO Packet') /\
  End_ (IP4_GET_CLIP_INFO Packet') <= End_ (IP4_GET_CLIP_INFO Packet).
Proof.
  cbn zeta. pose proof (Ip4TrimPacket_info Packet Start0 End0) as H. cbn zeta in H.
  split; [|split; [|lia]];
    unfold Ip4TrimPacket, Ip4TrimPacket_tail, Ip4TrimPacket_head;
    destruct (Start (IP4_GET_CLIP_INFO Packet) <? Start0); cbn;
    destruct (End0 <? _); reflexivity.
Qed.

(** The packet the check against [Prev] lets through is the packet it was
    given, possibly with its head trimmed. *)
Lemma Ip4CheckPrev_packet (l : list NET_BUF) (Cur : nat) (Packet Packet1 : NET_BUF) :
  Ip4CheckPrev l Cur Packet = Some Packet1 ->
  Packet1 = Packet \/
  exists Node, Packet1 = Ip4TrimPacket Packet Node (End_ (IP4_GET_CLIP_INFO Packet)).
Proof.
  unfold Ip4CheckPrev. intros E.
  destruct (Nat.eqb _ _); [inversion E; now left|].
  destruct (nth_error l _) as [f|]; [|inversion E; now left].
  destruct (Start (IP4_GET_CLIP_INFO Packet) <? End_ (IP4_GET_CLIP_INFO f));
    [|inversion E; now left].
  destruct (End_ (IP4_GET_CLIP_INFO Packet) <=? End_ (IP4_GET_CLIP_INFO f));
    [discriminate|].
  inversion E. right. eexists. reflexivity.
Qed.

(** X23.  What one call does to [Head] and [Info].  A packet that is
    dropped leaves them as they were.  A packet that is queued is the
    incoming packet itself, after at most a head trim (the check against
    [Prev]) and a tail trim (the loop behind it): the same header, the same
    data block, a range inside the range it came with; it stands at the
    insertion point, behind the fragments that were before that point.
    [Head] and [Info] are set, to the header passed with this packet and
    the side band of this packet as queued, exactly when that range starts
    at 0; otherwise they stay as they were. *)
Lemma Ip4InsertFragment_Head (Assemble0 : IP4_ASSEMBLE_ENTRY) (IpHead : IP4_HEAD)
    (Packet : NET_BUF) (h : HEAP) (q : bool) (A : IP4_ASSEMBLE_ENTRY) (h' : HEAP) :
  Ip4InsertFragment Assemble0 IpHead Packet h = (q, A, h') ->
  let Cur := Ip4FindInsertPoint (IP4_GET_CLIP_INFO Packet) (Fragments Assemble0) in
  if q then
    exists Packet1 Queued,
      (Packet1 = Packet \/
       exists Node,
         Packet1 = Ip4TrimPacket Packet Node (End_ (IP4_GET_CLIP_INFO Packet))) /\
      (Queued = Packet1 \/
       exists Node,
         Queued = Ip4TrimPacket Packet1 (Start (IP4_GET_CLIP_INFO Packet1)) Node) /\
      Ip Queued = Ip Packet /\ Vector Queued = Vector Packet /\
      Start (IP4_GET_CLIP_INFO Packet) <= Start (IP4_GET_CLIP_INFO Queued) /\
      End_ (IP4_GET_CLIP_INFO Queued) <= End_ (IP4_GET_CLIP_INFO Packet) /\
      nth_error (Fragments A) Cur = Some Queued /\
      firstn Cur (Fragments A) = firstn Cur (Fragments Assemble0) /\
      AsmHeadInfo A =
        (if Start (IP4_GET_CLIP_INFO Queued) =? 0
         then Some (IpHead, IP4_GET_CLIP_INFO Queued)
         else AsmHeadInfo Assemble0)
  else AsmHeadInfo A = AsmHeadInfo Assemble0.
Proof.
  unfold Ip4InsertFragment. intros E. cbn zeta.
  pose proof (Ip4FindInsertPoint_le (IP4_GET_CLIP_INFO Packet) (Fragments Assemble0))
    as HCur.
  set (Cur := Ip4FindInsertPoint (IP4_GET_CLIP_INFO Packet) (Fragments Assemble0)) in *.
  destruct (Ip4CheckPrev (Fragments Assemble0) Cur Packet) as [Packet1|] eqn:EC.
  2:{ inversion E; subst. reflexivity. }
  destruct (Ip4RemoveCovered Packet1 (skipn Cur (Fragments Assemble0))
                             (CurLen Assemble0) h) as [[[op rest] Len] h1] eqn:ER.
  destruct op as [Packet2|]; inversion E; subst; clear E.
  2:{ reflexivity. }
  apply Ip4CheckPrev_packet in EC. apply Ip4RemoveCovered_packet in ER.
  exists Packet1, Packet2.
  assert (H1 : Ip Packet1 = Ip Packet /\ Vector Packet1 = Vector Packet /\
               Start (IP4_GET_CLIP_INFO Packet) <= Start (IP4_GET_CLIP_INFO Packet1) /\
               End_ (IP4_GET_CLIP_INFO Packet1) <= End_ (IP4_GET_CLIP_INFO Packet)).
  { destruct EC as [->|[Node ->]]; [repeat split; lia | apply Ip4TrimPacket_same]. }
  assert (H2 : Ip Packet2 = Ip Packet1 /\ Vector Packet2 = Vector Packet1 /\
               Start (IP4_GET_CLIP_INFO Packet1) <= Start (IP4_GET_CLIP_INFO Packet2) /\
               End_ (IP4_GET_CLIP_INFO Packet2) <= End_ (IP4_GET_CLIP_INFO Packet1)).
  { destruct ER as [->|[Node ->]]; [repeat split; lia | apply Ip4TrimPacket_same]. }
  destruct H1 as (I1 & V1 & S1 & E1). destruct H2 as (I2 & V2 & S2 & E2).
  assert (HT : forall X : IP4_ASSEMBLE_ENTRY,
             AsmHeadInfo (if IP4_LAST_FRAGMENT (Fragment IpHead) && (AsmTotalLen X =? 0)
                          then set_TotalLen X (End_ (IP4_GET_CLIP_INFO Packet2)) else X)
             = AsmHeadInfo X /\
             Fragments (if IP4_LAST_FRAGMENT (Fragment IpHead) && (AsmTotalLen X =? 0)
                        then set_TotalLen X (End_ (IP4_GET_CLIP_INFO Packet2)) else X)
             = Fragments X).
  { intros X. destruct (_ && _); split; reflexivity. }
  assert (HL : length (firstn Cur (Fragments Assemble0)) = Cur)
    by (apply firstn_length_le; exact HCur).
  assert (HN : nth_error (firstn Cur (Fragments Assemble0) ++ Packet2 :: rest) Cur
               = Some Packet2).
  { rewrite nth_error_app2 by lia. rewrite HL, Nat.sub_diag. reflexivity. }
  assert (HF : firstn Cur (firstn Cur (Fragments Assemble0) ++ Packet2 :: rest)
               = firstn Cur (Fragments Assemble0)).
  { rewrite firstn_app, HL, Nat.sub_diag. cbn [firstn]. rewrite app_nil_r.
    rewrite firstn_firstn, Nat.min_id. reflexivity. }
  split; [exact EC|]. split; [exact ER|].
  split; [congruence|]. split; [congruence|]. split; [lia|]. split; [lia|].
  destruct (Start (IP4_GET_CLIP_INFO Packet2) =? 0) eqn:ES;
    match goal with |- context [AsmHeadInfo (if _ then _ else ?X)] =>
      destruct (HT X) as [H1 H2] end;
    rewrite H1, H2; cbn [set_HeadInfo set_Fragments Fragments AsmHeadInfo];
    repeat split; assumption.
Qed.

(** C1.  The entry holds [0,16) and [16,32); the fragment [16,32) arrives
    again.  Its insertion point is the sentinel and the fragment before
    that point, [16,32), covers it, so it should be freed; the code looks
    at [Cur->ForwardLink], which is the FIRST fragment [0,16), finds no
    overlap and queues the packet untrimmed.  In the same state [24,40)
    arrives: it overlaps the fragment before its insertion point and should
    be trimmed to [32,40); the code queues it as [24,40).  Last run: the
    entry holds [8,16) and [24,32), and [0,8) arrives; no fragment starts
    at or before 0, yet the code compares with [24,32) (the node behind
    [Cur]) and frees the packet. *)
Theorem Ip4Reassemble_prev_is_ForwardLink :
  let st2 := Ip4ReassembleAll [SampleFragment 0 true 16 1 1;
                               SampleFragment 16 true 16 2 2] SampleStart in
  let Dup := SampleFragment 16 true 16 3 3 in
  let st3 := Ip4ReassembleAll [Dup] st2 in
  let Over := SampleFragment 24 true 16 4 4 in
  let sv3 := Ip4ReassembleAll [Over] st2 in
  let su2 := Ip4ReassembleAll [SampleFragment 8 true 8 1 1;
                               SampleFragment 24 true 8 2 2] SampleStart in
  let First := SampleFragment 0 true 8 3 3 in
  let su3 := Ip4ReassembleAll [First] su2 in
  map (fun a => Ip4Ranges (Fragments a)) (SampleBucket st2) = [[(0, 16); (16, 32)]] /\
  map (fun a => Ip4FindInsertPoint (IP4_GET_CLIP_INFO Dup) (Fragments a))
      (SampleBucket st2) = [2%nat] /\
  BackLink 2 2 = 1%nat /\ ForwardLink 2 2 = 0%nat /\
  fst (fst st3) = RetNull /\
  map (fun a => (Ip4Ranges (Fragments a), CurLen a)) (SampleBucket st3)
    = [([(0, 16); (16, 32); (16, 32)], 48)] /\
  Events (snd st3) = [] /\
  map (fun a => Ip4FindInsertPoint (IP4_GET_CLIP_INFO Over) (Fragments a))
      (SampleBucket st2) = [2%nat] /\
  map (fun a => (Fragments a, CurLen a)) (SampleBucket sv3)
    = [([SampleFragment 0 true 16 1 1; SampleFragment 16 true 16 2 2; Over], 48)] /\
  map (fun a => Ip4Ranges (Fragments a)) (SampleBucket su2) = [[(8, 16); (24, 32)]] /\
  map (fun a => Ip4FindInsertPoint (IP4_GET_CLIP_INFO First) (Fragments a))
      (SampleBucket su2) = [0%nat] /\
  BackLink 2 0 = 2%nat /\ ForwardLink 2 0 = 1%nat /\
  fst (fst su3) = RetNull /\
  map (fun a => Ip4Ranges (Fragments a)) (SampleBucket su3) = [[(8, 16); (24, 32)]] /\
  Events (snd su3) = [EvFree First].
Proof.
  vm_compute. repeat split; reflexivity.
Qed.

(** C2.  Three fragments, each accepted (queued on the list): [0,16),
    [16,32) and [16,32) once more.  After the third call the list is not
    ordered: its last two fragments both cover [16,32).  [CurLen] is 48,
    the sum of the Length fields, while the list covers 32 bytes. *)
Theorem Ip4Reassemble_list_overlaps :
  let st3 := Ip4ReassembleAll [SampleFragment 0 true 16 1 1;
                               SampleFragment 16 true 16 2 2;
                               SampleFragment 16 true 16 3 3] SampleStart in
  map (fun a => Ip4Ranges (Fragments a)) (SampleBucket st3)
    = [[(0, 16); (16, 32); (16, 32)]] /\
  map (fun a => map Vector (Fragments a)) (SampleBucket st3) = [[1; 2; 3]%nat] /\
  map (fun a => Ip4FragmentsOrdered (Fragments a)) (SampleBucket st3) = [false] /\
  map CurLen (SampleBucket st3) = [48] /\
  map (fun a => Ip4LengthSum (Fragments a)) (SampleBucket st3) = [48] /\
  Events (snd st3) = [].
Proof.
  vm_compute. repeat split; reflexivity.
Qed.

(** C4.  [0,16), [16,32), [16,32) again, then the last fragment [40,48):
    [TotalLen] is 48, [CurLen] is 56 and the last fragment ends at 48, so
    Ip4Reassemble returns a packet; no fragment of it covers the bytes
    32..39, and its size is 56, not 48. *)
Theorem Ip4Reassemble_finishes_with_hole :
  let st4 := Ip4ReassembleAll [SampleFragment 0 true 16 1 1;
                               SampleFragment 16 true 16 2 2;
                               SampleFragment 16 true 16 3 3;
                               SampleFragment 40 false 8 4 4] SampleStart in
  exists NewPacket A,
    fst (fst st4) = RetPacket NewPacket A /\
    AsmTotalLen A = 48 /\ CurLen A = 56 /\
    Ip4Ranges (Fragments A) = [(0, 16); (16, 32); (16, 32); (40, 48)] /\
    Ip4Covers (Fragments A) 32 = false /\ Ip4Covers (Fragments A) 39 = false /\
    TotalSize NewPacket = 56 /\
    SampleBucket st4 = [].
Proof.
  eexists. eexists. vm_compute. repeat split; reflexivity.
Qed.

(** C5.  [0,16) with header TTL 1, then [16,32), then [0,16) again with
    header TTL 3.  The second start-0 fragment is queued next to the first
    one, the ASSERT of line 385 finds [Head] set, and [Head] is
    overwritten with the header of the later fragment. *)
Theorem Ip4Reassemble_overwrites_Head :
  let st2 := Ip4ReassembleAll [SampleFragment 0 true 16 1 1;
                               SampleFragment 16 true 16 2 2] SampleStart in
  let st3 := Ip4ReassembleAll [SampleFragment 0 true 16 3 3] st2 in
  map AsmHead (SampleBucket st2) = [Some (Ip (SampleFragment 0 true 16 1 1))] /\
  map Ip4Reassemble_assert_Head (SampleBucket st2) = [false] /\
  map (fun a => Ip4Ranges (Fragments a)) (SampleBucket st3)
    = [[(0, 16); (0, 16); (16, 32)]] /\
  map AsmHead (SampleBucket st3) = [Some (Ip (SampleFragment 0 true 16 3 3))] /\
  Ip (SampleFragment 0 true 16 3 3) <> Ip (SampleFragment 0 true 16 1 1).
Proof.
  vm_compute. repeat split; try reflexivity. discriminate.
Qed.

(* ================================================================== *)
(** * Ip4AccpetFrame: theorems *)
(* ================================================================== *)

Section IngressTheorems.

Context `{Lib : Ip4Lib}.

(** X25.  The checks of the fragment path (lines 561-575) on a
    non-terminal fragment (MF set in the header in host byte order): it is
    never dispatched as a whole datagram, and it is handed to
    Ip4Reassemble only with DF clear and a payload length that is a
    multiple of 8 (0 is such a length).  A frame is dropped without
    re-arming the receive only when the I/O status is an error or the
    service is being destroyed. *)
Theorem Ip4ValidateFrame_nonterminal (IpSb : IP4_SERVICE) (Packet : NET_BUF)
    (IoStatus : EFI_STATUS) (Flag : Z) :
  Z.land (Fragment (Ip4NtohHead (Ip Packet))) IP4_HEAD_MF_MASK <> 0 ->
  match Ip4ValidateFrame IpSb Packet IoStatus Flag with
  | VReassemble p =>
      Ip p = Ip4NtohHead (Ip Packet) /\
      Length (IP4_GET_CLIP_INFO p)
        = TotalLen (Ip p) - Z.shiftl (HeadLen (Ip Packet)) 2 /\
      Z.rem (Length (IP4_GET_CLIP_INFO p)) 8 = 0 /\
      Z.land (Fragment (Ip p)) IP4_HEAD_DF_MASK = 0
  | VDispatch _ => False
  | VRestart _ => True
  | VDrop _ =>
      EFI_ERROR IoStatus ||
      IP4_SERVICE_STATE_eqb (SbState IpSb) IP4_SERVICE_DESTORY = true
  end.
Proof.
  intros HMF. unfold Ip4ValidateFrame.
  repeat match goal with
         | |- context [if ?c then VRestart _ else _] => destruct c eqn:?; [exact I|]
         | |- context [if ?c then VDrop _ else _] => destruct c eqn:?; [reflexivity|]
         end.
  cbn -[Z.shiftl Z.land Z.rem IP4_HEAD_MF_MASK IP4_HEAD_DF_MASK IP4_HEAD_OFFSET_MASK].
  apply Z.eqb_neq in HMF. rewrite HMF.
  cbn -[Z.shiftl Z.land Z.rem IP4_HEAD_MF_MASK IP4_HEAD_DF_MASK IP4_HEAD_OFFSET_MASK].
  destruct (Z.land (Fragment (Ip4NtohHead (Ip Packet))) IP4_HEAD_DF_MASK =? 0) eqn:EDF;
    cbn -[Z.shiftl Z.land Z.rem IP4_HEAD_MF_MASK IP4_HEAD_DF_MASK IP4_HEAD_OFFSET_MASK];
    [|exact I].
  destruct (Z.rem (TotalLen (Ip4NtohHead (Ip Packet)) - Z.shiftl (HeadLen (Ip Packet)) 2) 8
            =? 0) eqn:ER;
    cbn -[Z.shiftl Z.land Z.rem IP4_HEAD_MF_MASK IP4_HEAD_DF_MASK IP4_HEAD_OFFSET_MASK];
    [|exact I].
  apply Z.eqb_eq in EDF, ER. repeat split; assumption.
Qed.

End IngressTheorems.

(** C6.  No check of Ip4AccpetFrame rejects a non-terminal fragment without
    payload.  A frame with MF set, DF clear, offset 0 and a total length
    equal to its header length is neither dropped nor freed: it is handed
    to Ip4Reassemble and queued as the range [0,0), against the comments
    of lines 307 and 333 (THIS.Start < THIS.End, NODE.Start < NODE.End),
    and its header becomes [Head].  When the first fragment [0,16) of the
    same datagram comes next, it is queued behind the empty one, the
    ASSERT of line 385 finds [Head] set, and [Head] and [Info] are
    overwritten. *)
Theorem Ip4AccpetFrame_queues_empty_fragment :
  let Empty := SampleFrame IP4_HEAD_MF_MASK 0 in
  let First := SampleFrame IP4_HEAD_MF_MASK 16 in
  let Index := SampleHash 2 1 7 17 in
  exists p1 p2,
    @Ip4ValidateFrame SampleLib SampleService Empty EFI_SUCCESS 0 = VReassemble p1 /\
    Z.land (Fragment (Ip p1)) IP4_HEAD_MF_MASK <> 0 /\
    Z.land (Fragment (Ip p1)) IP4_HEAD_DF_MASK = 0 /\
    Length (IP4_GET_CLIP_INFO p1) = 0 /\
    Start (IP4_GET_CLIP_INFO p1) = 0 /\ End_ (IP4_GET_CLIP_INFO p1) = 0 /\
    match @Ip4AccpetFrame SampleLib Empty EFI_SUCCESS 0 SampleService SampleHeap with
    | Some (IpSb1, h1) =>
        map (fun a => Fragments a) (Assemble IpSb1 Index) = [[p1]] /\
        map AsmHeadInfo (Assemble IpSb1 Index)
          = [Some (Ip p1, IP4_GET_CLIP_INFO p1)] /\
        Events h1 = [EvReceiveFrame] /\
        @Ip4ValidateFrame SampleLib IpSb1 First EFI_SUCCESS 0 = VReassemble p2 /\
        map Ip4Reassemble_assert_Head (Assemble IpSb1 Index) = [false] /\
        match @Ip4AccpetFrame SampleLib First EFI_SUCCESS 0 IpSb1 h1 with
        | Some (IpSb2, h2) =>
            map (fun a => Fragments a) (Assemble IpSb2 Index) = [[p1; p2]] /\
            map (fun a => Ip4Ranges (Fragments a)) (Assemble IpSb2 Index)
              = [[(0, 0); (0, 16)]] /\
            map AsmHeadInfo (Assemble IpSb2 Index)
              = [Some (Ip p2, IP4_GET_CLIP_INFO p2)] /\
            Ip p2 <> Ip p1 /\
            Events h2 = [EvReceiveFrame; EvReceiveFrame]
        | None => False
        end
    | None => False
    end.
Proof.
  eexists. eexists. vm_compute. repeat split; try reflexivity; discriminate.
Qed.

Lemma Ip4ValidateFrame_nonterminal_witness :
  match @Ip4ValidateFrame SampleLib SampleService (SampleFrame IP4_HEAD_MF_MASK 0)
                          EFI_SUCCESS 0 with
  | VReassemble p =>
      Ip p = @Ip4NtohHead SampleLib (Ip (SampleFrame IP4_HEAD_MF_MASK 0)) /\
      Length (IP4_GET_CLIP_INFO p)
        = TotalLen (Ip p) - Z.shiftl (HeadLen (Ip (SampleFrame IP4_HEAD_MF_MASK 0))) 2 /\
      Z.rem (Length (IP4_GET_CLIP_INFO p)) 8 = 0 /\
      Z.land (Fragment (Ip p)) IP4_HEAD_DF_MASK = 0
  | VDispatch _ => False
  | VRestart _ => True
  | VDrop _ =>
      EFI_ERROR EFI_SUCCESS ||
      IP4_SERVICE_STATE_eqb (SbState SampleService) IP4_SERVICE_DESTORY = true
  end.
Proof.
  apply (@Ip4ValidateFrame_nonterminal SampleLib SampleService
           (SampleFrame IP4_HEAD_MF_MASK 0) EFI_SUCCESS 0).
  vm_compute. discriminate.
Defined.

(* ================================================================== *)
(** * Ip4InstanceFrameAcceptable: theorems *)
(* ================================================================== *)

Section FilterTheorems.

Context `{Lib : Ip4Lib}.

(** The group loop ends below [GroupCount] exactly when the address is one
    of the groups. *)
Lemma Ip4FindGroup_In (Groups0 : list Z) (Address : Z) :
  Nat.ltb (Ip4FindGroup Groups0 Address) (length Groups0) = true <-> In Address Groups0.
Proof.
  induction Groups0 as [|g rest IH]; cbn.
  - split; [discriminate | tauto].
  - destruct (g =? Address) eqn:E.
    + apply Z.eqb_eq in E. split; [now left | reflexivity].
    + apply Z.eqb_neq in E. change (Nat.ltb (S ?a) (S ?b)) with (Nat.ltb a b).
      rewrite IH. split; [now right | intros [H|H]; [contradiction | exact H]].
Qed.

(** C7.  For a packet that reaches the cast-type rows of the filter
    (receiving not disabled, the child not promiscuous, the protocol rows
    passed) and whose cast type is multicast: a child without bound address
    ([UseDefaultAddress] clear and the interface address 0) accepts it
    whatever its group list holds; any other child accepts it exactly when
    the destination, as HTONL gives it, is one of its groups. *)
Theorem Ip4InstanceFrameAcceptable_multicast (IpInstance : IP4_PROTOCOL)
    (Head : IP4_HEAD) (Packet : NET_BUF) (Proto : Z) :
  ReceiveTimeout (ConfigData IpInstance) <> UINT32_of (-1) ->
  AcceptPromiscuous (ConfigData IpInstance) = false ->
  Ip4FilterProtocol (ConfigData IpInstance) Head Packet = Some Proto ->
  AcceptAnyProtocol (ConfigData IpInstance) = true \/
    Proto = DefaultProtocol (ConfigData IpInstance) ->
  CastType (IP4_GET_CLIP_INFO Packet) = IP4_MULTICAST ->
  (UseDefaultAddress (ConfigData IpInstance) = false /\ InterfaceIp IpInstance = 0 ->
   forall Groups0,
     Ip4InstanceFrameAcceptable
       (mkChild (State IpInstance) (ConfigData IpInstance) (InterfaceIp IpInstance)
                Groups0 (Received IpInstance) (RxTokens IpInstance)
                (Delivered IpInstance)) Head Packet = true) /\
  (~ (UseDefaultAddress (ConfigData IpInstance) = false /\ InterfaceIp IpInstance = 0) ->
   (Ip4InstanceFrameAcceptable IpInstance Head Packet = true <->
    In (HTONL (Dst Head)) (Groups IpInstance))).
Proof.
  intros HT HP HF HA HC.
  assert (Hrows : forall Groups0,
             Ip4InstanceFrameAcceptable
               (mkChild (State IpInstance) (ConfigData IpInstance)
                        (InterfaceIp IpInstance) Groups0 (Received IpInstance)
                        (RxTokens IpInstance) (Delivered IpInstance)) Head Packet
             = if negb (UseDefaultAddress (ConfigData IpInstance)) &&
                  (InterfaceIp IpInstance =? 0)
               then true
               else Nat.ltb (Ip4FindGroup Groups0 (HTONL (Dst Head))) (length Groups0)).
  { intros Groups0. unfold Ip4InstanceFrameAcceptable, GroupCount. cbn [ConfigData Groups InterfaceIp].
    apply Z.eqb_neq in HT. rewrite HT, HP, HF, HC.
    assert (HA' : negb (AcceptAnyProtocol (ConfigData IpInstance)) &&
                  negb (Proto =? DefaultProtocol (ConfigData IpInstance)) = false).
    { destruct HA as [HA|HA]; [rewrite HA; reflexivity |].
      apply Z.eqb_eq in HA. rewrite HA. apply andb_false_r. }
    rewrite HA'. reflexivity. }
  split.
  - intros [HU HI] Groups0. rewrite Hrows, HU, HI. reflexivity.
  - intros Hb.
    assert (E : IpInstance =
                mkChild (State IpInstance) (ConfigData IpInstance)
                        (InterfaceIp IpInstance) (Groups IpInstance)
                        (Received IpInstance) (RxTokens IpInstance)
                        (Delivered IpInstance)) by (destruct IpInstance; reflexivity).
    rewrite E at 1. rewrite Hrows.
    destruct (negb (UseDefaultAddress (ConfigData IpInstance)) &&
              (InterfaceIp IpInstance =? 0)) eqn:EB.
    + exfalso. apply Hb. apply andb_prop in EB. destruct EB as [E1 E2].
      apply negb_true_iff in E1. apply Z.eqb_eq in E2. now split.
    + apply Ip4FindGroup_In.
Qed.

End FilterTheorems.

Lemma Ip4InstanceFrameAcceptable_multicast_witness :
  let Child := mkChild IP4_STATE_CONFIGED SampleConfig 0 [5; 9] [] [] [] in
  let Bound := mkChild IP4_STATE_CONFIGED SampleConfig 0x0a000001 [5; 9] [] [] [] in
  let Packet := set_Info (SampleFragment 0 false 8 1 64)
                  (set_CastType (IP4_GET_CLIP_INFO (SampleFragment 0 false 8 1 64))
                                IP4_MULTICAST) in
  (forall Groups0,
     @Ip4InstanceFrameAcceptable SampleLib
       (mkChild IP4_STATE_CONFIGED SampleConfig 0 Groups0 [] [] []) (Ip Packet) Packet
     = true) /\
  (@Ip4InstanceFrameAcceptable SampleLib Bound (Ip Packet) Packet = true <->
   In (@HTONL SampleLib (Dst (Ip Packet))) (Groups Bound)).
Proof.
  cbn zeta. split.
  - apply (@Ip4InstanceFrameAcceptable_multicast SampleLib
             (mkChild IP4_STATE_CONFIGED SampleConfig 0 [5; 9] [] [] [])
             _ _ 17); try reflexivity.
    + vm_compute; discriminate.
    + right; reflexivity.
    + split; reflexivity.
  - apply (@Ip4InstanceFrameAcceptable_multicast SampleLib
             (mkChild IP4_STATE_CONFIGED SampleConfig 0x0a000001 [5; 9] [] [] [])
             _ _ 17); try reflexivity.
    + vm_compute; discriminate.
    + right; reflexivity.
    + intros [_ H]; vm_compute in H; discriminate.
Defined.

(* ================================================================== *)
(** * NetbufFree and the free hooks: lemmas *)
(* ================================================================== *)

Lemma Ip4HeapKept_refl (h : HEAP) : Ip4HeapKept h h.
Proof. repeat split. apply Nat.le_refl. Qed.

Lemma Ip4HeapKept_trans (a b c : HEAP) :
  Ip4HeapKept a b -> Ip4HeapKept b c -> Ip4HeapKept a c.
Proof.
  intros (A1 & A2 & A3 & A4) (B1 & B2 & B3 & B4).
  repeat split; try congruence. eapply Nat.le_trans; eassumption.
Qed.

Lemma Ip4HeapKept_fold (f : HEAP -> NET_BUF -> HEAP) :
  (forall h x, Ip4HeapKept h (f h x)) ->
  forall l h, Ip4HeapKept h (fold_left f l h).
Proof.
  intros Hf. induction l as [|x l IH]; intros h; cbn [fold_left].
  - apply Ip4HeapKept_refl.
  - eapply Ip4HeapKept_trans; [apply Hf | apply IH].
Qed.

Lemma Ip4Unhook_length (v : nat) (l : list (nat * IP4_ASSEMBLE_ENTRY)) :
  (length (Ip4Unhook v l) <= length l)%nat.
Proof.
  unfold Ip4Unhook. induction l as [|e l IH]; cbn [filter length]; [lia|].
  destruct (negb (Nat.eqb (fst e) v)); cbn [length]; lia.
Qed.

Lemma Ip4Unhook_found (v : nat) (l : list (nat * IP4_ASSEMBLE_ENTRY))
    (Arg : IP4_ASSEMBLE_ENTRY) :
  Ip4HookOf v l = Some Arg -> (S (length (Ip4Unhook v l)) <= length l)%nat.
Proof.
  unfold Ip4HookOf, Ip4Unhook. induction l as [|e l IH]; cbn [find filter length];
    [discriminate|].
  destruct (Nat.eqb (fst e) v); cbn [negb length].
  - intros _. pose proof (Ip4Unhook_length v l) as H. unfold Ip4Unhook in H. lia.
  - intros H. apply IH in H. lia.
Qed.

Lemma NetbufFreeVector_kept (n : nat) :
  forall v h, Ip4HeapKept h (NetbufFreeVector n v h).
Proof.
  induction n as [|n IH]; intros v h; cbn [NetbufFreeVector];
    destruct (Nat.eqb _ 0);
    try (repeat split; apply Nat.le_refl);
    destruct (Ip4HookOf v _) as [Arg|];
    try (repeat split; apply Nat.le_refl).
  eapply Ip4HeapKept_trans; [|apply Ip4HeapKept_fold].
  - repeat split. cbn [set_FreeHook set_RefCnt FreeHook]. apply Ip4Unhook_length.
  - intros h' x. eapply Ip4HeapKept_trans; [|apply IH].
    repeat split. apply Nat.le_refl.
Qed.

(** The bound on the depth of hooks is enough: any bound that is at least
    the length of the hook table gives the same result. *)
Lemma NetbufFreeVector_fuel (n : nat) :
  forall m v h,
    (length (FreeHook h) <= n)%nat -> (length (FreeHook h) <= m)%nat ->
    NetbufFreeVector n v h = NetbufFreeVector m v h.
Proof.
  induction n as [|n IH]; intros m v h Hn Hm.
  - destruct (FreeHook h) as [|e l] eqn:EH; [|cbn in Hn; lia].
    destruct m; cbn [NetbufFreeVector set_RefCnt FreeHook]; rewrite EH;
      cbn [Ip4HookOf find option_map]; reflexivity.
  - destruct m as [|m].
    + destruct (FreeHook h) as [|e l] eqn:EH; [|cbn in Hm; lia].
      cbn [NetbufFreeVector set_RefCnt FreeHook]. rewrite EH.
      cbn [Ip4HookOf find option_map]. reflexivity.
    + cbn [NetbufFreeVector]. destruct (Nat.eqb _ 0); [|reflexivity].
      cbn [set_RefCnt FreeHook].
      destruct (Ip4HookOf v (FreeHook h)) as [Arg|] eqn:EF; [|reflexivity].
      apply Ip4Unhook_found in EF.
      set (h0 := set_FreeHook _ _).
      assert (H0 : (length (FreeHook h0) <= n)%nat /\ (length (FreeHook h0) <= m)%nat).
      { unfold h0. cbn [set_FreeHook FreeHook]. lia. }
      clearbody h0. revert h0 H0.
      induction (Fragments Arg) as [|f l IHl]; intros h0 [H1 H2]; cbn [fold_left];
        [reflexivity|].
      rewrite (IH m (Vector f) (hook_frees f h0)) by assumption.
      apply IHl.
      destruct (NetbufFreeVector_kept m (Vector f) (hook_frees f h0))
        as (_ & _ & _ & HL).
      cbn [hook_frees FreeHook] in HL. lia.
Qed.

Lemma Ip4OnFreeFragments_fuel (n k : nat) (l : list NET_BUF) :
  forall h,
    (length (FreeHook h) <= n)%nat -> (length (FreeHook h) <= k)%nat ->
    fold_left (fun h' Fragment =>
                 NetbufFreeVector n (Vector Fragment) (hook_frees Fragment h')) l h =
    fold_left (fun h' Fragment =>
                 NetbufFreeVector k (Vector Fragment) (hook_frees Fragment h')) l h.
Proof.
  induction l as [|f l IHl]; intros h H1 H2; cbn [fold_left]; [reflexivity|].
  rewrite (NetbufFreeVector_fuel n k (Vector f) (hook_frees f h)) by assumption.
  apply IHl;
    destruct (NetbufFreeVector_kept k (Vector f) (hook_frees f h))
      as (_ & _ & _ & HL);
    cbn [hook_frees FreeHook] in HL; lia.
Qed.

(** A release that is not the last one, or of a block without hook, only
    counts the reference down. *)
Lemma NetbufFree_plain (Packet : NET_BUF) (h : HEAP) :
  Nat.pred (RefCnt h (Vector Packet)) <> 0%nat \/
  Ip4HookOf (Vector Packet) (FreeHook h) = None ->
  NetbufFree Packet h =
  emit (EvFree Packet)
       (set_RefCnt h (Vector Packet) (Nat.pred (RefCnt h (Vector Packet)))).
Proof.
  intros H. unfold NetbufFree. f_equal.
  destruct (length (FreeHook h)); cbn [NetbufFreeVector set_RefCnt RefCnt FreeHook];
    rewrite Nat.eqb_refl;
    (destruct (Nat.eqb (Nat.pred (RefCnt h (Vector Packet))) 0) eqn:E;
     [|reflexivity]);
    apply Nat.eqb_eq in E;
    (destruct H as [H|H]; [contradiction | rewrite H; reflexivity]).
Qed.

(** The last release of a block with a hook runs the hook, once. *)
Lemma NetbufFree_last (Packet : NET_BUF) (h : HEAP) (Arg : IP4_ASSEMBLE_ENTRY) :
  Nat.pred (RefCnt h (Vector Packet)) = 0%nat ->
  Ip4HookOf (Vector Packet) (FreeHook h) = Some Arg ->
  NetbufFree Packet h =
  emit (EvFree Packet)
       (Ip4OnFreeFragments Arg
          (set_FreeHook (set_RefCnt h (Vector Packet) 0)
                        (Ip4Unhook (Vector Packet) (FreeHook h)))).
Proof.
  intros HR HF. unfold NetbufFree. f_equal.
  pose proof (Ip4Unhook_found _ _ _ HF) as HL.
  destruct (length (FreeHook h)) as [|n] eqn:EL; [lia|].
  cbn [NetbufFreeVector set_RefCnt RefCnt FreeHook].
  rewrite Nat.eqb_refl, HR, HF. cbn [Nat.eqb].
  unfold Ip4OnFreeFragments.
  set (h0 := set_FreeHook _ _).
  apply Ip4OnFreeFragments_fuel; [|apply Nat.le_refl].
  unfold h0. cbn [set_FreeHook FreeHook]. lia.
Qed.

Lemma NetbufFree_kept (Packet : NET_BUF) (h : HEAP) :
  Pool (NetbufFree Packet h) = Pool h /\
  NextVector (NetbufFree Packet h) = NextVector h /\
  Events (NetbufFree Packet h) = Events h ++ [EvFree Packet].
Proof.
  unfold NetbufFree.
  destruct (NetbufFreeVector_kept (length (FreeHook h)) (Vector Packet) h)
    as (K1 & K2 & K3 & _).
  cbn [emit Pool NextVector Events]. rewrite K1, K2, K3. repeat split.
Qed.

Lemma Events_NetbufFree (Packet : NET_BUF) (h : HEAP) :
  Events (NetbufFree Packet h) = Events h ++ [EvFree Packet].
Proof. apply NetbufFree_kept. Qed.

Lemma NextVector_NetbufFree (Packet : NET_BUF) (h : HEAP) :
  NextVector (NetbufFree Packet h) = NextVector h.
Proof. apply NetbufFree_kept. Qed.

Lemma Pool_NetbufFree (Packet : NET_BUF) (h : HEAP) :
  Pool (NetbufFree Packet h) = Pool h.
Proof. apply NetbufFree_kept. Qed.

(* ================================================================== *)
(** * Ip4PacketTimerTicking: theorems *)
(* ================================================================== *)

Lemma Events_Ip4FreeAssembleEntry (a : IP4_ASSEMBLE_ENTRY) (h : HEAP) :
  Events (Ip4FreeAssembleEntry a h) = Events h ++ map EvFree (Fragments a).
Proof.
  unfold Ip4FreeAssembleEntry. generalize (Fragments a) as l. intros l. revert h.
  induction l as [|f l IH]; intros h; cbn [fold_left map].
  - now rewrite app_nil_r.
  - rewrite IH, Events_NetbufFree, <- app_assoc. reflexivity.
Qed.

Lemma set_AsmLife_same (a : IP4_ASSEMBLE_ENTRY) : set_AsmLife a (AsmLife a) = a.
Proof. destruct a; reflexivity. Qed.

Lemma set_Life_same (Packet : NET_BUF) :
  set_Info Packet (set_Life (IP4_GET_CLIP_INFO Packet) (Life (IP4_GET_CLIP_INFO Packet)))
  = Packet.
Proof. destruct Packet as [i [] s v t]; reflexivity. Qed.

(** The three cases of the code's test [(Life > 0) && (--Life == 0)]. *)
Lemma Ip4LifeAfterTick_cases (life : Z) :
  (life <= 0 /\ Ip4LifeAfterTick life = Some life) \/
  (life = 1 /\ Ip4LifeAfterTick life = None) \/
  (1 < life /\ Ip4LifeAfterTick life = Some (life - 1)).
Proof.
  unfold Ip4LifeAfterTick.
  destruct (life =? 1) eqn:E1; [apply Z.eqb_eq in E1; right; left; now split|].
  apply Z.eqb_neq in E1.
  destruct (1 <? life) eqn:E2.
  - apply Z.ltb_lt in E2. right; right; now split.
  - apply Z.ltb_ge in E2. left; split; [lia | reflexivity].
Qed.

Lemma Ip4TickBucket_spec (b : list IP4_ASSEMBLE_ENTRY) :
  forall h,
    fst (Ip4TickBucket b h) = flat_map Ip4EntryAfterTick b /\
    Events (snd (Ip4TickBucket b h)) = Events h ++ flat_map Ip4EntryFrees b.
Proof.
  induction b as [|a b IH]; intros h; cbn [Ip4TickBucket flat_map].
  - cbn. now rewrite app_nil_r.
  - unfold Ip4EntryAfterTick at 1, Ip4EntryFrees at 1.
    destruct (Ip4LifeAfterTick_cases (AsmLife a)) as [[H E]|[[H E]|[H E]]]; rewrite E.
    + assert (E0 : (0 <? AsmLife a) = false) by (apply Z.ltb_ge; lia). rewrite E0.
      destruct (IH h) as [I1 I2]. destruct (Ip4TickBucket b h) as [r h1].
      cbn in *. rewrite set_AsmLife_same, I1, I2. now split.
    + rewrite H. cbn [Z.ltb Z.compare AsmLife set_AsmLife Z.sub Z.eqb Z.add Z.opp Z.pos_sub].
      destruct (IH (Ip4FreeAssembleEntry (set_AsmLife a 0) h)) as [I1 I2].
      rewrite I1, I2, Events_Ip4FreeAssembleEntry, <- app_assoc. now split.
    + assert (E0 : (0 <? AsmLife a) = true) by (apply Z.ltb_lt; lia). rewrite E0.
      cbn [AsmLife set_AsmLife].
      assert (E1 : (AsmLife a - 1 =? 0) = false) by (apply Z.eqb_neq; lia). rewrite E1.
      destruct (IH h) as [I1 I2]. destruct (Ip4TickBucket b h) as [r h1].
      cbn in *. rewrite I1, I2. now split.
Qed.

Lemma Ip4TickTable_spec (n : nat) (Table : IP4_ASSEMBLE_TABLE) (h : HEAP) :
  (forall Index,
     fst (Ip4TickTable n Table h) Index =
     if Nat.ltb Index n then flat_map Ip4EntryAfterTick (Table Index) else Table Index) /\
  Events (snd (Ip4TickTable n Table h)) =
  Events h ++ flat_map (fun Index => flat_map Ip4EntryFrees (Table Index)) (seq 0 n).
Proof.
  induction n as [|n [IH1 IH2]]; cbn [Ip4TickTable].
  - cbn. split; [reflexivity | now rewrite app_nil_r].
  - destruct (Ip4TickTable n Table h) as [T1 h1]. cbn [fst snd] in *.
    pose proof (Ip4TickBucket_spec (T1 n) h1) as [B1 B2].
    destruct (Ip4TickBucket (T1 n) h1) as [b h2]. cbn [fst snd] in *.
    assert (En : T1 n = Table n) by (rewrite IH1, Nat.ltb_irrefl; reflexivity).
    split.
    + intros Index. unfold set_Bucket.
      destruct (Nat.eqb Index n) eqn:E.
      * apply Nat.eqb_eq in E. subst Index.
        assert (L : Nat.ltb n (S n) = true) by (apply Nat.ltb_lt; lia).
        rewrite L, B1, En. reflexivity.
      * apply Nat.eqb_neq in E. rewrite IH1.
        destruct (Nat.ltb Index n) eqn:L1; destruct (Nat.ltb Index (S n)) eqn:L2;
          try reflexivity.
        -- apply Nat.ltb_lt in L1. apply Nat.ltb_ge in L2. lia.
        -- apply Nat.ltb_ge in L1. apply Nat.ltb_lt in L2. lia.
    + rewrite B2, IH2, En, seq_S, flat_map_app, <- app_assoc. cbn [flat_map Nat.add].
      now rewrite app_nil_r.
Qed.

Lemma Ip4TickReceived_spec (r : list NET_BUF) :
  forall h,
    fst (Ip4TickReceived r h) = flat_map Ip4PacketAfterTick r /\
    Events (snd (Ip4TickReceived r h)) = Events h ++ flat_map Ip4PacketFrees r.
Proof.
  induction r as [|p r IH]; intros h; cbn [Ip4TickReceived flat_map].
  - cbn. now rewrite app_nil_r.
  - unfold Ip4PacketAfterTick at 1, Ip4PacketFrees at 1.
    destruct (Ip4LifeAfterTick_cases (Life (IP4_GET_CLIP_INFO p))) as [[H E]|[[H E]|[H E]]];
      rewrite E.
    + assert (E0 : (0 <? Life (IP4_GET_CLIP_INFO p)) = false) by (apply Z.ltb_ge; lia).
      rewrite E0. destruct (IH h) as [I1 I2]. destruct (Ip4TickReceived r h) as [q h1].
      cbn [fst snd app] in *. rewrite set_Life_same, I1, I2. now split.
    + rewrite H. cbn [Z.ltb Z.compare Z.sub Z.add Z.opp Z.pos_sub].
      change (Life (IP4_GET_CLIP_INFO (set_Info p (set_Life (IP4_GET_CLIP_INFO p) 0))))
        with 0. cbn [Z.eqb].
      destruct (IH (NetbufFree (set_Info p (set_Life (IP4_GET_CLIP_INFO p) 0)) h))
        as [I1 I2].
      rewrite I1, I2, Events_NetbufFree, <- app_assoc. now split.
    + assert (E0 : (0 <? Life (IP4_GET_CLIP_INFO p)) = true) by (apply Z.ltb_lt; lia).
      rewrite E0.
      change (Life (IP4_GET_CLIP_INFO
                (set_Info p (set_Life (IP4_GET_CLIP_INFO p)
                                      (Life (IP4_GET_CLIP_INFO p) - 1)))))
        with (Life (IP4_GET_CLIP_INFO p) - 1).
      assert (E1 : (Life (IP4_GET_CLIP_INFO p) - 1 =? 0) = false)
        by (apply Z.eqb_neq; lia).
      rewrite E1. destruct (IH h) as [I1 I2]. destruct (Ip4TickReceived r h) as [q h1].
      cbn [fst snd app] in *. rewrite I1, I2. now split.
Qed.

Lemma Ip4TickChildren_spec (Ch : list IP4_PROTOCOL) :
  forall h,
    fst (Ip4TickChildren Ch h) =
      map (fun c => set_Queues c (flat_map Ip4PacketAfterTick (Received c))
                               (RxTokens c) (Delivered c)) Ch /\
    Events (snd (Ip4TickChildren Ch h)) =
      Events h ++ flat_map (fun c => flat_map Ip4PacketFrees (Received c)) Ch.
Proof.
  induction Ch as [|c Ch IH]; intros h; cbn [Ip4TickChildren map flat_map].
  - cbn. now rewrite app_nil_r.
  - pose proof (Ip4TickReceived_spec (Received c) h) as [R1 R2].
    destruct (Ip4TickReceived (Received c) h) as [q h1]. cbn [fst snd] in *.
    destruct (IH h1) as [I1 I2]. destruct (Ip4TickChildren Ch h1) as [Ch1 h2].
    cbn [fst snd] in *. rewrite I1, I2, R1, R2, <- app_assoc. now split.
Qed.

Section TimerTheorems.

Context `{Lib : Ip4Lib}.

(** C10.  One call of Ip4PacketTimerTicking: in every bucket of the table
    and in the received queue of every child, an owner whose life is 1 is
    freed (an entry with all its fragments), one whose life is larger has it
    decremented, one whose life is not positive stays as it is
    ([Ip4LifeAfterTick], see [Ip4LifeAfterTick_cases]); nothing else is
    freed and nothing else changes.  (What the free hook of an expired
    assembled packet releases in turn is recorded in [HookFrees].) *)
Theorem Ip4PacketTimerTicking_life (IpSb : IP4_SERVICE) (h : HEAP) :
  let r := Ip4PacketTimerTicking IpSb h in
  (forall Index,
     Assemble (fst r) Index =
     if Nat.ltb Index IP4_ASSEMLE_HASH_SIZE
     then flat_map Ip4EntryAfterTick (Assemble IpSb Index)
     else Assemble IpSb Index) /\
  Children (fst r) =
    map (fun c => set_Queues c (flat_map Ip4PacketAfterTick (Received c))
                             (RxTokens c) (Delivered c)) (Children IpSb) /\
  Events (snd r) =
    Events h ++
    flat_map (fun Index => flat_map Ip4EntryFrees (Assemble IpSb Index))
             (seq 0 IP4_ASSEMLE_HASH_SIZE) ++
    flat_map (fun c => flat_map Ip4PacketFrees (Received c)) (Children IpSb).
Proof.
  cbn zeta. unfold Ip4PacketTimerTicking.
  pose proof (Ip4TickTable_spec IP4_ASSEMLE_HASH_SIZE (Assemble IpSb) h) as [T1 T2].
  destruct (Ip4TickTable IP4_ASSEMLE_HASH_SIZE (Assemble IpSb) h) as [Table h1].
  pose proof (Ip4TickChildren_spec (Children IpSb) h1) as [C1 C2].
  destruct (Ip4TickChildren (Children IpSb) h1) as [Ch h2].
  cbn [fst snd Assemble Children] in *.
  split; [exact T1 | split; [exact C1 |]].
  rewrite C2, T2, <- app_assoc. reflexivity.
Qed.

End TimerTheorems.

(* ================================================================== *)
(** * Ip4InstanceDeliverPacket: theorems *)
(* ================================================================== *)

(** An allocation touches nothing but the pool. *)
Lemma Allocate_store (h : HEAP) :
  RefCnt (snd (Allocate h)) = RefCnt h /\
  NextVector (snd (Allocate h)) = NextVector h /\
  Events (snd (Allocate h)) = Events h.
Proof.
  unfold Allocate. destruct (Pool h); cbn; repeat split.
Qed.

Lemma Allocate_hooks (h : HEAP) :
  FreeHook (snd (Allocate h)) = FreeHook h /\
  HookFrees (snd (Allocate h)) = HookFrees h.
Proof.
  unfold Allocate. destruct (Pool h); cbn; repeat split.
Qed.

Lemma Ip4HookOf_Unhook (v : nat) (l : list (nat * IP4_ASSEMBLE_ENTRY)) :
  Ip4HookOf v (Ip4Unhook v l) = None.
Proof.
  unfold Ip4HookOf, Ip4Unhook. induction l as [|e l IH]; cbn [filter find];
    [reflexivity|].
  destruct (Nat.eqb (fst e) v) eqn:E; cbn [negb]; [exact IH|].
  cbn [find]. rewrite E. exact IH.
Qed.

Section DeliverTheorems.

Context `{Lib : Ip4Lib}.

Lemma Ip4WrapRxData_hooks (Packet : NET_BUF) (h : HEAP) :
  FreeHook (snd (Ip4WrapRxData Packet h)) = FreeHook h /\
  HookFrees (snd (Ip4WrapRxData Packet h)) = HookFrees h.
Proof.
  unfold Ip4WrapRxData.
  pose proof (Allocate_hooks h) as [A1 A2].
  destruct (Allocate h) as [ok1 h1]. cbn [snd] in *.
  destruct ok1; cbn [negb snd]; [|now split].
  pose proof (Allocate_hooks h1) as [B1 B2].
  destruct (Allocate h1) as [ok2 h2]. cbn [snd] in *.
  destruct ok2; cbn [negb snd]; split; congruence.
Qed.

(** The data block of a duplicate is a new one, without hook. *)
Lemma NetbufDuplicate_hooks (Packet Dup : NET_BUF) (h h' : HEAP) :
  NetbufDuplicate Packet h = (Some Dup, h') ->
  Ip4HookOf (Vector Dup) (FreeHook h') = None /\ RefCnt h' (Vector Dup) = 1%nat.
Proof.
  unfold NetbufDuplicate. intros E.
  destruct (Allocate h) as [ok1 h1]. destruct ok1; [|discriminate].
  inversion E; subst. cbn [Vector FreeHook RefCnt].
  rewrite Nat.eqb_refl. split; [apply Ip4HookOf_Unhook | reflexivity].
Qed.

(** The releases of a turn of the delivery loop run no hook: the packet
    is released while it is shared, the duplicate has no hook. *)
Lemma NetbufFree_after_duplicate (Packet Dup X : NET_BUF) (h h1 h2 : HEAP)
    (r : option IP4_RXDATA_WRAP) :
  negb (NET_BUF_SHARED h Packet) = false ->
  NetbufDuplicate Packet h = (Some Dup, h1) ->
  Ip4WrapRxData X h1 = (r, h2) ->
  forall p, Vector p = Vector Packet \/ Vector p = Vector Dup ->
    NetbufFree p h2 =
    emit (EvFree p) (set_RefCnt h2 (Vector p) (Nat.pred (RefCnt h2 (Vector p)))).
Proof.
  intros ES ED EW p Hp. apply NetbufFree_plain.
  pose proof (Ip4WrapRxData_hooks X h1) as [WH _]. rewrite EW in WH. cbn [snd] in WH.
  pose proof (NetbufDuplicate_hooks _ _ _ _ ED) as [DH DR].
  assert (RW : RefCnt h2 = RefCnt h1).
  { unfold Ip4WrapRxData in EW.
    pose proof (Allocate_store h1) as (A1 & _ & _).
    destruct (Allocate h1) as [[|] ha]; cbn [negb snd] in *.
    - pose proof (Allocate_store ha) as (B1 & _ & _).
      destruct (Allocate ha) as [[|] hb]; cbn [negb snd] in *;
        inversion EW; subst; congruence.
    - inversion EW; subst; congruence. }
  rewrite WH, RW.
  destruct (Nat.eqb (Vector p) (Vector Dup)) eqn:EV.
  - apply Nat.eqb_eq in EV. rewrite EV. now right.
  - apply Nat.eqb_neq in EV. destruct Hp as [Hp|Hp]; [|contradiction]. left.
    rewrite Hp in *. apply negb_false_iff in ES. unfold NET_BUF_SHARED in ES.
    apply Nat.ltb_lt in ES.
    unfold NetbufDuplicate in ED. pose proof (Allocate_store h) as (A1 & _ & _).
    destruct (Allocate h) as [[|] hc]; [|discriminate]. cbn [snd] in A1.
    inversion ED; subst. cbn [Vector RefCnt] in *.
    apply Nat.eqb_neq in EV. rewrite EV, A1. lia.
Qed.

(** A failed Ip4WrapRxData leaves no trace but in the pool. *)
Lemma Ip4WrapRxData_fail (Packet : NET_BUF) (h h' : HEAP) :
  Ip4WrapRxData Packet h = (None, h') ->
  RefCnt h' = RefCnt h /\ NextVector h' = NextVector h /\ Events h' = Events h.
Proof.
  unfold Ip4WrapRxData. intros E.
  pose proof (Allocate_store h) as [A1 [A2 A3]].
  destruct (Allocate h) as [ok1 h1]. cbn [snd] in *.
  destruct ok1; cbn [negb] in E.
  - pose proof (Allocate_store h1) as [B1 [B2 B3]].
    destruct (Allocate h1) as [ok2 h2]. cbn [snd] in *.
    destruct ok2; cbn [negb] in E; [discriminate|].
    inversion E; subst. repeat split; congruence.
  - inversion E; subst. repeat split; congruence.
Qed.

Lemma Ip4WrapRxData_ok (Packet : NET_BUF) (h h' : HEAP) (Wrap : IP4_RXDATA_WRAP) :
  Ip4WrapRxData Packet h = (Some Wrap, h') ->
  RefCnt h' = RefCnt h /\ NextVector h' = NextVector h /\ Events h' = Events h.
Proof.
  unfold Ip4WrapRxData. intros E.
  pose proof (Allocate_store h) as [A1 [A2 A3]].
  destruct (Allocate h) as [ok1 h1]. cbn [snd] in *.
  destruct ok1; cbn [negb] in E; [|discriminate].
  pose proof (Allocate_store h1) as [B1 [B2 B3]].
  destruct (Allocate h1) as [ok2 h2]. cbn [snd] in *.
  destruct ok2; cbn [negb] in E; [|discriminate].
  inversion E; subst. repeat split; congruence.
Qed.

Lemma NetbufDuplicate_fail (Packet : NET_BUF) (h h' : HEAP) :
  NetbufDuplicate Packet h = (None, h') ->
  RefCnt h' = RefCnt h /\ NextVector h' = NextVector h /\ Events h' = Events h.
Proof.
  unfold NetbufDuplicate. intros E.
  pose proof (Allocate_store h) as [A1 [A2 A3]].
  destruct (Allocate h) as [ok1 h1]. cbn [snd] in *.
  destruct ok1; [discriminate|]. inversion E; subst. repeat split; congruence.
Qed.

Lemma NetbufDuplicate_ok (Packet Dup : NET_BUF) (h h' : HEAP) :
  NetbufDuplicate Packet h = (Some Dup, h') ->
  Vector Dup = NextVector h /\ NextVector h' = S (NextVector h) /\
  Events h' = Events h /\
  (forall v, (v < NextVector h)%nat -> RefCnt h' v = RefCnt h v).
Proof.
  unfold NetbufDuplicate. intros E.
  pose proof (Allocate_store h) as [A1 [A2 A3]].
  destruct (Allocate h) as [ok1 h1]. cbn [snd] in *.
  destruct ok1; [|discriminate]. inversion E; subst. cbn.
  repeat split; try congruence.
  intros v Hv. rewrite A2.
  destruct (Nat.eqb v (NextVector h)) eqn:Ev; [apply Nat.eqb_eq in Ev; lia | congruence].
Qed.

(** The turn that returns EFI_OUT_OF_RESOURCES: no data block that existed
    before has its reference count changed, no event is signalled, and the
    only buffer freed, if any, is the duplicate made in that turn. *)
Lemma Ip4DeliverOne_fail (Packet : NET_BUF) (Token : EFI_IP4_COMPLETION_TOKEN)
    (h h' : HEAP) :
  Ip4DeliverOne Packet Token h = (None, h') ->
  (forall v, (v < NextVector h)%nat -> RefCnt h' v = RefCnt h v) /\
  (Events h' = Events h \/
   exists Dup, Events h' = Events h ++ [EvFree Dup] /\ Vector Dup = NextVector h).
Proof.
  unfold Ip4DeliverOne. intros E.
  destruct (negb (NET_BUF_SHARED h Packet)).
  - destruct (Ip4WrapRxData Packet h) as [[Wrap|] h1] eqn:EW; [discriminate|].
    inversion E; subst. apply Ip4WrapRxData_fail in EW. destruct EW as [R [_ Ev]].
    split; [intros; now rewrite R | now left].
  - destruct (NetbufDuplicate Packet h) as [[Dup|] h1] eqn:ED.
    + pose proof (NetbufDuplicate_hooks _ _ _ _ ED) as [DH _].
      apply NetbufDuplicate_ok in ED. destruct ED as [DV [DN [DE DR]]].
      set (Dup1 := NetbufTrim (NetbufAllocSpace Dup IP4_MAX_HEADLEN) IP4_MAX_HEADLEN
                              NET_BUF_HEAD) in *.
      destruct (Ip4WrapRxData Dup1 h1) as [[Wrap|] h2] eqn:EW; [discriminate|].
      inversion E; subst. pose proof EW as EW0.
      apply Ip4WrapRxData_fail in EW. destruct EW as [R [N Ev]].
      pose proof (Ip4WrapRxData_hooks Dup1 h1) as [WH _].
      rewrite EW0 in WH. cbn [snd] in WH.
      rewrite NetbufFree_plain
        by (right; change (Vector Dup1) with (Vector Dup); rewrite WH; exact DH).
      split.
      * intros v Hv. cbn. change (Vector Dup1) with (Vector Dup). rewrite DV, R.
        destruct (Nat.eqb v (NextVector h)) eqn:Evn;
          [apply Nat.eqb_eq in Evn; lia | now apply DR].
      * right. exists Dup1. cbn [emit set_RefCnt Events]. rewrite Ev, DE. now split.
    + inversion E; subst. apply NetbufDuplicate_fail in ED. destruct ED as [R [_ Ev]].
      split; [intros; now rewrite R | now left].
Qed.

(** No turn of the loop lowers [NextVector]. *)
Lemma Ip4DeliverOne_NextVector (Packet : NET_BUF) (Token : EFI_IP4_COMPLETION_TOKEN)
    (h h' : HEAP) (r : option (IP4_RXDATA_WRAP * EFI_IP4_COMPLETION_TOKEN)) :
  Ip4DeliverOne Packet Token h = (r, h') -> (NextVector h <= NextVector h')%nat.
Proof.
  unfold Ip4DeliverOne. intros E.
  destruct (negb (NET_BUF_SHARED h Packet)).
  - destruct (Ip4WrapRxData Packet h) as [[Wrap|] h1] eqn:EW; inversion E; subst.
    + apply Ip4WrapRxData_ok in EW. destruct EW as [_ [N _]]. lia.
    + apply Ip4WrapRxData_fail in EW. destruct EW as [_ [N _]]. lia.
  - destruct (NetbufDuplicate Packet h) as [[Dup|] h1] eqn:ED.
    + apply NetbufDuplicate_ok in ED. destruct ED as [_ [DN _]].
      destruct (Ip4WrapRxData _ h1) as [[Wrap|] h2] eqn:EW; inversion E; subst.
      * apply Ip4WrapRxData_ok in EW. destruct EW as [_ [N _]].
        rewrite NextVector_NetbufFree. lia.
      * apply Ip4WrapRxData_fail in EW. destruct EW as [_ [N _]].
        rewrite NextVector_NetbufFree. lia.
    + inversion E; subst. apply NetbufDuplicate_fail in ED. destruct ED as [_ [N _]]. lia.
Qed.

(** The shape of a run of the loop that ends in EFI_OUT_OF_RESOURCES. *)
Lemma Ip4DeliverLoop_out_of_resources (R : list NET_BUF) :
  forall T D h R' T' D' h',
    Forall (fun p => (Vector p < NextVector h)%nat) R ->
    Ip4DeliverLoop R T D h = (EFI_OUT_OF_RESOURCES, (R', T', D'), h') ->
    exists done dtoks wraps hk Packet rest Token toks,
      R = done ++ Packet :: rest /\
      T = dtoks ++ Token :: toks /\
      length dtoks = length done /\ length wraps = length done /\
      Ip4DeliverLoop done dtoks D h = (EFI_SUCCESS, ([], [], wraps ++ D), hk) /\
      Ip4DeliverOne Packet Token hk = (None, h') /\
      R' = Packet :: rest /\ T' = Token :: toks /\ D' = wraps ++ D /\
      (Vector Packet < NextVector hk)%nat.
Proof.
  induction R as [|P R1 IH]; intros T D h R' T' D' h' HF E.
  - cbn in E. discriminate.
  - destruct T as [|tok T1]; [cbn in E; discriminate|].
    cbn [Ip4DeliverLoop] in E.
    destruct (Ip4DeliverOne P tok h) as [[[W tok1]|] h1] eqn:E1.
    + pose proof (Ip4DeliverOne_NextVector _ _ _ _ _ E1) as HN.
      apply IH in E.
      2:{ inversion HF; subst. eapply Forall_impl; [|eassumption].
          cbn. intros a Ha. lia. }
      destruct E as (done & dtoks & wraps & hk & Packet & rest & Token & toks &
                     HR & HT & L1 & L2 & HL & HO & ER & ET & ED & HV).
      exists (P :: done), (tok :: dtoks), (wraps ++ [W]), hk, Packet, rest, Token, toks.
      subst. rewrite <- !app_assoc. cbn [app].
      repeat split; try reflexivity; try assumption.
      * cbn. lia.
      * rewrite length_app. cbn. lia.
      * cbn [Ip4DeliverLoop]. rewrite E1. exact HL.
    + inversion E; subst.
      exists [], [], [], h, P, R1, tok, T1. cbn.
      repeat split; try reflexivity; try assumption.
      inversion HF; assumption.
Qed.

(** C9.  When Ip4InstanceDeliverPacket returns EFI_OUT_OF_RESOURCES, the
    call has delivered the packets before the failing one ([done], one
    token and one wrapper each), and the failing turn has changed nothing
    for the packet at the head of the queue: it is still the head of the
    received queue, its token is still the head of RxTokens, Delivered holds
    the wrappers of the earlier turns only, and the packet is shared exactly
    if it was when the turn began. *)
Theorem Ip4InstanceDeliverPacket_out_of_resources (IpInstance : IP4_PROTOCOL)
    (h : HEAP) (c' : IP4_PROTOCOL) (h' : HEAP) :
  Forall (fun p => (Vector p < NextVector h)%nat) (Received IpInstance) ->
  Ip4InstanceDeliverPacket IpInstance h = (EFI_OUT_OF_RESOURCES, c', h') ->
  exists done dtoks wraps hk Packet rest Token toks,
    Received IpInstance = done ++ Packet :: rest /\
    RxTokens IpInstance = dtoks ++ Token :: toks /\
    length dtoks = length done /\ length wraps = length done /\
    Ip4DeliverLoop done dtoks (Delivered IpInstance) h
      = (EFI_SUCCESS, ([], [], wraps ++ Delivered IpInstance), hk) /\
    Ip4DeliverOne Packet Token hk = (None, h') /\
    Received c' = Packet :: rest /\
    RxTokens c' = Token :: toks /\
    Delivered c' = wraps ++ Delivered IpInstance /\
    NET_BUF_SHARED h' Packet = NET_BUF_SHARED hk Packet /\
    (Events h' = Events hk \/
     exists Dup, Events h' = Events hk ++ [EvFree Dup] /\ Vector Dup <> Vector Packet).
Proof.
  intros HF E. unfold Ip4InstanceDeliverPacket in E.
  destruct (Ip4DeliverLoop (Received IpInstance) (RxTokens IpInstance)
                           (Delivered IpInstance) h) as [[st [[R' T'] D']] h1] eqn:EL.
  inversion E; subst. clear E.
  apply Ip4DeliverLoop_out_of_resources in EL; [|exact HF].
  destruct EL as (done & dtoks & wraps & hk & Packet & rest & Token & toks &
                  HR & HT & L1 & L2 & HL & HO & ER & ET & ED & HV).
  exists done, dtoks, wraps, hk, Packet, rest, Token, toks. subst. cbn.
  pose proof (Ip4DeliverOne_fail _ _ _ _ HO) as [HRef HEv].
  repeat split; try assumption.
  - unfold NET_BUF_SHARED. now rewrite HRef.
  - destruct HEv as [HEv|[Dup [HEv HD]]]; [now left | right].
    exists Dup. split; [exact HEv | lia].
Qed.

End DeliverTheorems.

Lemma Ip4InstanceDeliverPacket_out_of_resources_witness :
  let r := @Ip4InstanceDeliverPacket SampleLib SampleDeliverChild SampleDeliverHeap in
  exists done dtoks wraps hk Packet rest Token toks,
    Received SampleDeliverChild = done ++ Packet :: rest /\
    RxTokens SampleDeliverChild = dtoks ++ Token :: toks /\
    length dtoks = length done /\ length wraps = length done /\
    @Ip4DeliverLoop SampleLib done dtoks (Delivered SampleDeliverChild) SampleDeliverHeap
      = (EFI_SUCCESS, ([], [], wraps ++ Delivered SampleDeliverChild), hk) /\
    @Ip4DeliverOne SampleLib Packet Token hk = (None, snd r) /\
    Received (snd (fst r)) = Packet :: rest /\
    RxTokens (snd (fst r)) = Token :: toks /\
    Delivered (snd (fst r)) = wraps ++ Delivered SampleDeliverChild /\
    NET_BUF_SHARED (snd r) Packet = NET_BUF_SHARED hk Packet /\
    (Events (snd r) = Events hk \/
     exists Dup, Events (snd r) = Events hk ++ [EvFree Dup] /\ Vector Dup <> Vector Packet).
Proof.
  cbn zeta.
  apply (@Ip4InstanceDeliverPacket_out_of_resources SampleLib SampleDeliverChild
           SampleDeliverHeap).
  - repeat constructor; cbn; lia.
  - vm_compute. reflexivity.
Defined.

(** The sample delivery in full: the first packet is delivered with the
    first token, the second stays queued and shared, two tokens stay. *)
Lemma Ip4InstanceDeliverPacket_sample :
  let r := @Ip4InstanceDeliverPacket SampleLib SampleDeliverChild SampleDeliverHeap in
  fst (fst r) = EFI_OUT_OF_RESOURCES /\
  Received (snd (fst r)) = [SampleFragment 0 false 16 2 64] /\
  map Event (RxTokens (snd (fst r))) = [12; 13]%nat /\
  map (fun w => Vector (WrapPacket w)) (Delivered (snd (fst r))) = [1%nat] /\
  NET_BUF_SHARED (snd r) (SampleFragment 0 false 16 2 64) = true /\
  map Ip4IsClone (Events (snd r)) = [false; false] /\
  length (filter (fun e => match e with EvSignal _ => true | _ => false end)
                 (Events (snd r))) = 1%nat.
Proof.
  vm_compute. repeat split; reflexivity.
Qed.

(* ================================================================== *)
(** * Ip4Demultiplex: theorems *)
(* ================================================================== *)

Lemma Ip4ReceivedCount_list_set (Ch : list IP4_PROTOCOL) :
  forall i c c',
    nth_error Ch i = Some c ->
    Ip4ReceivedCount (list_set Ch i c') =
    Ip4ReceivedCount Ch - Z.of_nat (length (Received c)) + Z.of_nat (length (Received c')).
Proof.
  induction Ch as [|x Ch IH]; intros [|i] c c' E; cbn in E; try discriminate.
  - inversion E; subst. unfold Ip4ReceivedCount. cbn. lia.
  - specialize (IH _ _ c' E). unfold Ip4ReceivedCount in *. cbn. lia.
Qed.

Lemma Ip4EnqueuedBy_refl (v : nat) (Ch : list IP4_PROTOCOL) (h : HEAP) (E : Z) :
  Ip4EnqueuedBy v Ch h E (E, Ch, h) [].
Proof.
  unfold Ip4EnqueuedBy. cbn [fst snd map length Z.of_nat].
  rewrite app_nil_r, Z.add_0_r, Z.add_0_r, Nat.add_0_r.
  repeat split. constructor.
Qed.

Lemma Ip4EnqueuedBy_trans (v : nat) (Ch0 Ch1 : list IP4_PROTOCOL) (h0 h1 : HEAP)
    (E0 E1 : Z) (res : Z * list IP4_PROTOCOL * HEAP) (c1 c2 : list NET_BUF) :
  Ip4EnqueuedBy v Ch0 h0 E0 (E1, Ch1, h1) c1 ->
  Ip4EnqueuedBy v Ch1 h1 E1 res c2 ->
  Ip4EnqueuedBy v Ch0 h0 E0 res (c1 ++ c2).
Proof.
  unfold Ip4EnqueuedBy. cbn [fst snd].
  intros (A1 & A2 & A3 & A4 & A5 & A6) (B1 & B2 & B3 & B4 & B5 & B6).
  rewrite map_app, length_app, Nat2Z.inj_add, app_assoc, <- A1.
  repeat split; try lia; try congruence.
  apply Forall_app; now split.
Qed.

Lemma Ip4EnqueuedBy_shift (v : nat) (Ch0 Ch1 : list IP4_PROTOCOL) (h0 h1 : HEAP)
    (n E : Z) (c : list NET_BUF) :
  Ip4EnqueuedBy v Ch0 h0 0 (n, Ch1, h1) c ->
  Ip4EnqueuedBy v Ch0 h0 E (E + n, Ch1, h1) c.
Proof.
  unfold Ip4EnqueuedBy. cbn [fst snd]. intros (A1 & A2 & A3 & A4 & A5 & A6).
  repeat split; try assumption; lia.
Qed.

Section DemultiplexTheorems.

Context `{Lib : Ip4Lib}.

(** One child: the status is EFI_SUCCESS exactly when a clone was made and
    queued; otherwise neither the child nor the heap's blocks change. *)
Lemma Ip4InstanceEnquePacket_cases (c : IP4_PROTOCOL) (Head : IP4_HEAD)
    (Packet : NET_BUF) (h : HEAP) :
  let r := Ip4InstanceEnquePacket c Head Packet h in
  (fst (fst r) = EFI_SUCCESS /\
   Events (snd r) = Events h ++ [EvClone Packet] /\
   length (Received (snd (fst r))) = S (length (Received c)) /\
   RefCnt (snd r) (Vector Packet) = S (RefCnt h (Vector Packet)) /\
   NextVector (snd r) = NextVector h) \/
  (fst (fst r) <> EFI_SUCCESS /\
   Events (snd r) = Events h /\ snd (fst r) = c /\
   RefCnt (snd r) = RefCnt h /\ NextVector (snd r) = NextVector h).
Proof.
  cbn zeta. unfold Ip4InstanceEnquePacket.
  destruct (negb (IP4_STATE_eqb (State c) IP4_STATE_CONFIGED)).
  { right. cbn. repeat split; discriminate. }
  destruct (negb (Ip4InstanceFrameAcceptable c Head Packet)).
  { right. cbn. repeat split; discriminate. }
  unfold NetbufClone.
  pose proof (Allocate_store h) as [A1 [A2 A3]].
  destruct (Allocate h) as [[|] h1]; cbn [snd] in *.
  - left. cbn. rewrite length_app, Nat.eqb_refl, A1, A3. cbn.
    repeat split; try lia; exact A2.
  - right. cbn. repeat split; try assumption; discriminate.
Qed.

Lemma Ip4EnqueInstances_by (Head : IP4_HEAD) (Packet : NET_BUF) (l : list nat) :
  forall Ch h E,
  exists clones,
    Ip4EnqueuedBy (Vector Packet) Ch h E
                  (Ip4EnqueInstances l Head Packet Ch h E) clones.
Proof.
  induction l as [|i l IH]; intros Ch h E; cbn [Ip4EnqueInstances].
  - exists []. apply Ip4EnqueuedBy_refl.
  - destruct (nth_error Ch i) as [c|] eqn:En; [|apply IH].
    pose proof (Ip4InstanceEnquePacket_cases c Head Packet h) as HC. cbn zeta in HC.
    destruct (Ip4InstanceEnquePacket c Head Packet h) as [[st c'] h1].
    cbn [fst snd] in HC.
    destruct HC as [(Hs & He & Hl & Hr & Hn)|(Hs & He & Hc & Hr & Hn)].
    + subst st.
      destruct (IH (list_set Ch i c') h1 (E + 1)) as [clones HI].
      exists ([Packet] ++ clones).
      eapply Ip4EnqueuedBy_trans; [|exact HI].
      unfold Ip4EnqueuedBy. cbn [fst snd map length app].
      rewrite (Ip4ReceivedCount_list_set Ch i c c' En), Hl.
      repeat split; try assumption; try lia.
      repeat constructor.
    + subst c'.
      assert (HI : exists clones,
                 Ip4EnqueuedBy (Vector Packet) Ch h E
                   (Ip4EnqueInstances l Head Packet (list_set Ch i c) h1 E) clones).
      { destruct (IH (list_set Ch i c) h1 E) as [clones HI]. exists ([] ++ clones).
        eapply Ip4EnqueuedBy_trans; [|exact HI].
        unfold Ip4EnqueuedBy. cbn [fst snd map length app].
        rewrite (Ip4ReceivedCount_list_set Ch i c c En), app_nil_r, Hr.
        repeat split; try assumption; try lia. constructor. }
      destruct st; try exact HI. now contradiction Hs.
Qed.

Lemma Ip4InterfaceEnquePacket_by (Ch : list IP4_PROTOCOL) (Head : IP4_HEAD)
    (Packet : NET_BUF) (IpIf : IP4_INTERFACE) (h : HEAP) :
  exists clones,
    Ip4EnqueuedBy (Vector Packet) Ch h 0
                  (Ip4InterfaceEnquePacket Ch Head Packet IpIf h) clones.
Proof.
  unfold Ip4InterfaceEnquePacket.
  destruct (IP4_CAST_eqb (Ip4LocalCast Head Packet IpIf) IP4_CAST_NONE).
  - exists []. apply Ip4EnqueuedBy_refl.
  - apply (Ip4EnqueInstances_by Head
             (set_Info Packet (set_CastType (IP4_GET_CLIP_INFO Packet)
                                            (Ip4LocalCast Head Packet IpIf)))).
Qed.

Lemma Ip4DemuxEnque_by (Head : IP4_HEAD) (Packet : NET_BUF) (ifs : list IP4_INTERFACE) :
  forall Ch h E,
  exists clones,
    Ip4EnqueuedBy (Vector Packet) Ch h E
                  (Ip4DemuxEnque ifs Head Packet Ch h E) clones.
Proof.
  induction ifs as [|IpIf ifs IH]; intros Ch h E; cbn [Ip4DemuxEnque].
  - exists []. apply Ip4EnqueuedBy_refl.
  - destruct (Configured IpIf); [|apply IH].
    destruct (Ip4InterfaceEnquePacket_by Ch Head Packet IpIf h) as [c1 H1].
    destruct (Ip4InterfaceEnquePacket Ch Head Packet IpIf h) as [[n Ch1] h1].
    destruct (IH Ch1 h1 (E + n)) as [c2 H2].
    exists (c1 ++ c2). eapply Ip4EnqueuedBy_trans; [|exact H2].
    now apply Ip4EnqueuedBy_shift.
Qed.

(** The second pass makes no clone: what it adds to the trace are signals
    and frees. *)
Lemma Ip4DeliverOne_events (Packet : NET_BUF) (Token : EFI_IP4_COMPLETION_TOKEN)
    (h h' : HEAP) (r : option (IP4_RXDATA_WRAP * EFI_IP4_COMPLETION_TOKEN)) :
  Ip4DeliverOne Packet Token h = (r, h') ->
  exists es, Events h' = Events h ++ es /\ Forall (fun e => Ip4IsClone e = false) es.
Proof.
  unfold Ip4DeliverOne. intros E.
  destruct (negb (NET_BUF_SHARED h Packet)).
  - destruct (Ip4WrapRxData Packet h) as [[Wrap|] h1] eqn:EW; inversion E; subst;
      [apply Ip4WrapRxData_ok in EW | apply Ip4WrapRxData_fail in EW];
      destruct EW as [_ [_ Ev]]; exists []; rewrite app_nil_r; split; auto.
  - destruct (NetbufDuplicate Packet h) as [[Dup|] h1] eqn:ED.
    + apply NetbufDuplicate_ok in ED. destruct ED as [_ [_ [DE _]]].
      destruct (Ip4WrapRxData _ h1) as [[Wrap|] h2] eqn:EW; inversion E; subst;
        [apply Ip4WrapRxData_ok in EW | apply Ip4WrapRxData_fail in EW];
        destruct EW as [_ [_ Ev]]; rewrite Events_NetbufFree, Ev, DE;
        eexists; split; try reflexivity; repeat constructor.
    + inversion E; subst. apply NetbufDuplicate_fail in ED. destruct ED as [_ [_ Ev]].
      exists []; rewrite app_nil_r; split; auto.
Qed.

Lemma Ip4DeliverLoop_events (R : list NET_BUF) :
  forall T D h,
  exists es, Events (snd (Ip4DeliverLoop R T D h)) = Events h ++ es /\
             Forall (fun e => Ip4IsClone e = false) es.
Proof.
  induction R as [|P R IH]; intros T D h.
  - exists []. cbn. rewrite app_nil_r. split; auto.
  - destruct T as [|tok T]; [exists []; cbn; rewrite app_nil_r; split; auto|].
    cbn [Ip4DeliverLoop].
    destruct (Ip4DeliverOne P tok h) as [[[W tok1]|] h1] eqn:E1;
      apply Ip4DeliverOne_events in E1; destruct E1 as [es1 [H1 F1]].
    + destruct (IH T (W :: D) (emit (EvSignal tok1) h1)) as [es2 [H2 F2]].
      exists (es1 ++ [EvSignal tok1] ++ es2).
      rewrite H2. cbn [emit Events]. rewrite H1, <- !app_assoc. split; [reflexivity|].
      apply Forall_app; split; [exact F1|]. apply Forall_app; split; [|exact F2].
      repeat constructor.
    + exists es1. cbn. split; assumption.
Qed.

Lemma Ip4DeliverInstances_events (l : list nat) :
  forall Ch h,
  exists es, Events (snd (Ip4DeliverInstances l Ch h)) = Events h ++ es /\
             Forall (fun e => Ip4IsClone e = false) es.
Proof.
  induction l as [|i l IH]; intros Ch h; cbn [Ip4DeliverInstances].
  - exists []. cbn. rewrite app_nil_r. split; auto.
  - destruct (nth_error Ch i) as [c|]; [|apply IH].
    unfold Ip4InstanceDeliverPacket.
    destruct (Ip4DeliverLoop_events (Received c) (RxTokens c) (Delivered c) h)
      as [es1 [H1 F1]].
    destruct (Ip4DeliverLoop (Received c) (RxTokens c) (Delivered c) h)
      as [[st [[r t] d]] h1]. cbn [snd] in H1.
    destruct (IH (list_set Ch i (set_Queues c r t d)) h1) as [es2 [H2 F2]].
    exists (es1 ++ es2). rewrite H2, H1, <- app_assoc. split; [reflexivity|].
    apply Forall_app; now split.
Qed.

Lemma Ip4DemuxDeliver_events (ifs : list IP4_INTERFACE) :
  forall Ch h,
  exists es, Events (snd (Ip4DemuxDeliver ifs Ch h)) = Events h ++ es /\
             Forall (fun e => Ip4IsClone e = false) es.
Proof.
  induction ifs as [|IpIf ifs IH]; intros Ch h; cbn [Ip4DemuxDeliver].
  - exists []. cbn. rewrite app_nil_r. split; auto.
  - destruct (Configured IpIf); [|apply IH].
    unfold Ip4InterfaceDeliverPacket.
    destruct (Ip4DeliverInstances_events (IpInstances IpIf) Ch h) as [es1 [H1 F1]].
    destruct (Ip4DeliverInstances (IpInstances IpIf) Ch h) as [Ch1 h1]. cbn [snd] in H1.
    destruct (IH Ch1 h1) as [es2 [H2 F2]].
    exists (es1 ++ es2). rewrite H2, H1, <- app_assoc. split; [reflexivity|].
    apply Forall_app; now split.
Qed.

(** C8.  The first pass of Ip4Demultiplex over the configured interfaces
    makes the clones [clones], one per child that took the packet, each on
    a received queue.  The status is EFI_NOT_FOUND exactly when there is
    none and EFI_SUCCESS otherwise.  In the trace the clones come first,
    then the free of the caller's packet, then what the second pass does
    (no clone among it); without a clone there is no second pass. *)
Theorem Ip4Demultiplex_status (IpSb : IP4_SERVICE) (Head : IP4_HEAD)
    (Packet : NET_BUF) (h : HEAP) :
  let p1 := Ip4DemuxEnque (Interfaces IpSb) Head Packet (Children IpSb) h 0 in
  let r := Ip4Demultiplex IpSb Head Packet h in
  exists clones pass2,
    Ip4EnqueuedBy (Vector Packet) (Children IpSb) h 0 p1 clones /\
    (fst (fst r) = EFI_NOT_FOUND <-> clones = []) /\
    (fst (fst r) = EFI_SUCCESS <-> clones <> []) /\
    Events (snd r) = Events h ++ map EvClone clones ++ EvFree Packet :: pass2 /\
    Forall (fun e => Ip4IsClone e = false) pass2 /\
    (clones = [] -> pass2 = [] /\ Children (snd (fst r)) = snd (fst p1)) /\
    (clones <> [] ->
     (Children (snd (fst r)), snd r) =
     Ip4DemuxDeliver (Interfaces IpSb) (snd (fst p1)) (NetbufFree Packet (snd p1))).
Proof.
  cbn zeta. unfold Ip4Demultiplex.
  destruct (Ip4DemuxEnque_by Head Packet (Interfaces IpSb) (Children IpSb) h 0)
    as [clones HB].
  destruct (Ip4DemuxEnque (Interfaces IpSb) Head Packet (Children IpSb) h 0)
    as [[Enqueued Ch1] h1].
  pose proof HB as (B1 & B2 & B3 & B4 & B5 & B6). cbn [fst snd] in *.
  assert (HZ : Enqueued = 0 <-> clones = []).
  { rewrite B2. destruct clones; cbn [length]; split; intros H;
      try reflexivity; try discriminate; lia. }
  destruct (Enqueued =? 0) eqn:EZ.
  - apply Z.eqb_eq in EZ. apply HZ in EZ. subst clones.
    exists [], []. cbn [fst snd Children set_Children map app].
    rewrite Events_NetbufFree, B1. cbn [map]. rewrite app_nil_r.
    repeat split; try reflexivity; try discriminate; try constructor;
      try (intros H; now contradiction H); auto.
  - apply Z.eqb_neq in EZ.
    assert (HN : clones <> []) by (intros H; apply EZ, HZ, H).
    destruct (Ip4DemuxDeliver_events (Interfaces IpSb) Ch1 (NetbufFree Packet h1))
      as [pass2 [H2 F2]].
    destruct (Ip4DemuxDeliver (Interfaces IpSb) Ch1 (NetbufFree Packet h1))
      as [Ch2 h3]. cbn [fst snd] in *.
    exists clones, pass2. cbn [fst snd Children set_Children].
    rewrite H2, Events_NetbufFree, B1, <- !app_assoc. cbn [app].
    repeat split; try reflexivity; try discriminate; try assumption;
      try (intros H; now contradiction HN); try (exfalso; now apply HN).
    intros _; exact HN.
Qed.

End DemultiplexTheorems.

(* ================================================================== *)
(** * Ip4TrimPacket: what holds for every call *)
(* ================================================================== *)

(** X1.  For every packet and window, Ip4TrimPacket leaves the range
    [max (Start, Start0), min (End, End0)) and touches nothing of the
    packet but Start, End, Length, its size and its trim record. *)
Theorem Ip4TrimPacket_window (Packet : NET_BUF) (Start0 End0 : Z) :
  let Info := IP4_GET_CLIP_INFO Packet in
  let Packet' := Ip4TrimPacket Packet Start0 End0 in
  let Info' := IP4_GET_CLIP_INFO Packet' in
  Start Info' = Z.max (Start Info) Start0 /\
  End_ Info' = Z.min (End_ Info) End0 /\
  LinkFlag Info' = LinkFlag Info /\ CastType Info' = CastType Info /\
  Life Info' = Life Info /\ Status Info' = Status Info /\
  Ip Packet' = Ip Packet /\ Vector Packet' = Vector Packet.
Proof.
  cbn zeta. unfold Ip4TrimPacket, Ip4TrimPacket_tail, Ip4TrimPacket_head,
    IP4_GET_CLIP_INFO.
  destruct (Start (ProtoData Packet) <? Start0) eqn:E1; cbn;
    [apply Z.ltb_lt in E1 | apply Z.ltb_ge in E1];
    destruct (End0 <? End_ (ProtoData Packet)) eqn:E2; cbn;
    [apply Z.ltb_lt in E2 | apply Z.ltb_ge in E2 |
     apply Z.ltb_lt in E2 | apply Z.ltb_ge in E2];
    repeat split; lia.
Qed.

(** X2.  A packet that lies inside the window already is handed back as it
    is: no field changes and NetbufTrim is not called. *)
Theorem Ip4TrimPacket_inside (Packet : NET_BUF) (Start0 End0 : Z) :
  Start0 <= Start (IP4_GET_CLIP_INFO Packet) ->
  End_ (IP4_GET_CLIP_INFO Packet) <= End0 ->
  Ip4TrimPacket Packet Start0 End0 = Packet.
Proof.
  intros H1 H2. unfold Ip4TrimPacket, Ip4TrimPacket_head.
  assert (E1 : (Start (IP4_GET_CLIP_INFO Packet) <? Start0) = false)
    by (apply Z.ltb_ge; lia).
  rewrite E1. unfold Ip4TrimPacket_tail.
  assert (E2 : (End0 <? End_ (IP4_GET_CLIP_INFO Packet)) = false)
    by (apply Z.ltb_ge; lia).
  rewrite E2. reflexivity.
Qed.

Lemma Ip4TrimPacket_inside_witness :
  Ip4TrimPacket (SampleFragment 8 true 16 1 64) 0 24 = SampleFragment 8 true 16 1 64.
Proof.
  apply (Ip4TrimPacket_inside (SampleFragment 8 true 16 1 64) 0 24); cbn; lia.
Defined.

(** X3.  A head trim asks NetbufTrim for exactly the bytes the range loses
    and keeps [Start + Length = End]: for a packet with that invariant and
    a window that begins inside it and does not end before it, the result
    covers [[Start0, End)] with length [End - Start0], and one trim of
    [Start0 - Start] bytes at the head is recorded. *)
Theorem Ip4TrimPacket_head_trim (Packet : NET_BUF) (Start0 End0 : Z) :
  Start (IP4_GET_CLIP_INFO Packet) + Length (IP4_GET_CLIP_INFO Packet)
    = End_ (IP4_GET_CLIP_INFO Packet) ->
  Start (IP4_GET_CLIP_INFO Packet) < Start0 ->
  Start0 - Start (IP4_GET_CLIP_INFO Packet) < 2 ^ 32 ->
  End_ (IP4_GET_CLIP_INFO Packet) <= End0 ->
  let Packet' := Ip4TrimPacket Packet Start0 End0 in
  Start (IP4_GET_CLIP_INFO Packet') = Start0 /\
  End_ (IP4_GET_CLIP_INFO Packet') = End_ (IP4_GET_CLIP_INFO Packet) /\
  Length (IP4_GET_CLIP_INFO Packet') = End_ (IP4_GET_CLIP_INFO Packet) - Start0 /\
  Trims Packet' = Trims Packet ++ [(Start0 - Start (IP4_GET_CLIP_INFO Packet), NET_BUF_HEAD)].
Proof.
  intros H0 H1 Hb H2. cbn zeta.
  destruct Packet as [ip [lf ct s e l li stt] ts v tr].
  cbn [IP4_GET_CLIP_INFO ProtoData Start End_ Length] in *.
  unfold Ip4TrimPacket, Ip4TrimPacket_head.
  cbn [IP4_GET_CLIP_INFO ProtoData Start End_ Length].
  assert (E1 : (s <? Start0) = true) by (apply Z.ltb_lt; lia).
  rewrite E1. unfold Ip4TrimPacket_tail.
  cbn [IP4_GET_CLIP_INFO ProtoData set_Info set_Length set_Start End_ Start Length
       NetbufTrim Trims].
  assert (E2 : (End0 <? e) = false) by (apply Z.ltb_ge; lia).
  rewrite E2.
  cbn [IP4_GET_CLIP_INFO ProtoData set_Info set_Length set_Start End_ Start Length
       NetbufTrim Trims].
  unfold UINT32_of. rewrite Z.mod_small by lia.
  repeat split; lia.
Qed.

Lemma Ip4TrimPacket_head_trim_witness :
  let Packet := SampleFragment 0 true 24 1 64 in
  let Packet' := Ip4TrimPacket Packet 8 24 in
  Start (IP4_GET_CLIP_INFO Packet') = 8 /\
  End_ (IP4_GET_CLIP_INFO Packet') = End_ (IP4_GET_CLIP_INFO Packet) /\
  Length (IP4_GET_CLIP_INFO Packet') = End_ (IP4_GET_CLIP_INFO Packet) - 8 /\
  Trims Packet' = Trims Packet ++ [(8 - Start (IP4_GET_CLIP_INFO Packet), NET_BUF_HEAD)].
Proof.
  apply (Ip4TrimPacket_head_trim (SampleFragment 0 true 24 1 64) 8 24);
    cbn; lia.
Defined.

(* ================================================================== *)
(** * Ip4Reassemble: what holds for every call *)
(* ================================================================== *)

(** Ip4Reassemble by the outcome of its lookup. *)
Lemma Ip4Reassemble_unfold (Hash : Z -> Z -> Z -> Z -> nat)
    (Table : IP4_ASSEMBLE_TABLE) (Packet : NET_BUF) (h : HEAP) :
  let IpHead := Ip Packet in
  let Index := Hash (Dst IpHead) (Src IpHead) (Id IpHead) (Protocol IpHead) in
  Ip4Reassemble Hash Table Packet h =
  match Ip4FindAssemble IpHead (Table Index) with
  | Some (pos, A0) => Ip4ReassembleAt Table Index Packet pos A0 (Table Index) h
  | None =>
      if fst (Allocate h)
      then Ip4ReassembleAt Table Index Packet 0 (Ip4NewEntry IpHead)
                           (Ip4NewEntry IpHead :: Table Index) (snd (Allocate h))
      else (RetNull, Table, NetbufFree Packet (snd (Allocate h)))
  end.
Proof.
  cbn zeta. unfold Ip4Reassemble, Ip4ReassembleAt, Ip4CreateAssembleEntry, Ip4NewEntry.
  destruct (Ip4FindAssemble (Ip Packet) _) as [[pos A0]|]; [reflexivity|].
  destruct (Allocate h) as [[|] h1]; reflexivity.
Qed.

(** One call changes neither the key nor the life of the entry, and not
    its TotalLen once that is set. *)
Lemma Ip4InsertFragment_kept (Assemble0 : IP4_ASSEMBLE_ENTRY) (IpHead : IP4_HEAD)
    (Packet : NET_BUF) (h : HEAP) (q : bool) (A : IP4_ASSEMBLE_ENTRY) (h' : HEAP) :
  Ip4InsertFragment Assemble0 IpHead Packet h = (q, A, h') ->
  AsmDst A = AsmDst Assemble0 /\ AsmSrc A = AsmSrc Assemble0 /\
  AsmId A = AsmId Assemble0 /\ AsmProtocol A = AsmProtocol Assemble0 /\
  AsmLife A = AsmLife Assemble0 /\
  (AsmTotalLen Assemble0 <> 0 -> AsmTotalLen A = AsmTotalLen Assemble0).
Proof.
  unfold Ip4InsertFragment. intros E.
  destruct (Ip4CheckPrev _ _ Packet) as [Packet1|].
  2:{ inversion E; subst. repeat split. }
  destruct (Ip4RemoveCovered Packet1 _ _ h) as [[[op rest] Len] h1].
  destruct op as [Packet2|]; inversion E; subst; clear E.
  2:{ repeat split. }
  destruct (Start (IP4_GET_CLIP_INFO Packet2) =? 0);
    cbn [set_HeadInfo set_Fragments AsmTotalLen];
    destruct (AsmTotalLen Assemble0 =? 0) eqn:ET;
    rewrite ?andb_false_r; destruct (IP4_LAST_FRAGMENT (Fragment IpHead));
    cbn; repeat split; try (intros N; apply Z.eqb_eq in ET; contradiction).
Qed.

Lemma Ip4AssembleMatch_kept (A A0 : IP4_ASSEMBLE_ENTRY) (IpHead : IP4_HEAD) :
  AsmDst A = AsmDst A0 -> AsmSrc A = AsmSrc A0 -> AsmId A = AsmId A0 ->
  AsmProtocol A = AsmProtocol A0 ->
  Ip4AssembleMatch A IpHead = Ip4AssembleMatch A0 IpHead.
Proof.
  unfold Ip4AssembleMatch. intros -> -> -> ->. reflexivity.
Qed.

Lemma Ip4AssembleMatch_new (IpHead : IP4_HEAD) :
  Ip4AssembleMatch (Ip4NewEntry IpHead) IpHead = true.
Proof.
  unfold Ip4AssembleMatch, Ip4NewEntry. cbn. now rewrite !Z.eqb_refl.
Qed.

Lemma Ip4OtherEntries_list_set (IpHead : IP4_HEAD) (b : list IP4_ASSEMBLE_ENTRY) :
  forall pos A0 A,
    nth_error b pos = Some A0 ->
    Ip4AssembleMatch A0 IpHead = true -> Ip4AssembleMatch A IpHead = true ->
    Ip4OtherEntries IpHead (list_set b pos A) = Ip4OtherEntries IpHead b.
Proof.
  unfold Ip4OtherEntries.
  induction b as [|x b IH]; intros [|pos] A0 A E M0 M; cbn in E; try discriminate.
  - inversion E; subst. cbn. now rewrite M0, M.
  - cbn. rewrite (IH pos A0 A E M0 M). reflexivity.
Qed.

Lemma Ip4OtherEntries_list_remove (IpHead : IP4_HEAD) (b : list IP4_ASSEMBLE_ENTRY) :
  forall pos A0,
    nth_error b pos = Some A0 -> Ip4AssembleMatch A0 IpHead = true ->
    Ip4OtherEntries IpHead (list_remove b pos) = Ip4OtherEntries IpHead b.
Proof.
  unfold Ip4OtherEntries.
  induction b as [|x b IH]; intros [|pos] A0 E M0; cbn in E; try discriminate.
  - inversion E; subst. cbn. now rewrite M0.
  - cbn. rewrite (IH pos A0 E M0). reflexivity.
Qed.

Lemma set_Bucket_same (Table : IP4_ASSEMBLE_TABLE) (Index : nat)
    (b : list IP4_ASSEMBLE_ENTRY) :
  set_Bucket Table Index b Index = b.
Proof. unfold set_Bucket. now rewrite Nat.eqb_refl. Qed.

Lemma set_Bucket_other (Table : IP4_ASSEMBLE_TABLE) (Index i : nat)
    (b : list IP4_ASSEMBLE_ENTRY) :
  i = Index \/ set_Bucket Table Index b i = Table i.
Proof.
  unfold set_Bucket. destruct (Nat.eqb i Index) eqn:E;
    [left; now apply Nat.eqb_eq | now right].
Qed.

(** The table after the part that follows the lookup. *)
Lemma Ip4ReassembleAt_table (Table : IP4_ASSEMBLE_TABLE) (Index : nat)
    (Packet : NET_BUF) (pos : nat) (A0 : IP4_ASSEMBLE_ENTRY)
    (b1 : list IP4_ASSEMBLE_ENTRY) (h1 : HEAP) :
  let r := Ip4ReassembleAt Table Index Packet pos A0 b1 h1 in
  snd (fst r) = set_Bucket Table Index (list_remove b1 pos) \/
  exists q A h2,
    Ip4InsertFragment A0 (Ip Packet) Packet h1 = (q, A, h2) /\
    fst (fst r) = RetNull /\
    snd (fst r) = set_Bucket Table Index (list_set b1 pos A).
Proof.
  cbn zeta. unfold Ip4ReassembleAt.
  destruct (Ip4InsertFragment A0 (Ip Packet) Packet h1) as [[q A] h2] eqn:EI.
  destruct q.
  - destruct (Ip4AssembleDone A).
    + destruct (Ip4WrapAssemble A h2) as [r h3]. now left.
    + right. exists true, A, h2. repeat split.
  - right. exists false, A, h2. repeat split.
Qed.

(** X4.  Ip4Reassemble works on the datagram of its packet only: every
    other bucket of the table is as it was, and in the packet's bucket the
    entries of other datagrams are the same, in the same order. *)
Theorem Ip4Reassemble_other_datagrams (Hash : Z -> Z -> Z -> Z -> nat)
    (Table : IP4_ASSEMBLE_TABLE) (Packet : NET_BUF) (h : HEAP) :
  let IpHead := Ip Packet in
  let Index := Hash (Dst IpHead) (Src IpHead) (Id IpHead) (Protocol IpHead) in
  let Table' := snd (fst (Ip4Reassemble Hash Table Packet h)) in
  (forall i, i = Index \/ Table' i = Table i) /\
  Ip4OtherEntries IpHead (Table' Index) = Ip4OtherEntries IpHead (Table Index).
Proof.
  cbn zeta. rewrite Ip4Reassemble_unfold. cbn zeta.
  set (IpHead := Ip Packet).
  set (Index := Hash (Dst IpHead) (Src IpHead) (Id IpHead) (Protocol IpHead)).
  assert (Hat : forall pos A0 b1 h1,
             nth_error b1 pos = Some A0 -> Ip4AssembleMatch A0 IpHead = true ->
             Ip4OtherEntries IpHead b1 = Ip4OtherEntries IpHead (Table Index) ->
             let T' := snd (fst (Ip4ReassembleAt Table Index Packet pos A0 b1 h1)) in
             (forall i, i = Index \/ T' i = Table i) /\
             Ip4OtherEntries IpHead (T' Index) = Ip4OtherEntries IpHead (Table Index)).
  { intros pos A0 b1 h1 Hn HM Hb. cbn zeta.
    destruct (Ip4ReassembleAt_table Table Index Packet pos A0 b1 h1)
      as [E|(q & A & h2 & EI & _ & E)]; cbn zeta in E; rewrite E.
    - split; [intros i; apply set_Bucket_other|].
      rewrite set_Bucket_same, (Ip4OtherEntries_list_remove _ _ _ _ Hn HM). exact Hb.
    - split; [intros i; apply set_Bucket_other|].
      apply Ip4InsertFragment_kept in EI. destruct EI as (K1 & K2 & K3 & K4 & _).
      rewrite set_Bucket_same, (Ip4OtherEntries_list_set _ _ _ _ A Hn HM); [exact Hb|].
      rewrite (Ip4AssembleMatch_kept A A0 IpHead K1 K2 K3 K4). exact HM. }
  destruct (Ip4FindAssemble IpHead (Table Index)) as [[pos A0]|] eqn:EF.
  - apply Ip4FindAssemble_In in EF. destruct EF as [Hn HM]. now apply Hat.
  - destruct (fst (Allocate h)).
    + apply Hat; [reflexivity | apply Ip4AssembleMatch_new |].
      unfold Ip4OtherEntries. cbn [filter]. now rewrite Ip4AssembleMatch_new.
    + cbn. split; [intros i; now right | reflexivity].
Qed.

(** X5.  A fragment for a datagram that has an entry never renews that
    entry: after the call the entry is either unlinked from its bucket
    (the datagram is finished or found malformed) or still at its place
    with the same key and the same life, and with the same TotalLen if that
    was set before. *)
Theorem Ip4Reassemble_entry_kept (Hash : Z -> Z -> Z -> Z -> nat)
    (Table : IP4_ASSEMBLE_TABLE) (Packet : NET_BUF) (h : HEAP)
    (pos : nat) (A0 : IP4_ASSEMBLE_ENTRY) :
  let IpHead := Ip Packet in
  let Index := Hash (Dst IpHead) (Src IpHead) (Id IpHead) (Protocol IpHead) in
  Ip4FindAssemble IpHead (Table Index) = Some (pos, A0) ->
  let r := Ip4Reassemble Hash Table Packet h in
  snd (fst r) Index = list_remove (Table Index) pos \/
  exists A,
    fst (fst r) = RetNull /\
    snd (fst r) Index = list_set (Table Index) pos A /\
    Ip4FindAssemble IpHead (snd (fst r) Index) = Some (pos, A) /\
    AsmLife A = AsmLife A0 /\
    (AsmTotalLen A0 <> 0 -> AsmTotalLen A = AsmTotalLen A0).
Proof.
  cbn zeta. intros EF. rewrite Ip4Reassemble_unfold. cbn zeta. rewrite EF.
  set (Index := Hash (Dst (Ip Packet)) (Src (Ip Packet)) (Id (Ip Packet))
                     (Protocol (Ip Packet))) in *.
  destruct (Ip4ReassembleAt_table Table Index Packet pos A0 (Table Index) h)
    as [E|(q & A & h2 & EI & ER & E)]; cbn zeta in E; rewrite E, set_Bucket_same.
  - now left.
  - right. exists A. apply Ip4InsertFragment_kept in EI.
    destruct EI as (K1 & K2 & K3 & K4 & K5 & K6).
    repeat split; try assumption.
    clear E ER. revert pos EF.
    generalize (Table Index) as b.
    induction b as [|x b IH]; intros pos EF; cbn in EF; [discriminate|].
    destruct (Ip4AssembleMatch x (Ip Packet)) eqn:M.
    + inversion EF; subst. cbn.
      now rewrite (Ip4AssembleMatch_kept A A0 (Ip Packet) K1 K2 K3 K4), M.
    + destruct (Ip4FindAssemble (Ip Packet) b) as [[p a]|] eqn:EB; [|discriminate].
      inversion EF; subst. cbn. rewrite M, (IH p eq_refl). reflexivity.
Qed.

Lemma Ip4Reassemble_entry_kept_witness :
  let st1 := Ip4ReassembleAll [SampleFragment 16 false 16 1 1] SampleStart in
  let Packet := SampleFragment 0 true 8 2 2 in
  let Index := SampleHash 2 1 7 17 in
  let r := Ip4Reassemble SampleHash (snd (fst st1)) Packet (snd st1) in
  snd (fst r) Index = list_remove (snd (fst st1) Index) 0 \/
  exists A,
    fst (fst r) = RetNull /\
    snd (fst r) Index
      = list_set (snd (fst st1) Index) 0 A /\
    Ip4FindAssemble (Ip Packet) (snd (fst r) Index) = Some (0%nat, A) /\
    AsmLife A = AsmLife (set_TotalLen
                           (set_Fragments (Ip4NewEntry (Ip Packet))
                                          [SampleFragment 16 false 16 1 1] 16) 32) /\
    (AsmTotalLen (set_TotalLen
                    (set_Fragments (Ip4NewEntry (Ip Packet))
                                   [SampleFragment 16 false 16 1 1] 16) 32) <> 0 ->
     AsmTotalLen A = AsmTotalLen (set_TotalLen
                    (set_Fragments (Ip4NewEntry (Ip Packet))
                                   [SampleFragment 16 false 16 1 1] 16) 32)).
Proof.
  cbn zeta.
  apply (Ip4Reassemble_entry_kept SampleHash
           (snd (fst (Ip4ReassembleAll [SampleFragment 16 false 16 1 1] SampleStart)))
           (SampleFragment 0 true 8 2 2)
           (snd (Ip4ReassembleAll [SampleFragment 16 false 16 1 1] SampleStart))
           0%nat).
  vm_compute. reflexivity.
Defined.

(** X6.  When there is no entry for the packet's datagram and the entry
    cannot be allocated, Ip4Reassemble frees the packet, returns NULL and
    leaves the table as it was. *)
Theorem Ip4Reassemble_no_memory (Hash : Z -> Z -> Z -> Z -> nat)
    (Table : IP4_ASSEMBLE_TABLE) (Packet : NET_BUF) (h : HEAP) :
  let IpHead := Ip Packet in
  let Index := Hash (Dst IpHead) (Src IpHead) (Id IpHead) (Protocol IpHead) in
  Ip4FindAssemble IpHead (Table Index) = None ->
  fst (Allocate h) = false ->
  let r := Ip4Reassemble Hash Table Packet h in
  fst (fst r) = RetNull /\ snd (fst r) = Table /\
  Events (snd r) = Events h ++ [EvFree Packet].
Proof.
  cbn zeta. intros EF EA. rewrite Ip4Reassemble_unfold. cbn zeta. rewrite EF, EA.
  cbn [fst snd]. rewrite Events_NetbufFree.
  destruct (Allocate_store h) as (_ & _ & Ev). rewrite Ev. repeat split.
Qed.

Lemma Ip4Reassemble_no_memory_witness :
  let Packet := SampleFragment 0 true 16 1 1 in
  let r := Ip4Reassemble SampleHash Ip4InitAssembleTable Packet SampleFullHeap in
  fst (fst r) = RetNull /\ snd (fst r) = Ip4InitAssembleTable /\
  Events (snd r) = Events SampleFullHeap ++ [EvFree Packet].
Proof.
  apply (Ip4Reassemble_no_memory SampleHash Ip4InitAssembleTable
           (SampleFragment 0 true 16 1 1) SampleFullHeap); reflexivity.
Defined.

(** X7.  The insertion-point loop stops at the first fragment that starts
    after the packet: every fragment before the cursor starts at or before
    the packet's start, and the cursor is the sentinel or a fragment with
    a later start. *)
Theorem Ip4FindInsertPoint_first_later (This : IP4_CLIP_INFO) (l : list NET_BUF) :
  let Cur := Ip4FindInsertPoint This l in
  (Cur <= length l)%nat /\
  Forall (fun f => Start (IP4_GET_CLIP_INFO f) <= Start This) (firstn Cur l) /\
  match nth_error l Cur with
  | Some f => Start This < Start (IP4_GET_CLIP_INFO f)
  | None => Cur = length l
  end.
Proof.
  cbn zeta. induction l as [|f l IH]; cbn [Ip4FindInsertPoint].
  - cbn. repeat split; [lia | constructor].
  - destruct (Start This <? Start (IP4_GET_CLIP_INFO f)) eqn:E.
    + apply Z.ltb_lt in E. cbn. repeat split; [lia | constructor | exact E].
    + apply Z.ltb_ge in E. destruct IH as (I1 & I2 & I3). cbn [length firstn nth_error].
      repeat split; [lia | constructor; assumption |].
      destruct (nth_error l (Ip4FindInsertPoint This l)); [exact I3 | now f_equal].
Qed.

(** X8.  The loop behind the inserted packet removes a prefix of the nodes
    after the cursor, each of them ending at or before the packet's end
    (the packet as it is when the loop starts), frees exactly these, takes
    their lengths from CurLen, and stops at the first node that ends
    later. *)
Theorem Ip4RemoveCovered_prefix (Packet : NET_BUF) (rest : list NET_BUF)
    (Len : Z) (h : HEAP) :
  let r := Ip4RemoveCovered Packet rest Len h in
  exists removed,
    rest = removed ++ snd (fst (fst r)) /\
    Forall (fun f => End_ (IP4_GET_CLIP_INFO f) <= End_ (IP4_GET_CLIP_INFO Packet))
           removed /\
    match snd (fst (fst r)) with
    | f :: _ => End_ (IP4_GET_CLIP_INFO Packet) < End_ (IP4_GET_CLIP_INFO f)
    | [] => True
    end /\
    snd (fst r) = Len - Ip4LengthSum removed /\
    Events (snd r) = Events h ++ map EvFree removed.
Proof.
  cbn zeta. revert Len h.
  induction rest as [|f rest IH]; intros Len h; cbn [Ip4RemoveCovered].
  - exists []. cbn. rewrite app_nil_r. repeat split; [constructor | lia].
  - destruct (End_ (IP4_GET_CLIP_INFO f) <=? End_ (IP4_GET_CLIP_INFO Packet)) eqn:E.
    + apply Z.leb_le in E.
      destruct (IH (Len - Length (IP4_GET_CLIP_INFO f)) (NetbufFree f h))
        as (removed & R1 & R2 & R3 & R4 & R5).
      exists (f :: removed). rewrite R4, R5, Events_NetbufFree, <- app_assoc.
      cbn [map app]. repeat split; try assumption.
      * cbn [app]. now f_equal.
      * constructor; assumption.
      * unfold Ip4LengthSum. cbn. lia.
    + apply Z.leb_gt in E. exists [].
      destruct (Start (IP4_GET_CLIP_INFO f) <? End_ (IP4_GET_CLIP_INFO Packet));
        [destruct (Start (IP4_GET_CLIP_INFO Packet) =? Start (IP4_GET_CLIP_INFO f))|];
        cbn; rewrite app_nil_r; repeat split; try constructor; try assumption; lia.
Qed.

Lemma Ip4TableLengths_init : Ip4TableLengths Ip4InitAssembleTable.
Proof. intros Index a []. Qed.

(** The invariant of [Ip4Reassemble_lengths] on a run of three fragments,
    the last of which overlaps the first two. *)
Lemma Ip4Reassemble_lengths_witness :
  let P1 := SampleFragment 0 true 16 1 1 in
  let P2 := SampleFragment 32 true 16 2 2 in
  let P3 := SampleFragment 8 true 32 3 3 in
  let r1 := Ip4Reassemble SampleHash Ip4InitAssembleTable P1 SampleHeap in
  let r2 := Ip4Reassemble SampleHash (snd (fst r1)) P2 (snd r1) in
  Ip4TableLengths (snd (fst (Ip4Reassemble SampleHash (snd (fst r2)) P3 (snd r2)))).
Proof.
  cbn zeta.
  apply (Ip4Reassemble_lengths SampleHash).
  apply (Ip4Reassemble_lengths SampleHash).
  apply (Ip4Reassemble_lengths SampleHash).
  exact Ip4TableLengths_init.
Defined.

Lemma Ip4Reassemble_packet_complete_witness :
  let st := Ip4ReassembleAll [SampleFragment 0 true 16 1 1] SampleStart in
  let r := Ip4Reassemble SampleHash (snd (fst st)) (SampleFragment 16 false 8 2 2)
                         (snd st) in
  match fst (fst r) with
  | RetPacket NewPacket A =>
      AsmTotalLen A <> 0 /\ AsmTotalLen A <= CurLen A /\
      (exists Last, nth_error (Fragments A) (Nat.pred (length (Fragments A)))
                    = Some Last /\
                    End_ (IP4_GET_CLIP_INFO Last) = AsmTotalLen A) /\
      AsmHeadInfo A = Some (Ip NewPacket, ProtoData NewPacket)
  | _ => False
  end.
Proof.
  cbn zeta.
  destruct (Ip4Reassemble SampleHash
              (snd (fst (Ip4ReassembleAll [SampleFragment 0 true 16 1 1] SampleStart)))
              (SampleFragment 16 false 8 2 2)
              (snd (Ip4ReassembleAll [SampleFragment 0 true 16 1 1] SampleStart)))
    as [[ret T'] h'] eqn:E.
  destruct ret as [|NewPacket A|]; cbn [fst];
    [vm_compute in E; discriminate E | | vm_compute in E; discriminate E].
  exact (Ip4Reassemble_packet_complete SampleHash _ _ _ NewPacket A T' h' E).
Defined.

Lemma Ip4InsertFragment_Head_witness :
  let P := SampleFragment 0 true 16 1 1 in
  let r := Ip4InsertFragment (Ip4NewEntry (Ip P)) (Ip P) P SampleHeap in
  let Cur := Ip4FindInsertPoint (IP4_GET_CLIP_INFO P) (Fragments (Ip4NewEntry (Ip P))) in
  if fst (fst r) then
    exists Packet1 Queued,
      (Packet1 = P \/
       exists Node, Packet1 = Ip4TrimPacket P Node (End_ (IP4_GET_CLIP_INFO P))) /\
      (Queued = Packet1 \/
       exists Node,
         Queued = Ip4TrimPacket Packet1 (Start (IP4_GET_CLIP_INFO Packet1)) Node) /\
      Ip Queued = Ip P /\ Vector Queued = Vector P /\
      Start (IP4_GET_CLIP_INFO P) <= Start (IP4_GET_CLIP_INFO Queued) /\
      End_ (IP4_GET_CLIP_INFO Queued) <= End_ (IP4_GET_CLIP_INFO P) /\
      nth_error (Fragments (snd (fst r))) Cur = Some Queued /\
      firstn Cur (Fragments (snd (fst r)))
        = firstn Cur (Fragments (Ip4NewEntry (Ip P))) /\
      AsmHeadInfo (snd (fst r)) =
        (if Start (IP4_GET_CLIP_INFO Queued) =? 0
         then Some (Ip P, IP4_GET_CLIP_INFO Queued)
         else AsmHeadInfo (Ip4NewEntry (Ip P)))
  else AsmHeadInfo (snd (fst r)) = AsmHeadInfo (Ip4NewEntry (Ip P)).
Proof.
  cbn zeta.
  apply (Ip4InsertFragment_Head (Ip4NewEntry (Ip (SampleFragment 0 true 16 1 1)))
           (Ip (SampleFragment 0 true 16 1 1)) (SampleFragment 0 true 16 1 1)
           SampleHeap _ _
           (snd (Ip4InsertFragment (Ip4NewEntry (Ip (SampleFragment 0 true 16 1 1)))
                   (Ip (SampleFragment 0 true 16 1 1)) (SampleFragment 0 true 16 1 1)
                   SampleHeap))).
  vm_compute. reflexivity.
Defined.

(* ================================================================== *)
(** * Fragments that arrive in order *)
(* ================================================================== *)

Lemma Ip4FindInsertPoint_end (This : IP4_CLIP_INFO) (l : list NET_BUF) :
  Forall (fun f => Start (IP4_GET_CLIP_INFO f) <= Start This) l ->
  Ip4FindInsertPoint This l = length l.
Proof.
  induction 1 as [|f l Hf _ IH]; cbn; [reflexivity|].
  assert (E : (Start This <? Start (IP4_GET_CLIP_INFO f)) = false)
    by (apply Z.ltb_ge; lia).
  now rewrite E, IH.
Qed.

(** A packet that begins at or after the end of every queued fragment
    passes the check against [Cur->ForwardLink], finds nothing behind it
    and is queued last, as it came. *)
Lemma Ip4InsertFragment_append_eq (Assemble0 : IP4_ASSEMBLE_ENTRY) (IpHead : IP4_HEAD)
    (Packet : NET_BUF) (h : HEAP) :
  Forall (fun f => Start (IP4_GET_CLIP_INFO f) <= Start (IP4_GET_CLIP_INFO Packet) /\
                   End_ (IP4_GET_CLIP_INFO f) <= Start (IP4_GET_CLIP_INFO Packet))
         (Fragments Assemble0) ->
  Ip4InsertFragment Assemble0 IpHead Packet h =
  (true, Ip4Account Assemble0 IpHead Packet (Fragments Assemble0 ++ [Packet]), h).
Proof.
  intros HF. unfold Ip4InsertFragment.
  rewrite Ip4FindInsertPoint_end
    by (eapply Forall_impl; [|exact HF]; cbn; intros a [Ha _]; exact Ha).
  assert (EP : Ip4CheckPrev (Fragments Assemble0) (length (Fragments Assemble0)) Packet
               = Some Packet).
  { unfold Ip4CheckPrev, ForwardLink. rewrite Nat.eqb_refl.
    destruct (Fragments Assemble0) as [|f l]; [reflexivity|].
    cbn [length Nat.eqb nth_error]. inversion HF as [|? ? [_ Hf] _]; subst.
    assert (E : (Start (IP4_GET_CLIP_INFO Packet) <? End_ (IP4_GET_CLIP_INFO f)) = false)
      by (apply Z.ltb_ge; lia).
    now rewrite E. }
  rewrite EP, skipn_all, firstn_all. reflexivity.
Qed.

Lemma Ip4FragmentsOrdered_append (l : list NET_BUF) (Packet : NET_BUF) :
  Ip4FragmentsOrdered l = true ->
  Forall (fun f => Start (IP4_GET_CLIP_INFO f) < Start (IP4_GET_CLIP_INFO Packet) /\
                   End_ (IP4_GET_CLIP_INFO f) <= Start (IP4_GET_CLIP_INFO Packet)) l ->
  Ip4FragmentsOrdered (l ++ [Packet]) = true.
Proof.
  induction l as [|f l IH]; intros HO HF; [reflexivity|].
  inversion HF as [|? ? [H1 H2] HF']; subst.
  destruct l as [|g l].
  - cbn. apply andb_true_intro; split; [|reflexivity].
    apply andb_true_intro; split; [apply Z.ltb_lt | apply Z.leb_le]; lia.
  - cbn [app Ip4FragmentsOrdered] in *. apply andb_prop in HO. destruct HO as [HO1 HO2].
    rewrite HO1. cbn [andb]. apply IH; assumption.
Qed.

(** X9.  A fragment that begins after every queued fragment has begun and
    at or after each of them has ended is queued at the end of the list as
    it came: nothing is trimmed or freed, CurLen grows by its length, and
    an ordered list stays ordered. *)
Theorem Ip4InsertFragment_in_order (Assemble0 : IP4_ASSEMBLE_ENTRY) (IpHead : IP4_HEAD)
    (Packet : NET_BUF) (h : HEAP) :
  Forall (fun f => Start (IP4_GET_CLIP_INFO f) < Start (IP4_GET_CLIP_INFO Packet) /\
                   End_ (IP4_GET_CLIP_INFO f) <= Start (IP4_GET_CLIP_INFO Packet))
         (Fragments Assemble0) ->
  Ip4FragmentsOrdered (Fragments Assemble0) = true ->
  let r := Ip4InsertFragment Assemble0 IpHead Packet h in
  fst (fst r) = true /\ snd r = h /\
  Fragments (snd (fst r)) = Fragments Assemble0 ++ [Packet] /\
  CurLen (snd (fst r)) = CurLen Assemble0 + Length (IP4_GET_CLIP_INFO Packet) /\
  Ip4FragmentsOrdered (Fragments (snd (fst r))) = true.
Proof.
  intros HF HO. cbn zeta.
  rewrite Ip4InsertFragment_append_eq
    by (eapply Forall_impl; [|exact HF]; cbn; intros a [H1 H2]; split; lia).
  cbn [fst snd]. unfold Ip4Account.
  assert (HA : forall X : IP4_ASSEMBLE_ENTRY,
             Fragments (if IP4_LAST_FRAGMENT (Fragment IpHead) && (AsmTotalLen X =? 0)
                        then set_TotalLen X (End_ (IP4_GET_CLIP_INFO Packet)) else X)
             = Fragments X /\
             CurLen (if IP4_LAST_FRAGMENT (Fragment IpHead) && (AsmTotalLen X =? 0)
                     then set_TotalLen X (End_ (IP4_GET_CLIP_INFO Packet)) else X)
             = CurLen X).
  { intros X. destruct (_ && _); split; reflexivity. }
  cbn zeta.
  match goal with |- context [Fragments (if _ then _ else ?X)] =>
    destruct (HA X) as [H1 H2] end.
  rewrite H1, H2.
  destruct (Start (IP4_GET_CLIP_INFO Packet) =? 0); cbn;
    repeat split; now apply Ip4FragmentsOrdered_append.
Qed.

Lemma Ip4InsertFragment_in_order_witness :
  let A0 := Ip4PartialEntry (Ip (SampleFragment 0 true 16 1 1))
                            (SampleFragment 0 true 16 1 1)
                            [SampleFragment 0 true 16 1 1] in
  let Packet := SampleFragment 24 true 8 2 2 in
  let r := Ip4InsertFragment A0 (Ip Packet) Packet SampleHeap in
  fst (fst r) = true /\ snd r = SampleHeap /\
  Fragments (snd (fst r)) = Fragments A0 ++ [Packet] /\
  CurLen (snd (fst r)) = CurLen A0 + Length (IP4_GET_CLIP_INFO Packet) /\
  Ip4FragmentsOrdered (Fragments (snd (fst r))) = true.
Proof.
  apply (Ip4InsertFragment_in_order
           (Ip4PartialEntry (Ip (SampleFragment 0 true 16 1 1))
                            (SampleFragment 0 true 16 1 1)
                            [SampleFragment 0 true 16 1 1])
           (Ip (SampleFragment 24 true 8 2 2)) (SampleFragment 24 true 8 2 2)
           SampleHeap).
  - repeat constructor; cbn; lia.
  - reflexivity.
Defined.

Lemma Ip4EndOf_app (from : Z) (l : list NET_BUF) (Packet : NET_BUF) :
  Ip4EndOf from (l ++ [Packet]) = End_ (IP4_GET_CLIP_INFO Packet).
Proof. unfold Ip4EndOf. now rewrite fold_left_app. Qed.

Lemma Ip4InOrder_bounds (Key : IP4_HEAD) (l : list NET_BUF) :
  forall from,
    Ip4InOrder Key from l ->
    from <= Ip4EndOf from l /\
    Forall (fun f => from <= Start (IP4_GET_CLIP_INFO f) /\
                     Start (IP4_GET_CLIP_INFO f) < End_ (IP4_GET_CLIP_INFO f) /\
                     End_ (IP4_GET_CLIP_INFO f) <= Ip4EndOf from l) l.
Proof.
  induction l as [|P l IH]; intros from H.
  - cbn. split; [lia | constructor].
  - cbn [Ip4InOrder] in H. destruct H as (H1 & H2 & H3 & _ & _ & _ & _ & _ & H9).
    destruct (IH _ H9) as [I1 I2].
    change (Ip4EndOf from (P :: l)) with (Ip4EndOf (End_ (IP4_GET_CLIP_INFO P)) l).
    split; [lia|]. constructor; [lia|].
    eapply Forall_impl; [|exact I2]. cbn. intros a (A1 & A2 & A3). lia.
Qed.

Lemma Ip4InOrder_app (Key : IP4_HEAD) (l : list NET_BUF) (P : NET_BUF) :
  forall from,
    Ip4InOrder Key from l ->
    Ip4InOrder Key (Ip4EndOf from l) [P] ->
    Ip4InOrder Key from (l ++ [P]).
Proof.
  induction l as [|Q l IH]; intros from H HP; [exact HP|].
  cbn [Ip4InOrder app] in *. destruct H as (H1 & H2 & H3 & H4 & H5 & H6 & H7 & H8 & H9).
  repeat split; try assumption. apply IH; assumption.
Qed.

Lemma Ip4InOrder_ordered (Key : IP4_HEAD) (l : list NET_BUF) :
  forall from, Ip4InOrder Key from l -> Ip4FragmentsOrdered l = true.
Proof.
  induction l as [|P l IH]; intros from H; [reflexivity|].
  cbn [Ip4InOrder] in H. destruct H as (H1 & H2 & H3 & _ & _ & _ & _ & _ & H9).
  destruct l as [|Q l]; [reflexivity|].
  pose proof (IH _ H9) as IHQ.
  cbn [Ip4InOrder] in H9. destruct H9 as (Q1 & Q2 & _).
  change ((Start (IP4_GET_CLIP_INFO P) <? Start (IP4_GET_CLIP_INFO Q)) &&
          (End_ (IP4_GET_CLIP_INFO P) <=? Start (IP4_GET_CLIP_INFO Q)) &&
          Ip4FragmentsOrdered (Q :: l) = true).
  rewrite IHQ, andb_true_r. apply andb_true_intro; split;
    [apply Z.ltb_lt | apply Z.leb_le]; lia.
Qed.

Lemma Ip4InOrder_covers (Key : IP4_HEAD) (l : list NET_BUF) :
  forall from pos,
    Ip4InOrder Key from l -> from <= pos < Ip4EndOf from l ->
    Ip4Covers l pos = true.
Proof.
  induction l as [|P l IH]; intros from pos H Hp.
  - cbn in Hp. lia.
  - cbn [Ip4InOrder] in H. destruct H as (H1 & H2 & H3 & _ & _ & _ & _ & _ & H9).
    change (Ip4EndOf from (P :: l)) with (Ip4EndOf (End_ (IP4_GET_CLIP_INFO P)) l) in Hp.
    unfold Ip4Covers in *. cbn [existsb].
    destruct (pos <? End_ (IP4_GET_CLIP_INFO P)) eqn:E.
    + assert (E1 : (Start (IP4_GET_CLIP_INFO P) <=? pos) = true) by (apply Z.leb_le; lia).
      now rewrite E1.
    + apply Z.ltb_ge in E. rewrite andb_false_r. cbn [orb].
      apply (IH (End_ (IP4_GET_CLIP_INFO P))); [exact H9 | lia].
Qed.

Lemma Ip4FindAssemble_key (IpHead Key : IP4_HEAD) (b : list IP4_ASSEMBLE_ENTRY) :
  Dst IpHead = Dst Key -> Src IpHead = Src Key -> Id IpHead = Id Key ->
  Protocol IpHead = Protocol Key ->
  Ip4FindAssemble IpHead b = Ip4FindAssemble Key b.
Proof.
  intros K1 K2 K3 K4. induction b as [|a b IH]; [reflexivity|].
  cbn. unfold Ip4AssembleMatch. rewrite K1, K2, K3, K4, IH. reflexivity.
Qed.

Lemma Allocate_free_pool (h : HEAP) : Pool h = [] -> Allocate h = (true, h).
Proof. unfold Allocate. now intros ->. Qed.

(** The first fragment of a datagram without entry. *)
Lemma Ip4Reassemble_first (Hash : Z -> Z -> Z -> Z -> nat)
    (Table : IP4_ASSEMBLE_TABLE) (h : HEAP) (Key : IP4_HEAD) (First : NET_BUF) :
  let Index := Hash (Dst Key) (Src Key) (Id Key) (Protocol Key) in
  Pool h = [] ->
  Ip4FindAssemble Key (Table Index) = None ->
  Ip4InOrder Key 0 [First] ->
  Ip4Reassemble Hash Table First h =
  (RetNull,
   set_Bucket Table Index (Ip4PartialEntry Key First [First] :: Table Index), h).
Proof.
  cbn zeta. intros HP HF HO. cbn [Ip4InOrder] in HO.
  destruct HO as (H1 & H2 & H3 & K1 & K2 & K3 & K4 & HM & _).
  rewrite Ip4Reassemble_unfold. cbn zeta. rewrite K1, K2, K3, K4.
  rewrite (Ip4FindAssemble_key (Ip First) Key _ K1 K2 K3 K4), HF.
  rewrite (Allocate_free_pool h HP). cbn [fst snd].
  unfold Ip4ReassembleAt.
  rewrite Ip4InsertFragment_append_eq by constructor.
  unfold Ip4Account, Ip4NewEntry. cbn [Fragments CurLen app].
  rewrite H1, HM. cbn [Z.eqb andb set_HeadInfo set_Fragments AsmTotalLen
                       AsmDst AsmSrc AsmId AsmProtocol AsmLife CurLen Fragments
                       AsmHeadInfo].
  unfold Ip4AssembleDone. cbn [AsmTotalLen Z.eqb negb andb list_set].
  unfold Ip4PartialEntry. rewrite K1, K2, K3, K4.
  change (Ip4EndOf 0 [First]) with (End_ (IP4_GET_CLIP_INFO First)).
  replace (0 + Length (IP4_GET_CLIP_INFO First)) with (End_ (IP4_GET_CLIP_INFO First))
    by lia.
  reflexivity.
Qed.

(** A further fragment in order, not the last one. *)
Lemma Ip4Reassemble_next (Hash : Z -> Z -> Z -> Z -> nat)
    (T1 : IP4_ASSEMBLE_TABLE) (h : HEAP) (Key : IP4_HEAD) (First : NET_BUF)
    (l1 : list NET_BUF) (b : list IP4_ASSEMBLE_ENTRY) (P : NET_BUF) :
  let Index := Hash (Dst Key) (Src Key) (Id Key) (Protocol Key) in
  T1 Index = Ip4PartialEntry Key First l1 :: b ->
  Ip4InOrder Key 0 l1 -> l1 <> [] ->
  Ip4InOrder Key (Ip4EndOf 0 l1) [P] ->
  Ip4Reassemble Hash T1 P h =
  (RetNull,
   set_Bucket T1 Index (Ip4PartialEntry Key First (l1 ++ [P]) :: b), h).
Proof.
  cbn zeta. intros HT HO HN HP. cbn [Ip4InOrder] in HP.
  destruct HP as (H1 & H2 & H3 & K1 & K2 & K3 & K4 & HM & _).
  destruct (Ip4InOrder_bounds Key l1 0 HO) as [B1 B2].
  assert (Hpos : 0 < Ip4EndOf 0 l1).
  { destruct l1 as [|f l]; [contradiction|]. inversion B2; subst. lia. }
  rewrite Ip4Reassemble_unfold. cbn zeta. rewrite K1, K2, K3, K4, HT.
  assert (HMt : Ip4AssembleMatch (Ip4PartialEntry Key First l1) (Ip P) = true).
  { unfold Ip4AssembleMatch, Ip4PartialEntry. cbn. rewrite K1, K2, K3, K4.
    now rewrite !Z.eqb_refl. }
  cbn [Ip4FindAssemble]. rewrite HMt.
  unfold Ip4ReassembleAt.
  rewrite Ip4InsertFragment_append_eq.
  2:{ cbn [Ip4PartialEntry Fragments]. eapply Forall_impl; [|exact B2].
      cbn. intros a (A1 & A2 & A3). lia. }
  unfold Ip4Account, Ip4PartialEntry.
  cbn [Fragments CurLen set_Fragments AsmTotalLen].
  assert (E0 : (Start (IP4_GET_CLIP_INFO P) =? 0) = false) by (apply Z.eqb_neq; lia).
  rewrite E0, HM. cbn [andb].
  unfold Ip4AssembleDone. cbn [AsmTotalLen Z.eqb negb andb list_set set_Fragments].
  rewrite Ip4EndOf_app.
  replace (Ip4EndOf 0 l1 + Length (IP4_GET_CLIP_INFO P))
    with (End_ (IP4_GET_CLIP_INFO P)) by lia.
  reflexivity.
Qed.

(** The last fragment, in order: the datagram is finished. *)
Lemma Ip4Reassemble_last (Hash : Z -> Z -> Z -> Z -> nat)
    (T1 : IP4_ASSEMBLE_TABLE) (h : HEAP) (Key : IP4_HEAD) (First : NET_BUF)
    (l1 : list NET_BUF) (b : list IP4_ASSEMBLE_ENTRY) (Last : NET_BUF) :
  let Index := Hash (Dst Key) (Src Key) (Id Key) (Protocol Key) in
  Pool h = [] ->
  T1 Index = Ip4PartialEntry Key First l1 :: b ->
  Ip4InOrder Key 0 l1 -> l1 <> [] ->
  Start (IP4_GET_CLIP_INFO Last) = Ip4EndOf 0 l1 ->
  0 < Length (IP4_GET_CLIP_INFO Last) ->
  Start (IP4_GET_CLIP_INFO Last) + Length (IP4_GET_CLIP_INFO Last)
    = End_ (IP4_GET_CLIP_INFO Last) ->
  Dst (Ip Last) = Dst Key -> Src (Ip Last) = Src Key -> Id (Ip Last) = Id Key ->
  Protocol (Ip Last) = Protocol Key ->
  IP4_LAST_FRAGMENT (Fragment (Ip Last)) = true ->
  exists NewPacket h',
    Ip4Reassemble Hash T1 Last h =
    (RetPacket NewPacket
       (set_TotalLen (Ip4PartialEntry Key First (l1 ++ [Last]))
                     (End_ (IP4_GET_CLIP_INFO Last))),
     set_Bucket T1 Index b, h') /\
    Ip NewPacket = Ip First /\ ProtoData NewPacket = ProtoData First /\
    Events h' = Events h.
Proof.
  cbn zeta. intros HPl HT HO HN H1 H2 H3 K1 K2 K3 K4 HM.
  destruct (Ip4InOrder_bounds Key l1 0 HO) as [B1 B2].
  assert (Hpos : 0 < Ip4EndOf 0 l1).
  { destruct l1 as [|f l]; [contradiction|]. inversion B2; subst. lia. }
  rewrite Ip4Reassemble_unfold. cbn zeta. rewrite K1, K2, K3, K4, HT.
  assert (HMt : Ip4AssembleMatch (Ip4PartialEntry Key First l1) (Ip Last) = true).
  { unfold Ip4AssembleMatch, Ip4PartialEntry. cbn. rewrite K1, K2, K3, K4.
    now rewrite !Z.eqb_refl. }
  cbn [Ip4FindAssemble]. rewrite HMt.
  unfold Ip4ReassembleAt.
  rewrite Ip4InsertFragment_append_eq.
  2:{ cbn [Ip4PartialEntry Fragments]. eapply Forall_impl; [|exact B2].
      cbn. intros a (A1 & A2 & A3). lia. }
  unfold Ip4Account, Ip4PartialEntry.
  cbn [Fragments CurLen set_Fragments AsmTotalLen].
  assert (E0 : (Start (IP4_GET_CLIP_INFO Last) =? 0) = false) by (apply Z.eqb_neq; lia).
  rewrite E0, HM.
  replace (Ip4EndOf 0 l1 + Length (IP4_GET_CLIP_INFO Last))
    with (End_ (IP4_GET_CLIP_INFO Last)) by lia.
  change (AsmTotalLen (set_Fragments _ _ _)) with 0 at 1.
  cbn [Z.eqb andb set_TotalLen set_Fragments AsmDst AsmSrc AsmId AsmTotalLen
       AsmProtocol CurLen AsmHeadInfo AsmLife Fragments].
  unfold Ip4AssembleDone, Ip4WrapAssemble.
  lazy beta iota delta [set_TotalLen set_Fragments AsmTotalLen CurLen AsmHeadInfo
                        Fragments AsmDst AsmSrc AsmId AsmProtocol AsmLife].
  assert (E1 : (End_ (IP4_GET_CLIP_INFO Last) =? 0) = false) by (apply Z.eqb_neq; lia).
  rewrite E1, Z.leb_refl. cbn [negb andb].
  rewrite length_app. cbn [length]. rewrite Nat.add_1_r. cbn [BackLink].
  rewrite nth_error_app2 by lia. rewrite Nat.sub_diag. cbn [nth_error].
  rewrite Z.eqb_refl. cbn [negb].
  unfold NetbufFromBufList. rewrite (Allocate_free_pool h HPl).
  cbn [list_remove].
  eexists. eexists. split.
  - unfold Ip4PartialEntry.
    lazy beta iota delta [set_TotalLen set_Fragments AsmTotalLen CurLen AsmHeadInfo
                          Fragments AsmDst AsmSrc AsmId AsmProtocol AsmLife].
    rewrite Ip4EndOf_app. reflexivity.
  - cbn. repeat split.
Qed.

Lemma Ip4ReassembleList_cons (Hash : Z -> Z -> Z -> Z -> nat) (P : NET_BUF)
    (l : list NET_BUF) (r : REASM_RETURN) (T : IP4_ASSEMBLE_TABLE) (h : HEAP) :
  Ip4ReassembleList Hash (P :: l) (r, T, h) =
  Ip4ReassembleList Hash l (Ip4Reassemble Hash T P h).
Proof. reflexivity. Qed.

(** The fragments after the first, by induction on those that are not the
    last. *)
Lemma Ip4Reassemble_in_order_rest (Hash : Z -> Z -> Z -> Z -> nat)
    (Table : IP4_ASSEMBLE_TABLE) (h : HEAP) (Key : IP4_HEAD) (First Last : NET_BUF)
    (mid : list NET_BUF) :
  let Index := Hash (Dst Key) (Src Key) (Id Key) (Protocol Key) in
  Pool h = [] ->
  0 < Length (IP4_GET_CLIP_INFO Last) ->
  Start (IP4_GET_CLIP_INFO Last) + Length (IP4_GET_CLIP_INFO Last)
    = End_ (IP4_GET_CLIP_INFO Last) ->
  Dst (Ip Last) = Dst Key -> Src (Ip Last) = Src Key -> Id (Ip Last) = Id Key ->
  Protocol (Ip Last) = Protocol Key ->
  IP4_LAST_FRAGMENT (Fragment (Ip Last)) = true ->
  forall l1 T1 r1,
    T1 Index = Ip4PartialEntry Key First l1 :: Table Index ->
    (forall i, i = Index \/ T1 i = Table i) ->
    Ip4InOrder Key 0 l1 -> l1 <> [] ->
    Ip4InOrder Key (Ip4EndOf 0 l1) mid ->
    Start (IP4_GET_CLIP_INFO Last) = Ip4EndOf (Ip4EndOf 0 l1) mid ->
    exists NewPacket A T' h',
      Ip4ReassembleList Hash (mid ++ [Last]) (r1, T1, h)
        = (RetPacket NewPacket A, T', h') /\
      Fragments A = l1 ++ mid ++ [Last] /\
      AsmTotalLen A = End_ (IP4_GET_CLIP_INFO Last) /\
      CurLen A = End_ (IP4_GET_CLIP_INFO Last) /\
      Ip NewPacket = Ip First /\ ProtoData NewPacket = ProtoData First /\
      Ip4InOrder Key 0 (l1 ++ mid) /\
      (forall i, T' i = Table i) /\ Events h' = Events h.
Proof.
  cbn zeta. intros HPl H2 H3 K1 K2 K3 K4 HM.
  set (Index := Hash (Dst Key) (Src Key) (Id Key) (Protocol Key)).
  induction mid as [|P mid IH]; intros l1 T1 r1 HT HTo HO HN HOm H1.
  - cbn [app]. rewrite Ip4ReassembleList_cons.
    destruct (Ip4Reassemble_last Hash T1 h Key First l1 (Table Index) Last
                HPl HT HO HN H1 H2 H3 K1 K2 K3 K4 HM)
      as (NewPacket & h' & E & EI & EPd & EEv).
    fold Index in E. rewrite E. do 4 eexists. split; [reflexivity|].
    cbn [Ip4PartialEntry set_TotalLen Fragments AsmTotalLen CurLen].
    rewrite Ip4EndOf_app, app_nil_r. repeat split; try assumption.
    intros i. destruct (HTo i) as [->|Hi].
    + apply set_Bucket_same.
    + destruct (set_Bucket_other T1 Index i (Table Index)) as [->|Hs];
        [apply set_Bucket_same | now rewrite Hs].
  - cbn [app]. rewrite Ip4ReassembleList_cons.
    assert (HP1 : Ip4InOrder Key (Ip4EndOf 0 l1) [P]).
    { cbn [Ip4InOrder] in *. tauto. }
    rewrite (Ip4Reassemble_next Hash T1 h Key First l1 (Table Index) P HT HO HN HP1).
    fold Index.
    destruct (IH (l1 ++ [P])
                 (set_Bucket T1 Index
                             (Ip4PartialEntry Key First (l1 ++ [P]) :: Table Index))
                 RetNull)
      as (NewPacket & A & T' & h' & E & EF & ET & EC & EI & EPd & EO & ETb & EEv).
    + apply set_Bucket_same.
    + intros i. destruct (HTo i) as [->|Hi]; [now left|].
      destruct (set_Bucket_other T1 Index i
                  (Ip4PartialEntry Key First (l1 ++ [P]) :: Table Index)) as [->|Hs];
        [now left | right; now rewrite Hs].
    + now apply Ip4InOrder_app.
    + destruct l1; discriminate.
    + rewrite Ip4EndOf_app. cbn [Ip4InOrder] in HOm. tauto.
    + rewrite Ip4EndOf_app. exact H1.
    + exists NewPacket, A, T', h'. rewrite <- app_assoc in EF, EO. cbn [app] in EF, EO.
      repeat split; assumption.
Qed.

(** X10.  A datagram whose fragments arrive in order, each beginning where
    the one before ended, the first at 0 and only the last with MF clear,
    is reassembled when no allocation fails and there was no entry for it:
    the call for the last fragment returns the packet; its fragments are
    the ones received, in order, covering every byte below TotalLen; CurLen
    and TotalLen are the end of the last fragment; the packet carries the
    header and side band of the first fragment; the table is as before and
    nothing was freed. *)
Theorem Ip4Reassemble_in_order (Hash : Z -> Z -> Z -> Z -> nat)
    (Table : IP4_ASSEMBLE_TABLE) (h : HEAP) (Key : IP4_HEAD) (First Last : NET_BUF)
    (mid : list NET_BUF) :
  let Index := Hash (Dst Key) (Src Key) (Id Key) (Protocol Key) in
  Pool h = [] ->
  Ip4FindAssemble Key (Table Index) = None ->
  Ip4InOrder Key 0 (First :: mid) ->
  Start (IP4_GET_CLIP_INFO Last) = Ip4EndOf 0 (First :: mid) ->
  0 < Length (IP4_GET_CLIP_INFO Last) ->
  Start (IP4_GET_CLIP_INFO Last) + Length (IP4_GET_CLIP_INFO Last)
    = End_ (IP4_GET_CLIP_INFO Last) ->
  Dst (Ip Last) = Dst Key -> Src (Ip Last) = Src Key -> Id (Ip Last) = Id Key ->
  Protocol (Ip Last) = Protocol Key ->
  IP4_LAST_FRAGMENT (Fragment (Ip Last)) = true ->
  exists NewPacket A T' h',
    Ip4ReassembleList Hash (First :: mid ++ [Last]) (RetNull, Table, h)
      = (RetPacket NewPacket A, T', h') /\
    Fragments A = First :: mid ++ [Last] /\
    AsmTotalLen A = End_ (IP4_GET_CLIP_INFO Last) /\
    CurLen A = End_ (IP4_GET_CLIP_INFO Last) /\
    Ip NewPacket = Ip First /\ ProtoData NewPacket = ProtoData First /\
    Ip4FragmentsOrdered (Fragments A) = true /\
    (forall pos, 0 <= pos < End_ (IP4_GET_CLIP_INFO Last) ->
                 Ip4Covers (Fragments A) pos = true) /\
    (forall i, T' i = Table i) /\ Events h' = Events h.
Proof.
  cbn zeta. intros HPl HF HO H1 H2 H3 K1 K2 K3 K4 HM.
  set (Index := Hash (Dst Key) (Src Key) (Id Key) (Protocol Key)) in *.
  rewrite Ip4ReassembleList_cons.
  assert (HO1 : Ip4InOrder Key 0 [First]) by (cbn [Ip4InOrder] in *; tauto).
  rewrite (Ip4Reassemble_first Hash Table h Key First HPl HF HO1).
  fold Index.
  destruct (Ip4Reassemble_in_order_rest Hash Table h Key First Last mid
              HPl H2 H3 K1 K2 K3 K4 HM [First]
              (set_Bucket Table Index
                          (Ip4PartialEntry Key First [First] :: Table Index))
              RetNull)
    as (NewPacket & A & T' & h' & E & EF & ET & EC & EI & EPd & EO & ETb & EEv).
  - apply set_Bucket_same.
  - intros i. apply set_Bucket_other.
  - exact HO1.
  - discriminate.
  - cbn [Ip4InOrder] in HO. change (Ip4EndOf 0 [First])
      with (End_ (IP4_GET_CLIP_INFO First)). tauto.
  - exact H1.
  - exists NewPacket, A, T', h'. cbn [app] in EF, EO.
    destruct (Ip4InOrder_bounds Key (First :: mid) 0 EO) as [B1 B2].
    repeat split; try assumption.
    + rewrite EF. change (First :: mid ++ [Last]) with ((First :: mid) ++ [Last]).
      apply Ip4FragmentsOrdered_append; [eapply Ip4InOrder_ordered; exact EO|].
      eapply Forall_impl; [|exact B2]. cbn beta. intros a (A1 & A2 & A3).
      rewrite H1. lia.
    + intros pos Hp. rewrite EF.
      change (First :: mid ++ [Last]) with ((First :: mid) ++ [Last]).
      unfold Ip4Covers. rewrite existsb_app. apply orb_true_iff.
      destruct (Z_lt_ge_dec pos (Ip4EndOf 0 (First :: mid))) as [Hl|Hg].
      * left. apply (Ip4InOrder_covers Key (First :: mid) 0 pos EO). lia.
      * right. cbn [existsb]. rewrite orb_false_r.
        apply andb_true_intro; split; [apply Z.leb_le | apply Z.ltb_lt]; lia.
Qed.

Lemma Ip4Reassemble_in_order_witness :
  let First := SampleFragment 0 true 1480 1 1 in
  let Mid := SampleFragment 1480 true 1480 2 2 in
  let Last := SampleFragment 2960 false 40 3 3 in
  exists NewPacket A T' h',
    Ip4ReassembleList SampleHash (First :: [Mid] ++ [Last])
                      (RetNull, Ip4InitAssembleTable, SampleHeap)
      = (RetPacket NewPacket A, T', h') /\
    Fragments A = First :: [Mid] ++ [Last] /\
    AsmTotalLen A = End_ (IP4_GET_CLIP_INFO Last) /\
    CurLen A = End_ (IP4_GET_CLIP_INFO Last) /\
    Ip NewPacket = Ip First /\ ProtoData NewPacket = ProtoData First /\
    Ip4FragmentsOrdered (Fragments A) = true /\
    (forall pos, 0 <= pos < End_ (IP4_GET_CLIP_INFO Last) ->
                 Ip4Covers (Fragments A) pos = true) /\
    (forall i, T' i = Ip4InitAssembleTable i) /\ Events h' = Events SampleHeap.
Proof.
  cbn zeta.
  apply (Ip4Reassemble_in_order SampleHash Ip4InitAssembleTable SampleHeap
           (Ip (SampleFragment 0 true 1480 1 1))
           (SampleFragment 0 true 1480 1 1) (SampleFragment 2960 false 40 3 3)
           [SampleFragment 1480 true 1480 2 2]);
    try reflexivity.
  vm_compute. repeat split; reflexivity.
Defined.

(* ================================================================== *)
(** * Delivery to a child: what holds for every call *)
(* ================================================================== *)

Lemma Ip4Signalled_app (e1 e2 : list EVENT) :
  Ip4Signalled (e1 ++ e2) = Ip4Signalled e1 ++ Ip4Signalled e2.
Proof.
  induction e1 as [|e e1 IH]; [reflexivity|].
  destruct e; cbn; rewrite IH; reflexivity.
Qed.

Section DeliveryMore.

Context `{Lib : Ip4Lib}.

(** A turn that delivers: the wrapper holds the packet's side band, the
    token is stamped with the packet's status and the wrapper's data, and
    the turn itself signals nothing. *)
Lemma Ip4DeliverOne_ok (Packet : NET_BUF) (Token : EFI_IP4_COMPLETION_TOKEN)
    (h h' : HEAP) (Wrap : IP4_RXDATA_WRAP) (Token' : EFI_IP4_COMPLETION_TOKEN) :
  Ip4DeliverOne Packet Token h = (Some (Wrap, Token'), h') ->
  ProtoData (WrapPacket Wrap) = ProtoData Packet /\
  Token' = mkToken (Event Token) (Status (ProtoData Packet)) (Some (RxData Wrap)) /\
  NET_BUF_SHARED h' (WrapPacket Wrap) = false /\
  exists es, Events h' = Events h ++ es /\ Ip4Signalled es = [].
Proof.
  unfold Ip4DeliverOne. intros E.
  destruct (negb (NET_BUF_SHARED h Packet)) eqn:ES.
  - destruct (Ip4WrapRxData Packet h) as [[W|] h1] eqn:EW; [|discriminate].
    inversion E; subst. pose proof EW as EW'. apply Ip4WrapRxData_ok in EW'.
    destruct EW' as (R & _ & Ev).
    unfold Ip4WrapRxData in EW.
    destruct (Allocate h) as [[|] ha]; cbn [negb] in EW; [|discriminate].
    destruct (Allocate ha) as [[|] hb]; cbn [negb] in EW; [|discriminate].
    inversion EW; subst. cbn [WrapPacket set_Ip ProtoData Vector].
    repeat split.
    + apply negb_true_iff in ES. unfold NET_BUF_SHARED in *. cbn [Vector].
      now rewrite R.
    + exists []. now rewrite app_nil_r.
  - destruct (NetbufDuplicate Packet h) as [[Dup|] h1] eqn:ED; [|discriminate].
    pose proof ED as ED'. apply NetbufDuplicate_ok in ED'.
    destruct ED' as (DV & DN & DE & DR).
    destruct (Ip4WrapRxData _ h1) as [[W|] h2] eqn:EW; [|discriminate].
    inversion E; subst. pose proof EW as EW'. apply Ip4WrapRxData_ok in EW'.
    destruct EW' as (R & _ & Ev). pose proof EW as EW0. pose proof ED as ED0.
    unfold Ip4WrapRxData in EW.
    destruct (Allocate h1) as [[|] ha]; cbn [negb] in EW; [|discriminate].
    destruct (Allocate ha) as [[|] hb]; cbn [negb] in EW; [|discriminate].
    inversion EW; subst.
    unfold NetbufDuplicate in ED. destruct (Allocate h) as [[|] hc] eqn:EA; [|discriminate].
    inversion ED; subst.
    cbn [WrapPacket set_Ip ProtoData Vector NetbufTrim NetbufAllocSpace
         IP4_GET_CLIP_INFO].
    repeat split.
    + unfold NET_BUF_SHARED.
      rewrite (NetbufFree_after_duplicate Packet _ _ h _ _ _ ES ED0 EW0 Packet)
        by now left.
      cbn [emit set_RefCnt RefCnt Vector set_Ip NetbufTrim NetbufAllocSpace].
      rewrite R. cbn [RefCnt].
      destruct (Nat.eqb (NextVector hc) (Vector Packet)) eqn:EV.
      * apply Nat.eqb_eq in EV. rewrite <- EV, Nat.eqb_refl. reflexivity.
      * rewrite Nat.eqb_refl. reflexivity.
    + exists [EvFree Packet]. rewrite Events_NetbufFree, Ev, DE. split; reflexivity.
Qed.

(** No turn makes a buffer shared that was not. *)
Lemma Ip4DeliverOne_unshared (Packet : NET_BUF) (Token : EFI_IP4_COMPLETION_TOKEN)
    (h h' : HEAP) (r : option (IP4_RXDATA_WRAP * EFI_IP4_COMPLETION_TOKEN))
    (p : NET_BUF) :
  Ip4DeliverOne Packet Token h = (r, h') ->
  NET_BUF_SHARED h p = false -> NET_BUF_SHARED h' p = false.
Proof.
  unfold Ip4DeliverOne. intros E Hp.
  destruct (negb (NET_BUF_SHARED h Packet)) eqn:ES.
  - unfold NET_BUF_SHARED in *.
    destruct (Ip4WrapRxData Packet h) as [[W|] h1] eqn:EW; inversion E; subst;
      [apply Ip4WrapRxData_ok in EW | apply Ip4WrapRxData_fail in EW];
      destruct EW as (R & _ & _); now rewrite R.
  - destruct (NetbufDuplicate Packet h) as [[Dup|] h1] eqn:ED.
    + assert (HD : forall v, (RefCnt h1 v <= Nat.max 1 (RefCnt h v))%nat).
      { pose proof ED as ED1.
        unfold NetbufDuplicate in ED1. pose proof (Allocate_store h) as (A1 & _ & _).
        destruct (Allocate h) as [[|] hc]; [|discriminate]. cbn [snd] in A1.
        inversion ED1; subst. cbn [RefCnt]. intros v.
        destruct (Nat.eqb v (NextVector hc)); [lia | rewrite A1; lia]. }
      pose proof (HD (Vector p)) as HDp.
      unfold NET_BUF_SHARED in Hp. apply Nat.ltb_ge in Hp.
      unfold NET_BUF_SHARED. apply Nat.ltb_ge.
      destruct (Ip4WrapRxData _ h1) as [[W|] h2] eqn:EW; inversion E; subst;
        pose proof EW as EW0;
        [apply Ip4WrapRxData_ok in EW | apply Ip4WrapRxData_fail in EW];
        destruct EW as (R & _ & _);
        [rewrite (NetbufFree_after_duplicate Packet _ _ h _ _ _ ES ED EW0 Packet)
           by now left
        |rewrite (NetbufFree_after_duplicate Packet _ _ h _ _ _ ES ED EW0 _)
           by (right; reflexivity)];
        cbn [emit set_RefCnt RefCnt]; rewrite R;
        match goal with |- context [Nat.eqb ?a ?b] =>
          destruct (Nat.eqb a b) eqn:EQ;
          [apply Nat.eqb_eq in EQ; rewrite <- EQ; lia | lia]
        end.
    + unfold NET_BUF_SHARED in *. inversion E; subst. apply NetbufDuplicate_fail in ED.
      destruct ED as (R & _ & _). now rewrite R.
Qed.

(** The run of the loop, whatever its status. *)
Lemma Ip4DeliverLoop_account (R : list NET_BUF) :
  forall T D h,
    let r := Ip4DeliverLoop R T D h in
    exists done dtoks wraps es,
      R = done ++ fst (fst (snd (fst r))) /\
      T = dtoks ++ snd (fst (snd (fst r))) /\
      snd (snd (fst r)) = wraps ++ D /\
      length dtoks = length done /\ length wraps = length done /\
      map (fun w => ProtoData (WrapPacket w)) (rev wraps) = map ProtoData done /\
      Events (snd r) = Events h ++ es /\
      Ip4Signalled es =
        map (fun x => mkToken (Event (snd (fst x))) (Status (ProtoData (fst (fst x))))
                              (Some (RxData (snd x))))
            (combine (combine done dtoks) (rev wraps)) /\
      Forall (fun w => NET_BUF_SHARED (snd r) (WrapPacket w) = false) wraps /\
      (forall p, NET_BUF_SHARED h p = false -> NET_BUF_SHARED (snd r) p = false) /\
      ((fst (fst r) = EFI_SUCCESS /\
        (fst (fst (snd (fst r))) = [] \/ snd (fst (snd (fst r))) = [])) \/
       (fst (fst r) = EFI_OUT_OF_RESOURCES /\
        fst (fst (snd (fst r))) <> [] /\ snd (fst (snd (fst r))) <> [])).
Proof.
  cbn zeta. induction R as [|P R IH]; intros T D h.
  - exists [], [], [], []. cbn. rewrite app_nil_r.
    repeat split; auto.
  - destruct T as [|tok T].
    { exists [], [], [], []. cbn. rewrite app_nil_r.
      repeat split; auto. }
    cbn [Ip4DeliverLoop].
    destruct (Ip4DeliverOne P tok h) as [[[W tok1]|] h1] eqn:E1.
    + pose proof (Ip4DeliverOne_ok _ _ _ _ _ _ E1) as (O1 & O2 & O3 & es1 & O4 & O5).
      destruct (IH T (W :: D) (emit (EvSignal tok1) h1))
        as (done & dtoks & wraps & es & I1 & I2 & I3 & I4 & I5 & I6 & I7 & I8 & I9
            & I10 & I11).
      remember (Ip4DeliverLoop R T (W :: D) (emit (EvSignal tok1) h1)) as r eqn:Er.
      clear Er IH.
      exists (P :: done), (tok :: dtoks), (wraps ++ [W]), (es1 ++ [EvSignal tok1] ++ es).
      split; [cbn [app]; now f_equal|].
      split; [cbn [app]; now f_equal|].
      split; [rewrite I3, <- app_assoc; reflexivity|].
      split; [cbn [length]; lia|].
      split; [rewrite length_app; cbn [length]; lia|].
      split; [rewrite rev_app_distr; cbn [rev app map]; now rewrite O1, I6|].
      split; [rewrite I7; cbn [emit Events]; rewrite O4, <- !app_assoc; reflexivity|].
      split.
      { rewrite !Ip4Signalled_app, O5, I8, rev_app_distr.
        cbn [Ip4Signalled app rev combine map fst snd]. now rewrite O2. }
      split.
      { apply Forall_app; split; [exact I9|]. constructor; [|constructor].
        apply I10. exact O3. }
      split; [|exact I11].
      intros p Hp. apply I10. unfold NET_BUF_SHARED. cbn [emit RefCnt].
      exact (Ip4DeliverOne_unshared _ _ _ _ _ p E1 Hp).
    + pose proof (Ip4DeliverOne_fail _ _ _ _ E1) as (_ & HEv).
      assert (Hes : exists es, Events h1 = Events h ++ es /\ Ip4Signalled es = []).
      { destruct HEv as [HEv|(Dup & HEv & _)].
        - exists []. now rewrite app_nil_r.
        - exists [EvFree Dup]. now split. }
      clear HEv. destruct Hes as (es & Hes1 & Hes2).
      exists [], [], [], es. cbn [fst snd app length map rev combine].
      repeat split; try assumption; auto.
      * intros p Hp. exact (Ip4DeliverOne_unshared _ _ _ _ _ p E1 Hp).
      * right. repeat split; discriminate.
Qed.

End DeliveryMore.
Section DeliveryTheorems.

Context `{Lib : Ip4Lib}.

(** X11.  Ip4InstanceDeliverPacket, whatever it returns, serves the
    received queue and RxTokens from their heads and in step: the packets
    [done] left the queue, the tokens [dtoks] left RxTokens, one wrapper
    each was put on Delivered (newest first), and the tokens were
    signalled in the order of the queue, each stamped with the status of
    its packet and the receive data of its wrapper; each wrapper carries
    the side band of its packet.  EFI_SUCCESS means that one of the two
    queues ran empty; EFI_OUT_OF_RESOURCES that neither did. *)
Theorem Ip4InstanceDeliverPacket_in_step (IpInstance : IP4_PROTOCOL) (h : HEAP) :
  let r := Ip4InstanceDeliverPacket IpInstance h in
  let c' := snd (fst r) in
  exists done dtoks wraps es,
    Received IpInstance = done ++ Received c' /\
    RxTokens IpInstance = dtoks ++ RxTokens c' /\
    Delivered c' = wraps ++ Delivered IpInstance /\
    length dtoks = length done /\ length wraps = length done /\
    map (fun w => ProtoData (WrapPacket w)) (rev wraps) = map ProtoData done /\
    Events (snd r) = Events h ++ es /\
    Ip4Signalled es =
      map (fun x => mkToken (Event (snd (fst x))) (Status (ProtoData (fst (fst x))))
                            (Some (RxData (snd x))))
          (combine (combine done dtoks) (rev wraps)) /\
    ((fst (fst r) = EFI_SUCCESS /\ (Received c' = [] \/ RxTokens c' = [])) \/
     (fst (fst r) = EFI_OUT_OF_RESOURCES /\ Received c' <> [] /\ RxTokens c' <> [])).
Proof.
  cbn zeta. unfold Ip4InstanceDeliverPacket.
  destruct (Ip4DeliverLoop_account (Received IpInstance) (RxTokens IpInstance)
              (Delivered IpInstance) h)
    as (done & dtoks & wraps & es & I1 & I2 & I3 & I4 & I5 & I6 & I7 & I8 & _ & _ & I11).
  destruct (Ip4DeliverLoop (Received IpInstance) (RxTokens IpInstance)
                           (Delivered IpInstance) h) as [[st [[R' T'] D']] h1].
  cbn [fst snd set_Queues Received RxTokens Delivered] in *.
  exists done, dtoks, wraps, es. repeat split; assumption.
Qed.

(** X12.  The ASSERT of Ip4OnRecyclePacket, that the wrapped packet is not
    shared, holds after Ip4InstanceDeliverPacket for every wrapper on
    Delivered if it held for those that were there before: a wrapper is
    made of an unshared packet or of a duplicate, and no later turn of the
    loop adds a reference. *)
Theorem Ip4InstanceDeliverPacket_unshared (IpInstance : IP4_PROTOCOL) (h : HEAP) :
  Forall (fun w => Ip4OnRecyclePacket_assert h w = true) (Delivered IpInstance) ->
  let r := Ip4InstanceDeliverPacket IpInstance h in
  Forall (fun w => Ip4OnRecyclePacket_assert (snd r) w = true)
         (Delivered (snd (fst r))).
Proof.
  intros HD. cbn zeta. unfold Ip4InstanceDeliverPacket.
  destruct (Ip4DeliverLoop_account (Received IpInstance) (RxTokens IpInstance)
              (Delivered IpInstance) h)
    as (done & dtoks & wraps & es & _ & _ & I3 & _ & _ & _ & _ & _ & I9 & I10 & _).
  destruct (Ip4DeliverLoop (Received IpInstance) (RxTokens IpInstance)
                           (Delivered IpInstance) h) as [[st [[R' T'] D']] h1].
  cbn [fst snd set_Queues Received RxTokens Delivered] in *.
  rewrite I3. apply Forall_app; split.
  - eapply Forall_impl; [|exact I9]. cbn beta. intros w Hw.
    unfold Ip4OnRecyclePacket_assert. now rewrite Hw.
  - eapply Forall_impl; [|exact HD]. cbn beta. intros w Hw.
    unfold Ip4OnRecyclePacket_assert in *. apply negb_true_iff in Hw.
    now rewrite (I10 _ Hw).
Qed.

(** With an empty pool every allocation succeeds and the pool stays
    empty. *)
Lemma Ip4DeliverOne_free_pool (Packet : NET_BUF) (Token : EFI_IP4_COMPLETION_TOKEN)
    (h : HEAP) :
  Pool h = [] ->
  exists W tok1 h1, Ip4DeliverOne Packet Token h = (Some (W, tok1), h1) /\ Pool h1 = [].
Proof.
  intros HP. unfold Ip4DeliverOne, Ip4WrapRxData, NetbufDuplicate.
  rewrite (Allocate_free_pool h HP).
  destruct (negb (NET_BUF_SHARED h Packet)).
  - cbn [negb]. rewrite (Allocate_free_pool h HP). cbn [negb].
    do 3 eexists. split; [reflexivity | exact HP].
  - set (h1 := mkHeap _ _ _ _ _ _).
    assert (HP1 : Pool h1 = []) by exact HP.
    rewrite (Allocate_free_pool h1 HP1). cbn [negb].
    rewrite (Allocate_free_pool h1 HP1). cbn [negb].
    do 3 eexists. split; [reflexivity | rewrite Pool_NetbufFree; exact HP].
Qed.

Lemma Ip4DeliverLoop_free_pool (R : list NET_BUF) :
  forall T D h,
    Pool h = [] ->
    let r := Ip4DeliverLoop R T D h in
    let k := Nat.min (length R) (length T) in
    fst (fst r) = EFI_SUCCESS /\
    fst (fst (snd (fst r))) = skipn k R /\
    snd (fst (snd (fst r))) = skipn k T /\
    length (snd (snd (fst r))) = (k + length D)%nat.
Proof.
  cbn zeta. induction R as [|P R IH]; intros T D h HP.
  - cbn. repeat split.
  - destruct T as [|tok T]; [cbn; repeat split|].
    cbn [Ip4DeliverLoop length Nat.min skipn].
    destruct (Ip4DeliverOne_free_pool P tok h HP) as (W & tok1 & h1 & E & HP1).
    rewrite E.
    destruct (IH T (W :: D) (emit (EvSignal tok1) h1) HP1) as (I1 & I2 & I3 & I4).
    rewrite I1, I2, I3, I4. cbn [length]. repeat split. lia.
Qed.

(** X13.  When no allocation fails, Ip4InstanceDeliverPacket returns
    EFI_SUCCESS and delivers as many packets as there are packets and
    tokens to pair: the first [min (packets, tokens)] of each queue are
    gone and as many wrappers are on Delivered. *)
Theorem Ip4InstanceDeliverPacket_all (IpInstance : IP4_PROTOCOL) (h : HEAP) :
  Pool h = [] ->
  let r := Ip4InstanceDeliverPacket IpInstance h in
  let k := Nat.min (length (Received IpInstance)) (length (RxTokens IpInstance)) in
  fst (fst r) = EFI_SUCCESS /\
  Received (snd (fst r)) = skipn k (Received IpInstance) /\
  RxTokens (snd (fst r)) = skipn k (RxTokens IpInstance) /\
  length (Delivered (snd (fst r))) = (k + length (Delivered IpInstance))%nat.
Proof.
  intros HP. cbn zeta. unfold Ip4InstanceDeliverPacket.
  pose proof (Ip4DeliverLoop_free_pool (Received IpInstance) (RxTokens IpInstance)
                (Delivered IpInstance) h HP) as HL. cbn zeta in HL.
  destruct (Ip4DeliverLoop (Received IpInstance) (RxTokens IpInstance)
                           (Delivered IpInstance) h) as [[st [[R' T'] D']] h1].
  cbn [fst snd set_Queues Received RxTokens Delivered] in *. exact HL.
Qed.

End DeliveryTheorems.

Lemma Ip4InstanceDeliverPacket_unshared_witness :
  let r := @Ip4InstanceDeliverPacket SampleLib SampleDeliverChild SampleDeliverHeap in
  Forall (fun w => Ip4OnRecyclePacket_assert (snd r) w = true)
         (Delivered (snd (fst r))).
Proof.
  apply (@Ip4InstanceDeliverPacket_unshared SampleLib SampleDeliverChild
           SampleDeliverHeap).
  constructor.
Defined.

Lemma Ip4InstanceDeliverPacket_all_witness :
  let r := @Ip4InstanceDeliverPacket SampleLib SampleDeliverChild SampleHeap in
  let k := Nat.min (length (Received SampleDeliverChild))
                   (length (RxTokens SampleDeliverChild)) in
  fst (fst r) = EFI_SUCCESS /\
  Received (snd (fst r)) = skipn k (Received SampleDeliverChild) /\
  RxTokens (snd (fst r)) = skipn k (RxTokens SampleDeliverChild) /\
  length (Delivered (snd (fst r))) = (k + length (Delivered SampleDeliverChild))%nat.
Proof.
  apply (@Ip4InstanceDeliverPacket_all SampleLib SampleDeliverChild SampleHeap).
  reflexivity.
Defined.

(** Recycling the wrappers at the head of Delivered, newest first. *)
Lemma Ip4RecycleNewest_heads (wraps : list IP4_RXDATA_WRAP) :
  forall (c : IP4_PROTOCOL) (D : list IP4_RXDATA_WRAP) (h : HEAP),
    Delivered c = wraps ++ D ->
    exists h',
      Ip4RecycleNewest (length wraps) c h =
      Some (set_Queues c (Received c) (RxTokens c) D, h') /\
      Events h' = Events h ++ map (fun w => EvFree (WrapPacket w)) wraps.
Proof.
  induction wraps as [|w wraps IH]; intros c D h HD.
  - cbn [length Ip4RecycleNewest map]. exists h. rewrite app_nil_r. split; [|reflexivity].
    cbn [app] in HD. rewrite <- HD. destruct c; reflexivity.
  - cbn [length Ip4RecycleNewest]. unfold Ip4OnRecyclePacket. rewrite HD.
    cbn [app nth_error list_remove].
    destruct (IH (set_Queues c (Received c) (RxTokens c) (wraps ++ D)) D
                 (NetbufFree (WrapPacket w) h) eq_refl) as (h' & E & Ev).
    exists h'. rewrite E, Ev, Events_NetbufFree, <- app_assoc. split; reflexivity.
Qed.

Section RecycleTheorems.

Context `{Lib : Ip4Lib}.

(** X14.  Delivery and recycling undo each other on Delivered: when the
    consumer has recycled the wrappers that a call of
    Ip4InstanceDeliverPacket put on Delivered, the list is what it was
    before the call, the received queue and RxTokens are as the call left
    them, and the packet of each of these wrappers has been freed once. *)
Theorem Ip4OnRecyclePacket_after_delivery (IpInstance : IP4_PROTOCOL) (h : HEAP) :
  let r := Ip4InstanceDeliverPacket IpInstance h in
  let c' := snd (fst r) in
  exists wraps c'' h'',
    Delivered c' = wraps ++ Delivered IpInstance /\
    Ip4RecycleNewest (length wraps) c' (snd r) = Some (c'', h'') /\
    Delivered c'' = Delivered IpInstance /\
    Received c'' = Received c' /\ RxTokens c'' = RxTokens c' /\
    Events h'' = Events (snd r) ++ map (fun w => EvFree (WrapPacket w)) wraps.
Proof.
  cbn zeta.
  destruct (Ip4DeliverLoop_account (Received IpInstance) (RxTokens IpInstance)
              (Delivered IpInstance) h)
    as (done & dtoks & wraps & es & _ & _ & I3 & _).
  unfold Ip4InstanceDeliverPacket.
  destruct (Ip4DeliverLoop (Received IpInstance) (RxTokens IpInstance)
                           (Delivered IpInstance) h) as [[st [[R' T'] D']] h1].
  cbn [fst snd set_Queues Received RxTokens Delivered] in *.
  destruct (Ip4RecycleNewest_heads wraps (set_Queues IpInstance R' T' D')
              (Delivered IpInstance) h1 I3) as (h'' & E & Ev).
  exists wraps, (set_Queues (set_Queues IpInstance R' T' D')
                            (Received (set_Queues IpInstance R' T' D'))
                            (RxTokens (set_Queues IpInstance R' T' D'))
                            (Delivered IpInstance)), h''.
  repeat split; assumption.
Qed.

End RecycleTheorems.

Lemma Forall2_list_set_r {A B} (R : A -> B -> Prop) (l : list A) (l' : list B) :
  Forall2 R l l' ->
  forall i y y',
    nth_error l' i = Some y -> (forall x, R x y -> R x y') ->
    Forall2 R l (list_set l' i y').
Proof.
  induction 1 as [|x y0 l l' Hxy HF IH]; intros i y y' Hn Hstep.
  - destruct i; constructor.
  - destruct i as [|i]; cbn [list_set nth_error] in *.
    + injection Hn as ->. constructor; [now apply Hstep | exact HF].
    + constructor; [exact Hxy | eapply IH; eassumption].
Qed.

Lemma IP4_STATE_eqb_eq (a b : IP4_STATE) : IP4_STATE_eqb a b = true <-> a = b.
Proof. destruct a, b; cbn; split; intros H; try reflexivity; discriminate. Qed.

Section EnqueueTheorems.

Context `{Lib : Ip4Lib}.

Lemma Ip4ChildTook_refl (Head : IP4_HEAD) (Packet : NET_BUF) (c : IP4_PROTOCOL) :
  Ip4ChildTook Head Packet c c.
Proof.
  exists []. rewrite app_nil_r. destruct c. split; [reflexivity|]. split; [constructor | reflexivity].
Qed.

Lemma Ip4ChildTook_trans (Head : IP4_HEAD) (Packet : NET_BUF) (a b c : IP4_PROTOCOL) :
  Ip4ChildTook Head Packet a b -> Ip4ChildTook Head Packet b c -> Ip4ChildTook Head Packet a c.
Proof.
  intros (q1 & E1 & F1 & N1) (q2 & E2 & F2 & N2). subst b.
  cbn [set_Queues Received RxTokens Delivered ConfigData State] in *.
  exists (q1 ++ q2). rewrite app_assoc. split; [exact E2|]. split.
  - apply Forall_app; split; [assumption|].
    eapply Forall_impl; [|exact F2]. cbn beta. intros p (Cast & HC & HA & Hp).
    exists Cast. repeat split; assumption.
  - intros H. rewrite (N1 H), (N2 H). reflexivity.
Qed.

(** One call of Ip4InstanceEnquePacket with the packet as the interface
    passes it on. *)
Lemma Ip4InstanceEnquePacket_took (Packet : NET_BUF) (Cast : IP4_CAST)
    (c : IP4_PROTOCOL) (Head : IP4_HEAD) (h : HEAP) :
  Cast <> IP4_CAST_NONE ->
  Ip4ChildTook Head Packet c
    (snd (fst (Ip4InstanceEnquePacket c Head
                 (set_Info Packet (set_CastType (IP4_GET_CLIP_INFO Packet) Cast)) h))).
Proof.
  intros HC. unfold Ip4InstanceEnquePacket.
  destruct (IP4_STATE_eqb (State c) IP4_STATE_CONFIGED) eqn:ES; cbn [negb];
    [|apply Ip4ChildTook_refl].
  destruct (Ip4InstanceFrameAcceptable c Head _) eqn:EA; cbn [negb];
    [|apply Ip4ChildTook_refl].
  unfold NetbufClone. destruct (Allocate h) as [[|] h1]; cbn [fst snd];
    [|apply Ip4ChildTook_refl].
  eexists. split; [reflexivity|]. split.
  - constructor; [|constructor]. exists Cast.
    split; [exact HC | split; [exact EA | reflexivity]].
  - intros [HS | HT].
    + apply IP4_STATE_eqb_eq in ES. contradiction.
    + unfold Ip4InstanceFrameAcceptable in EA. rewrite HT, Z.eqb_refl in EA.
      discriminate.
Qed.

Lemma Ip4EnqueInstances_took (Packet : NET_BUF) (Cast : IP4_CAST) (Head : IP4_HEAD)
    (Ch0 : list IP4_PROTOCOL) (l : list nat) :
  Cast <> IP4_CAST_NONE ->
  forall Ch h E,
    Forall2 (Ip4ChildTook Head Packet) Ch0 Ch ->
    Forall2 (Ip4ChildTook Head Packet) Ch0
      (snd (fst (Ip4EnqueInstances l Head
                   (set_Info Packet (set_CastType (IP4_GET_CLIP_INFO Packet) Cast))
                   Ch h E))).
Proof.
  intros HC. induction l as [|i l IH]; intros Ch h E HF; cbn [Ip4EnqueInstances].
  - exact HF.
  - destruct (nth_error Ch i) as [c|] eqn:En; [|now apply IH].
    pose proof (Ip4InstanceEnquePacket_took Packet Cast c Head h HC) as HT.
    destruct (Ip4InstanceEnquePacket c Head _ h) as [[st c'] h1]. cbn [fst snd] in HT.
    assert (HF' : Forall2 (Ip4ChildTook Head Packet) Ch0 (list_set Ch i c')).
    { eapply Forall2_list_set_r; [exact HF | exact En |].
      intros x Hx. eapply Ip4ChildTook_trans; eassumption. }
    destruct st; now apply IH.
Qed.

Lemma Ip4InterfaceEnquePacket_took (Packet : NET_BUF) (Head : IP4_HEAD)
    (IpIf : IP4_INTERFACE) (Ch0 Ch : list IP4_PROTOCOL) (h : HEAP) :
  Forall2 (Ip4ChildTook Head Packet) Ch0 Ch ->
  Forall2 (Ip4ChildTook Head Packet) Ch0
    (snd (fst (Ip4InterfaceEnquePacket Ch Head Packet IpIf h))).
Proof.
  intros HF. unfold Ip4InterfaceEnquePacket.
  destruct (IP4_CAST_eqb (Ip4LocalCast Head Packet IpIf) IP4_CAST_NONE) eqn:EC;
    [exact HF|].
  apply Ip4EnqueInstances_took; [|exact HF].
  intros HN. rewrite HN in EC. discriminate.
Qed.

Lemma Ip4DemuxEnque_took (Packet : NET_BUF) (Head : IP4_HEAD)
    (Ch0 : list IP4_PROTOCOL) (ifs : list IP4_INTERFACE) :
  forall Ch h E,
    Forall2 (Ip4ChildTook Head Packet) Ch0 Ch ->
    Forall2 (Ip4ChildTook Head Packet) Ch0
      (snd (fst (Ip4DemuxEnque ifs Head Packet Ch h E))).
Proof.
  induction ifs as [|IpIf ifs IH]; intros Ch h E HF; cbn [Ip4DemuxEnque].
  - exact HF.
  - destruct (Configured IpIf); [|now apply IH].
    pose proof (Ip4InterfaceEnquePacket_took Packet Head IpIf Ch0 Ch h HF) as H1.
    destruct (Ip4InterfaceEnquePacket Ch Head Packet IpIf h) as [[n Ch1] h1].
    now apply IH.
Qed.

Lemma Forall2_Ip4ChildTook_refl (Head : IP4_HEAD) (Packet : NET_BUF)
    (Ch : list IP4_PROTOCOL) :
  Forall2 (Ip4ChildTook Head Packet) Ch Ch.
Proof. induction Ch; constructor; [apply Ip4ChildTook_refl | assumption]. Qed.

(** X15.  The first pass of Ip4Demultiplex keeps the children in place and
    changes nothing of a child but its received queue, which only grows at
    the tail: by clones of the packet that carry a local cast type other
    than IP4_CAST_NONE under which Ip4InstanceFrameAcceptable accepts the
    frame for this child and, as life, the child's receive timeout in
    seconds.  A child that is not configured, or whose receive timeout is
    -1, is left as it is. *)
Theorem Ip4DemuxEnque_children (ifs : list IP4_INTERFACE) (Head : IP4_HEAD)
    (Packet : NET_BUF) (Ch : list IP4_PROTOCOL) (h : HEAP) (Enqueued : Z) :
  Forall2 (Ip4ChildTook Head Packet) Ch
          (snd (fst (Ip4DemuxEnque ifs Head Packet Ch h Enqueued))).
Proof.
  apply Ip4DemuxEnque_took. apply Forall2_Ip4ChildTook_refl.
Qed.

End EnqueueTheorems.

Section ValidateTheorems.

Context `{Lib : Ip4Lib}.

(** X16.  A frame that passes the checks of Ip4AccpetFrame is handed on
    (to Ip4Reassemble, or as a whole datagram) with version 4, a header
    length between 20 and the total length, the IP header trimmed so that
    the size of the packet is the payload length, and a clip info that
    says so: Start is 8 times the fragment offset, Length the payload
    length, End their sum and at most 65535, the cast type that of
    Ip4GetHostCast and not IP4_CAST_NONE, the status EFI_SUCCESS.  A
    packet handed on as a whole has offset 0 and MF clear; one handed to
    Ip4Reassemble has DF clear and MF set or an offset.  Ip4NtohHead is
    taken to swap the total length as NTOHS does. *)
Theorem Ip4ValidateFrame_checked (IpSb : IP4_SERVICE) (Packet : NET_BUF)
    (IoStatus : EFI_STATUS) (Flag : Z) :
  TotalLen (Ip4NtohHead (Ip Packet)) = NTOHS (TotalLen (Ip Packet)) ->
  match Ip4ValidateFrame IpSb Packet IoStatus Flag with
  | VReassemble p =>
      Ip4FrameChecked IpSb Packet Flag p /\
      Z.land (Fragment (Ip p)) IP4_HEAD_DF_MASK = 0 /\
      (Z.land (Fragment (Ip p)) IP4_HEAD_MF_MASK <> 0 \/
       Start (IP4_GET_CLIP_INFO p) <> 0)
  | VDispatch p =>
      Ip4FrameChecked IpSb Packet Flag p /\
      Z.land (Fragment (Ip p)) IP4_HEAD_MF_MASK = 0 /\
      Start (IP4_GET_CLIP_INFO p) = 0
  | VRestart _ =>
      EFI_ERROR IoStatus = false /\ SbState IpSb <> IP4_SERVICE_DESTORY
  | VDrop p =>
      p = Packet /\
      (EFI_ERROR IoStatus = true \/ SbState IpSb = IP4_SERVICE_DESTORY)
  end.
Proof.
  intros HL. unfold Ip4ValidateFrame.
  destruct (EFI_ERROR IoStatus) eqn:EE; cbn [orb].
  { split; [reflexivity | now left]. }
  destruct (IP4_SERVICE_STATE_eqb (SbState IpSb) IP4_SERVICE_DESTORY) eqn:ES.
  { split; [reflexivity|]. right. destruct (SbState IpSb); try discriminate; reflexivity. }
  assert (HR : false = false /\ SbState IpSb <> IP4_SERVICE_DESTORY).
  { split; [reflexivity|]. intros H. rewrite H in ES. discriminate. }
  destruct (TotalSize Packet <? IP4_MIN_HEADLEN) eqn:E0; [exact HR|].
  set (HeadLen0 := Z.shiftl (HeadLen (Ip Packet)) 2).
  set (TotalLen0 := NTOHS (TotalLen (Ip Packet))).
  set (Packet1 := if TotalLen0 <? TotalSize Packet then _ else _).
  destruct (negb (Ver (Ip Packet) =? 4) || (HeadLen0 <? IP4_MIN_HEADLEN) ||
            (TotalLen0 <? HeadLen0) || negb (TotalLen0 =? TotalSize Packet1)) eqn:E1;
    [exact HR|].
  apply orb_false_iff in E1 as [E1 E4]. apply orb_false_iff in E1 as [E1 E3].
  apply orb_false_iff in E1 as [E1 E2].
  apply negb_false_iff, Z.eqb_eq in E1, E4. apply Z.ltb_ge in E2, E3.
  match goal with |- context [if ?c then VRestart _ else _] => destruct c; [exact HR|] end.
  cbv zeta.
  set (Head1 := Ip4NtohHead (Ip Packet)).
  set (Start0 := Z.shiftl (Z.land (Fragment Head1) IP4_HEAD_OFFSET_MASK) 3).
  set (Cast := Ip4GetHostCast IpSb (Dst Head1) (Src Head1)).
  cbn [CastType End_ Start Length].
  destruct (IP4_CAST_eqb Cast IP4_CAST_NONE ||
            (IP4_MAX_PACKET_SIZE <? Start0 + (TotalLen Head1 - HeadLen0))) eqn:E5;
    [exact HR|].
  apply orb_false_iff in E5 as [E5 E6]. apply Z.ltb_ge in E6.
  match goal with |- context [if ?c then VRestart _ else _] => destruct c; [exact HR|] end.
  assert (HS : TotalSize Packet1 <= TotalSize Packet).
  { unfold Packet1. destruct (TotalLen0 <? TotalSize Packet) eqn:ET; [|lia].
    cbn [NetbufTrim TotalSize]. apply Z.ltb_lt in ET. apply Z.ltb_ge in E0.
    unfold IP4_MIN_HEADLEN in E0. lia. }
  assert (HC : Ip4FrameChecked IpSb Packet Flag
                 (NetbufTrim
                    (set_Info (set_Ip Packet1 Head1)
                       (mkInfo Flag Cast Start0 (Start0 + (TotalLen Head1 - HeadLen0))
                               (TotalLen Head1 - HeadLen0)
                               (Life (IP4_GET_CLIP_INFO (set_Ip Packet1 Head1)))
                               EFI_SUCCESS))
                    HeadLen0 NET_BUF_HEAD)).
  { unfold Ip4FrameChecked.
    cbn [NetbufTrim set_Info set_Ip Ip Vector TotalSize IP4_GET_CLIP_INFO ProtoData
         LinkFlag CastType Start End_ Length Status].
    assert (HL' : TotalLen Head1 = TotalLen0) by exact HL.
    assert (HV : Vector Packet1 = Vector Packet).
    { unfold Packet1. destruct (TotalLen0 <? TotalSize Packet); reflexivity. }
    assert (HN : Cast <> IP4_CAST_NONE).
    { intros HN. rewrite HN in E5. discriminate. }
    repeat split; try assumption; try reflexivity; try lia. }
  destruct (Z.land (Fragment Head1) IP4_HEAD_MF_MASK =? 0) eqn:EM; cbn [negb orb andb].
  - destruct (Start0 =? 0) eqn:EZ; cbn [negb].
    + apply Z.eqb_eq in EM, EZ. split; [exact HC|]. split; assumption.
    + destruct (Z.land (Fragment Head1) IP4_HEAD_DF_MASK =? 0) eqn:ED; cbn [negb];
        [|exact HR].
      apply Z.eqb_eq in ED. apply Z.eqb_neq in EZ. split; [exact HC|].
      split; [exact ED | now right].
  - destruct (Z.land (Fragment Head1) IP4_HEAD_DF_MASK =? 0) eqn:ED; cbn [negb];
      [|exact HR].
    match goal with |- context [if ?c then VRestart _ else _] => destruct c; [exact HR|] end.
    apply Z.eqb_eq in ED. apply Z.eqb_neq in EM. split; [exact HC|].
    split; [exact ED | now left].
Qed.

End ValidateTheorems.

Lemma Ip4ValidateFrame_checked_witness :
  match @Ip4ValidateFrame SampleLib SampleService (SampleFrame 0 8) EFI_SUCCESS 0 with
  | VReassemble p =>
      @Ip4FrameChecked SampleLib SampleService (SampleFrame 0 8) 0 p /\
      Z.land (Fragment (Ip p)) IP4_HEAD_DF_MASK = 0 /\
      (Z.land (Fragment (Ip p)) IP4_HEAD_MF_MASK <> 0 \/
       Start (IP4_GET_CLIP_INFO p) <> 0)
  | VDispatch p =>
      @Ip4FrameChecked SampleLib SampleService (SampleFrame 0 8) 0 p /\
      Z.land (Fragment (Ip p)) IP4_HEAD_MF_MASK = 0 /\
      Start (IP4_GET_CLIP_INFO p) = 0
  | VRestart _ =>
      EFI_ERROR EFI_SUCCESS = false /\ SbState SampleService <> IP4_SERVICE_DESTORY
  | VDrop p =>
      p = SampleFrame 0 8 /\
      (EFI_ERROR EFI_SUCCESS = true \/ SbState SampleService = IP4_SERVICE_DESTORY)
  end.
Proof.
  apply (@Ip4ValidateFrame_checked SampleLib SampleService (SampleFrame 0 8)
           EFI_SUCCESS 0).
  reflexivity.
Defined.

Lemma Ip4CleanBucket_events (b : list IP4_ASSEMBLE_ENTRY) :
  forall h,
    Events (Ip4CleanBucket b h) =
    Events h ++ flat_map (fun a => map EvFree (Fragments a)) b.
Proof.
  induction b as [|a b IH]; intros h; cbn [Ip4CleanBucket flat_map].
  - now rewrite app_nil_r.
  - rewrite IH, Events_Ip4FreeAssembleEntry, <- app_assoc. reflexivity.
Qed.

Lemma Ip4CleanTable_spec (n : nat) (Table : IP4_ASSEMBLE_TABLE) (h : HEAP) :
  (forall Index,
     fst (Ip4CleanTable n Table h) Index =
     if Nat.ltb Index n then [] else Table Index) /\
  Events (snd (Ip4CleanTable n Table h)) =
  Events h ++
  flat_map (fun Index => flat_map (fun a => map EvFree (Fragments a)) (Table Index))
           (seq 0 n).
Proof.
  induction n as [|n [IH1 IH2]]; cbn [Ip4CleanTable].
  - cbn. split; [reflexivity | now rewrite app_nil_r].
  - destruct (Ip4CleanTable n Table h) as [T1 h1]. cbn [fst snd] in *.
    assert (En : T1 n = Table n) by (rewrite IH1, Nat.ltb_irrefl; reflexivity).
    split.
    + intros Index. unfold set_Bucket.
      destruct (Nat.eqb Index n) eqn:E.
      * apply Nat.eqb_eq in E. subst Index.
        assert (L : Nat.ltb n (S n) = true) by (apply Nat.ltb_lt; lia).
        now rewrite L.
      * apply Nat.eqb_neq in E. rewrite IH1.
        destruct (Nat.ltb Index n) eqn:L1; destruct (Nat.ltb Index (S n)) eqn:L2;
          try reflexivity.
        -- apply Nat.ltb_lt in L1. apply Nat.ltb_ge in L2. lia.
        -- apply Nat.ltb_ge in L1. apply Nat.ltb_lt in L2. lia.
    + rewrite Ip4CleanBucket_events, IH2, En, seq_S, flat_map_app, <- app_assoc.
      cbn [flat_map Nat.add]. now rewrite app_nil_r.
Qed.

Lemma Ip4LifeAfterTicks_S (n : nat) (life : Z) :
  Ip4LifeAfterTicks (S n) life =
  match Ip4LifeAfterTicks n life with
  | None => None
  | Some l => Ip4LifeAfterTick l
  end.
Proof.
  unfold Ip4LifeAfterTicks, Ip4LifeAfterTick.
  destruct (life <=? 0) eqn:E0.
  - apply Z.leb_le in E0.
    assert (E1 : (life =? 1) = false) by (apply Z.eqb_neq; lia).
    assert (E2 : (1 <? life) = false) by (apply Z.ltb_ge; lia).
    now rewrite E1, E2.
  - apply Z.leb_gt in E0.
    destruct (life <=? Z.of_nat n) eqn:E1.
    + apply Z.leb_le in E1.
      assert (E2 : (life <=? Z.of_nat (S n)) = true) by (apply Z.leb_le; lia).
      now rewrite E2.
    + apply Z.leb_gt in E1.
      destruct (life - Z.of_nat n =? 1) eqn:E2.
      * apply Z.eqb_eq in E2.
        assert (E3 : (life <=? Z.of_nat (S n)) = true) by (apply Z.leb_le; lia).
        now rewrite E3.
      * apply Z.eqb_neq in E2.
        assert (E3 : (life <=? Z.of_nat (S n)) = false) by (apply Z.leb_gt; lia).
        assert (E4 : (1 <? life - Z.of_nat n) = true) by (apply Z.ltb_lt; lia).
        rewrite E3, E4. f_equal. lia.
Qed.

Lemma Ip4LifeAfterTicks_0 (life : Z) : Ip4LifeAfterTicks 0 life = Some life.
Proof.
  unfold Ip4LifeAfterTicks. destruct (life <=? 0) eqn:E0; [reflexivity|].
  apply Z.leb_gt in E0.
  assert (E1 : (life <=? Z.of_nat 0) = false) by (apply Z.leb_gt; lia).
  rewrite E1. f_equal. cbn. lia.
Qed.

Lemma Ip4EntryAfterTicks_S (n : nat) (b : list IP4_ASSEMBLE_ENTRY) :
  flat_map Ip4EntryAfterTick (flat_map (Ip4EntryAfterTicks n) b) =
  flat_map (Ip4EntryAfterTicks (S n)) b.
Proof.
  induction b as [|a b IH]; [reflexivity|].
  cbn [flat_map]. rewrite flat_map_app, IH. f_equal.
  unfold Ip4EntryAfterTicks. rewrite Ip4LifeAfterTicks_S.
  destruct (Ip4LifeAfterTicks n (AsmLife a)) as [l|]; [|reflexivity].
  cbn [flat_map]. rewrite app_nil_r. unfold Ip4EntryAfterTick.
  destruct a; cbn [AsmLife set_AsmLife].
  destruct (Ip4LifeAfterTick l); reflexivity.
Qed.

Lemma Ip4PacketAfterTicks_S (n : nat) (r : list NET_BUF) :
  flat_map Ip4PacketAfterTick (flat_map (Ip4PacketAfterTicks n) r) =
  flat_map (Ip4PacketAfterTicks (S n)) r.
Proof.
  induction r as [|p r IH]; [reflexivity|].
  cbn [flat_map]. rewrite flat_map_app, IH. f_equal.
  unfold Ip4PacketAfterTicks. rewrite Ip4LifeAfterTicks_S.
  destruct (Ip4LifeAfterTicks n (Life (IP4_GET_CLIP_INFO p))) as [l|]; [|reflexivity].
  cbn [flat_map]. rewrite app_nil_r. unfold Ip4PacketAfterTick.
  destruct p as [i [] s v t];
    cbn [IP4_GET_CLIP_INFO ProtoData set_Info set_Life Life].
  destruct (Ip4LifeAfterTick l); reflexivity.
Qed.

Lemma Ip4EntryAfterTicks_0 (b : list IP4_ASSEMBLE_ENTRY) :
  flat_map (Ip4EntryAfterTicks 0) b = b.
Proof.
  induction b as [|a b IH]; [reflexivity|]. cbn [flat_map]. rewrite IH.
  unfold Ip4EntryAfterTicks. rewrite Ip4LifeAfterTicks_0, set_AsmLife_same. reflexivity.
Qed.

Lemma Ip4PacketAfterTicks_0 (r : list NET_BUF) :
  flat_map (Ip4PacketAfterTicks 0) r = r.
Proof.
  induction r as [|p r IH]; [reflexivity|]. cbn [flat_map]. rewrite IH.
  unfold Ip4PacketAfterTicks. rewrite Ip4LifeAfterTicks_0, set_Life_same. reflexivity.
Qed.





Section LifecycleTheorems.

Context `{Lib : Ip4Lib}.


(** X18.  Ip4CleanAssembleTable empties every bucket of the table (the
    buckets below IP4_ASSEMLE_HASH_SIZE; there are no others) and frees
    every fragment of every entry once, bucket by bucket, entry by entry,
    first fragment to last; it does nothing else. *)
Theorem Ip4CleanAssembleTable_frees_all (Table : IP4_ASSEMBLE_TABLE) (h : HEAP) :
  let r := Ip4CleanAssembleTable Table h in
  (forall Index,
     fst r Index = if Nat.ltb Index IP4_ASSEMLE_HASH_SIZE then [] else Table Index) /\
  Events (snd r) =
    Events h ++
    flat_map (fun Index => flat_map (fun a => map EvFree (Fragments a)) (Table Index))
             (seq 0 IP4_ASSEMLE_HASH_SIZE).
Proof.
  cbn zeta. unfold Ip4CleanAssembleTable. apply Ip4CleanTable_spec.
Qed.

(** X19.  After [n] calls of Ip4PacketTimerTicking an assemble entry or a
    queued packet whose life was [l > 0] is there with life [l - n] as
    long as [n < l] and is gone from then on; one whose life was not
    positive never expires.  Nothing else changes in the table and in the
    children, and no entry or packet is added. *)
Theorem Ip4PacketTimerTicking_repeated (n : nat) (IpSb : IP4_SERVICE) (h : HEAP) :
  let r := Ip4TimerTicks n IpSb h in
  (forall Index,
     Assemble (fst r) Index =
     if Nat.ltb Index IP4_ASSEMLE_HASH_SIZE
     then flat_map (Ip4EntryAfterTicks n) (Assemble IpSb Index)
     else Assemble IpSb Index) /\
  Children (fst r) =
    map (fun c => set_Queues c (flat_map (Ip4PacketAfterTicks n) (Received c))
                             (RxTokens c) (Delivered c)) (Children IpSb) /\
  SbState (fst r) = SbState IpSb /\ Interfaces (fst r) = Interfaces IpSb.
Proof.
  cbn zeta. induction n as [|n (IH1 & IH2 & IH3 & IH4)]; cbn [Ip4TimerTicks].
  - cbn [fst]. repeat split.
    + intros Index. rewrite Ip4EntryAfterTicks_0. now destruct (Nat.ltb _ _).
    + rewrite <- (map_id (Children IpSb)) at 1. apply map_ext. intros c.
      rewrite Ip4PacketAfterTicks_0. now destruct c.
  - destruct (Ip4TimerTicks n IpSb h) as [S1 h1]. cbn [fst] in *.
    unfold Ip4PacketTimerTicking.
    pose proof (Ip4TickTable_spec IP4_ASSEMLE_HASH_SIZE (Assemble S1) h1) as [T1 _].
    destruct (Ip4TickTable IP4_ASSEMLE_HASH_SIZE (Assemble S1) h1) as [Table h2].
    pose proof (Ip4TickChildren_spec (Children S1) h2) as [C1 _].
    destruct (Ip4TickChildren (Children S1) h2) as [Ch h3].
    cbn [fst snd Assemble Children SbState Interfaces] in *.
    repeat split; try assumption.
    + intros Index. rewrite T1, IH1.
      destruct (Nat.ltb Index IP4_ASSEMLE_HASH_SIZE); [|reflexivity].
      apply Ip4EntryAfterTicks_S.
    + rewrite C1, IH2, map_map. apply map_ext. intros c.
      cbn [set_Queues Received RxTokens Delivered State ConfigData InterfaceIp Groups].
      now rewrite Ip4PacketAfterTicks_S.
Qed.

End LifecycleTheorems.

Section DeliveryData.

Context `{Lib : Ip4Lib}.




End DeliveryData.


(* ================================================================== *)
(** * The free hook of an assembled packet *)
(* ================================================================== *)

Lemma Ip4HookOf_Unhook_none (v w : nat) (l : list (nat * IP4_ASSEMBLE_ENTRY)) :
  Ip4HookOf w l = None -> Ip4HookOf w (Ip4Unhook v l) = None.
Proof.
  unfold Ip4HookOf, Ip4Unhook. induction l as [|e l IH]; cbn [find filter];
    [trivial|].
  destruct (Nat.eqb (fst e) w) eqn:E; [discriminate|]. intros H.
  destruct (negb (Nat.eqb (fst e) v)); [cbn [find]; rewrite E|]; now apply IH.
Qed.

(** The release of a reference to a block without hook. *)
Lemma NetbufFreeVector_plain (n v : nat) (h : HEAP) :
  Ip4HookOf v (FreeHook h) = None ->
  NetbufFreeVector n v h = set_RefCnt h v (Nat.pred (RefCnt h v)).
Proof.
  intros H.
  destruct n; cbn [NetbufFreeVector set_RefCnt RefCnt FreeHook];
    rewrite Nat.eqb_refl, H; destruct (Nat.eqb _ 0); reflexivity.
Qed.

(** The hook on an entry whose fragments have no hooks of their own: every
    fragment is released once, first to last. *)
Lemma Ip4OnFreeFragments_plain (Arg : IP4_ASSEMBLE_ENTRY) (h : HEAP) :
  Forall (fun f => Ip4HookOf (Vector f) (FreeHook h) = None) (Fragments Arg) ->
  let h' := Ip4OnFreeFragments Arg h in
  HookFrees h' = HookFrees h ++ Fragments Arg /\
  FreeHook h' = FreeHook h /\ Events h' = Events h /\
  forall v,
    RefCnt h' v =
    (RefCnt h v - count_occ Nat.eq_dec (map Vector (Fragments Arg)) v)%nat.
Proof.
  cbn zeta. unfold Ip4OnFreeFragments.
  generalize (length (FreeHook h)) as n. intros n.
  generalize (Fragments Arg) as l. intros l. revert h.
  induction l as [|f l IH]; intros h HF; cbn [fold_left map count_occ].
  - rewrite app_nil_r. repeat split. intros v. lia.
  - inversion HF as [|? ? Hf Hl]; subst.
    rewrite NetbufFreeVector_plain by exact Hf.
    set (h1 := set_RefCnt (hook_frees f h) (Vector f)
                          (Nat.pred (RefCnt (hook_frees f h) (Vector f)))).
    destruct (IH h1 Hl) as (I1 & I2 & I3 & I4).
    rewrite I1, I2, I3. cbn [h1 set_RefCnt hook_frees HookFrees FreeHook Events].
    rewrite <- app_assoc. repeat split.
    intros v. rewrite I4. cbn [h1 set_RefCnt hook_frees RefCnt].
    destruct (Nat.eq_dec (Vector f) v) as [->|N].
    + rewrite Nat.eqb_refl. lia.
    + assert (E : Nat.eqb v (Vector f) = false) by (apply Nat.eqb_neq; congruence).
      rewrite E. reflexivity.
Qed.

Lemma NetbufFreeVector_same (n : nat) :
  forall v h1 h2,
    Ip4SameMemory h1 h2 ->
    Ip4SameMemory (NetbufFreeVector n v h1) (NetbufFreeVector n v h2).
Proof.
  induction n as [|n IH]; intros v h1 h2 (S1 & S2 & S3 & S4);
    cbn [NetbufFreeVector set_RefCnt RefCnt FreeHook];
    rewrite !Nat.eqb_refl, (S2 v), S4;
    assert (HS : Ip4SameMemory
                   (set_RefCnt h1 v (Nat.pred (RefCnt h2 v)))
                   (set_RefCnt h2 v (Nat.pred (RefCnt h2 v))))
      by (repeat split; try assumption; intros w; cbn [set_RefCnt RefCnt];
          destruct (Nat.eqb w v); [reflexivity | apply S2]);
    destruct (Nat.eqb (Nat.pred (RefCnt h2 v)) 0); try exact HS;
    destruct (Ip4HookOf v (FreeHook h2)) as [Arg|]; try exact HS.
  assert (H0 : Ip4SameMemory
                 (set_FreeHook (set_RefCnt h1 v (Nat.pred (RefCnt h2 v)))
                               (Ip4Unhook v (FreeHook h2)))
                 (set_FreeHook (set_RefCnt h2 v (Nat.pred (RefCnt h2 v)))
                               (Ip4Unhook v (FreeHook h2)))).
  { destruct HS as (T1 & T2 & T3 & T4). repeat split; assumption. }
  revert H0. generalize (set_FreeHook (set_RefCnt h1 v (Nat.pred (RefCnt h2 v)))
                                      (Ip4Unhook v (FreeHook h2))) as a.
  generalize (set_FreeHook (set_RefCnt h2 v (Nat.pred (RefCnt h2 v)))
                           (Ip4Unhook v (FreeHook h2))) as b.
  induction (Fragments Arg) as [|f l IHl]; intros b a Hab; cbn [fold_left];
    [exact Hab|].
  apply IHl. apply IH. destruct Hab as (T1 & T2 & T3 & T4).
  repeat split; assumption.
Qed.

(** Called back as the hook, Ip4FreeAssembleEntry does to the memory what
    it does when the path calls it: the same releases, in the same order;
    only the record of them is kept apart. *)
Lemma Ip4OnFreeFragments_same (Arg : IP4_ASSEMBLE_ENTRY) (h1 h2 : HEAP) :
  Ip4SameMemory h1 h2 ->
  Ip4SameMemory (Ip4FreeAssembleEntry Arg h1) (Ip4OnFreeFragments Arg h2) /\
  Events (Ip4FreeAssembleEntry Arg h1) = Events h1 ++ map EvFree (Fragments Arg) /\
  Events (Ip4OnFreeFragments Arg h2) = Events h2.
Proof.
  intros HS. split; [|split; [apply Events_Ip4FreeAssembleEntry|]].
  - unfold Ip4FreeAssembleEntry, Ip4OnFreeFragments.
    assert (HB : (length (FreeHook h2) <= length (FreeHook h2))%nat) by lia.
    revert HB. generalize (length (FreeHook h2)) at 2 3 as k. intros k.
    revert h1 h2 HS.
    induction (Fragments Arg) as [|f l IHl]; intros h1 h2 HS HB; cbn [fold_left];
      [exact HS|].
    assert (HL : length (FreeHook h1) = length (FreeHook h2))
      by (destruct HS as (_ & _ & _ & S4); now rewrite S4).
    apply IHl.
    + unfold NetbufFree.
      rewrite (NetbufFreeVector_fuel k (length (FreeHook h1)) (Vector f)
                 (hook_frees f h2))
        by (cbn [hook_frees FreeHook]; lia).
      assert (HA : Ip4SameMemory h1 (hook_frees f h2))
        by (destruct HS as (S1 & S2 & S3 & S4); repeat split; assumption).
      pose proof (NetbufFreeVector_same (length (FreeHook h1)) (Vector f) _ _ HA)
        as (T1 & T2 & T3 & T4).
      repeat split; assumption.
    + destruct (NetbufFreeVector_kept k (Vector f) (hook_frees f h2))
        as (_ & _ & _ & HK).
      cbn [hook_frees FreeHook] in HK. lia.
  - destruct (Ip4HeapKept_fold
                (fun h' Fragment =>
                   NetbufFreeVector (length (FreeHook h2)) (Vector Fragment)
                                    (hook_frees Fragment h'))
                (fun h x => Ip4HeapKept_trans _ _ _
                   (conj eq_refl (conj eq_refl (conj eq_refl (Nat.le_refl _))))
                   (NetbufFreeVector_kept _ _ (hook_frees x h)))
                (Fragments Arg) h2) as (_ & _ & K3 & _).
    exact K3.
Qed.

(** The packet Ip4WrapAssemble hands back holds the only reference to a
    new data block, whose free hook is Ip4OnFreeFragments on the entry. *)
Lemma Ip4WrapAssemble_hook (Assemble0 : IP4_ASSEMBLE_ENTRY) (h : HEAP)
    (NewPacket : NET_BUF) (A : IP4_ASSEMBLE_ENTRY) (h' : HEAP) :
  Ip4WrapAssemble Assemble0 h = (RetPacket NewPacket A, h') ->
  Ip4HookOf (Vector NewPacket) (FreeHook h') = Some A /\
  RefCnt h' (Vector NewPacket) = 1%nat.
Proof.
  unfold Ip4WrapAssemble. intros E.
  destruct (nth_error (Fragments Assemble0) _) as [Last|]; [|discriminate].
  destruct (negb _); [discriminate|].
  destruct (AsmHeadInfo Assemble0) as [[IpHead Info]|].
  - unfold NetbufFromBufList in E.
    destruct (Allocate h) as [[|] h1]; [|discriminate].
    inversion E; subst. cbn [set_Info Vector FreeHook RefCnt].
    unfold Ip4HookOf. cbn [find fst]. rewrite !Nat.eqb_refl. split; reflexivity.
  - destruct (Allocate h) as [[|] h1]; discriminate.
Qed.

Lemma Ip4ReassembleAt_hook (Table : IP4_ASSEMBLE_TABLE) (Index : nat)
    (Packet : NET_BUF) (pos : nat) (Assemble0 : IP4_ASSEMBLE_ENTRY)
    (b1 : list IP4_ASSEMBLE_ENTRY) (h1 : HEAP)
    (NewPacket : NET_BUF) (A : IP4_ASSEMBLE_ENTRY) (T' : IP4_ASSEMBLE_TABLE)
    (h' : HEAP) :
  Ip4ReassembleAt Table Index Packet pos Assemble0 b1 h1
    = (RetPacket NewPacket A, T', h') ->
  Ip4HookOf (Vector NewPacket) (FreeHook h') = Some A /\
  RefCnt h' (Vector NewPacket) = 1%nat.
Proof.
  unfold Ip4ReassembleAt. intros E.
  destruct (Ip4InsertFragment Assemble0 (Ip Packet) Packet h1) as [[[|] A1] h2];
    [|discriminate].
  destruct (Ip4AssembleDone A1); [|discriminate].
  destruct (Ip4WrapAssemble A1 h2) as [r h3] eqn:EW.
  inversion E; subst. eapply Ip4WrapAssemble_hook. exact EW.
Qed.

(** X24.  The free hook of an assembled packet.  The packet Ip4Reassemble
    returns holds the only reference to its data block, and the hook of
    that block is Ip4OnFreeFragments on the datagram's entry.  When the
    packet is freed the hook runs, once: every fragment of the entry is
    released, first to last (here for fragments that have no hook of
    their own, as frames from the wire have none), each release taking one
    reference from the fragment's data block; the hook is gone
    afterwards. *)
Theorem Ip4OnFreeFragments_frees_entry (Hash : Z -> Z -> Z -> Z -> nat)
    (Table : IP4_ASSEMBLE_TABLE) (Packet : NET_BUF) (h : HEAP)
    (NewPacket : NET_BUF) (A : IP4_ASSEMBLE_ENTRY) (T' : IP4_ASSEMBLE_TABLE)
    (h' : HEAP) :
  Ip4Reassemble Hash Table Packet h = (RetPacket NewPacket A, T', h') ->
  Forall (fun f => Ip4HookOf (Vector f) (FreeHook h') = None) (Fragments A) ->
  let h'' := NetbufFree NewPacket h' in
  Ip4HookOf (Vector NewPacket) (FreeHook h') = Some A /\
  RefCnt h' (Vector NewPacket) = 1%nat /\
  Events h'' = Events h' ++ [EvFree NewPacket] /\
  HookFrees h'' = HookFrees h' ++ Fragments A /\
  Ip4HookOf (Vector NewPacket) (FreeHook h'') = None /\
  RefCnt h'' (Vector NewPacket) = 0%nat /\
  forall v, v <> Vector NewPacket ->
    RefCnt h'' v =
    (RefCnt h' v - count_occ Nat.eq_dec (map Vector (Fragments A)) v)%nat.
Proof.
  intros E HF. cbn zeta.
  assert (HK : Ip4HookOf (Vector NewPacket) (FreeHook h') = Some A /\
               RefCnt h' (Vector NewPacket) = 1%nat).
  { rewrite Ip4Reassemble_unfold in E. cbn zeta in E.
    destruct (Ip4FindAssemble (Ip Packet) _) as [[pos A0]|].
    - eapply Ip4ReassembleAt_hook. exact E.
    - destruct (fst (Allocate h)); [|discriminate].
      eapply Ip4ReassembleAt_hook. exact E. }
  destruct HK as [HH HR].
  rewrite (NetbufFree_last NewPacket h' A) by (try rewrite HR; trivial).
  set (h0 := set_FreeHook (set_RefCnt h' (Vector NewPacket) 0)
                          (Ip4Unhook (Vector NewPacket) (FreeHook h'))).
  assert (HF0 : Forall (fun f => Ip4HookOf (Vector f) (FreeHook h0) = None)
                       (Fragments A)).
  { eapply Forall_impl; [|exact HF]. cbn beta. intros f Hf.
    unfold h0. cbn [set_FreeHook FreeHook]. now apply Ip4HookOf_Unhook_none. }
  destruct (Ip4OnFreeFragments_plain A h0 HF0) as (P1 & P2 & P3 & P4).
  cbn [emit Events HookFrees FreeHook RefCnt].
  rewrite P1, P2, P3, !P4.
  unfold h0. cbn [set_FreeHook set_RefCnt Events HookFrees FreeHook RefCnt].
  rewrite Nat.eqb_refl.
  split; [exact HH|]. split; [exact HR|]. split; [reflexivity|].
  split; [reflexivity|]. split; [apply Ip4HookOf_Unhook|]. split; [reflexivity|].
  intros v Hv. rewrite P4. unfold h0. cbn [set_FreeHook set_RefCnt RefCnt].
  apply Nat.eqb_neq in Hv. rewrite Hv. reflexivity.
Qed.

Lemma Ip4OnFreeFragments_frees_entry_witness :
  let st1 := Ip4ReassembleAll [SampleFragment 0 true 16 1 1] SampleStart in
  let r := Ip4Reassemble SampleHash (snd (fst st1)) (SampleFragment 16 false 8 2 2)
                         (snd st1) in
  match fst (fst r) with
  | RetPacket NewPacket A =>
      let h' := snd r in
      let h'' := NetbufFree NewPacket h' in
      Ip4HookOf (Vector NewPacket) (FreeHook h') = Some A /\
      RefCnt h' (Vector NewPacket) = 1%nat /\
      Events h'' = Events h' ++ [EvFree NewPacket] /\
      HookFrees h'' = HookFrees h' ++ Fragments A /\
      Ip4HookOf (Vector NewPacket) (FreeHook h'') = None /\
      RefCnt h'' (Vector NewPacket) = 0%nat /\
      forall v, v <> Vector NewPacket ->
        RefCnt h'' v =
        (RefCnt h' v - count_occ Nat.eq_dec (map Vector (Fragments A)) v)%nat
  | _ => False
  end.
Proof.
  cbn zeta.
  destruct (Ip4Reassemble SampleHash
              (snd (fst (Ip4ReassembleAll [SampleFragment 0 true 16 1 1] SampleStart)))
              (SampleFragment 16 false 8 2 2)
              (snd (Ip4ReassembleAll [SampleFragment 0 true 16 1 1] SampleStart)))
    as [[ret T'] h'] eqn:E.
  destruct ret as [|NewPacket A|]; cbn [fst snd];
    [vm_compute in E; discriminate E | | vm_compute in E; discriminate E].
  apply (Ip4OnFreeFragments_frees_entry SampleHash _ _ _ NewPacket A T' h' E).
  vm_compute in E. inversion E; subst. repeat constructor.
Defined.
